(** * Ladybug psychrometric chart and 3D chart: a shallow embedding

    The development follows two Grasshopper components of Ladybug 0.0.58,
    [Ladybug_Psychrometric Chart.py] and [Ladybug_3D Chart.py].  Both are
    IronPython 2.7 scripts: [/] on two integers is floor division, a
    [for] variable survives its loop, a negative list index counts from
    the end, and an uncaught exception aborts the run.

    Numbers that the scripts hold as floats are modelled as exact
    rationals ([Q]); integers as [Z].  Where the outcome of a test hangs
    on it, the rounding of a float operation is written out ([Py.double]),
    the narrowing to single precision is a parameter, and a float that is
    no number is a value of its own.  The geometry kernel (Rhino), the
    comfort model and Python's [exec] are collaborators of the scripts
    and enter the model as section variables. *)

From Stdlib Require Import ZArith QArith Qround List String Ascii Bool Lia Lqa.
From Stdlib Require Import Qpower Qabs DecimalString Sorted.
Import ListNotations.

Local Open Scope string_scope.
Local Open Scope list_scope.
Local Open Scope Z_scope.

(** ** Python run-time model *)

Module Py.

Inductive exn : Type :=
| IndexError
| NameError
| ZeroDivisionError
| TypeError
| ValueError
| SyntaxError.

(** The outcome of running a piece of Python: a value, or an exception
    that nobody caught. *)
Inductive result (A : Type) : Type :=
| Ok (a : A)
| Raise (e : exn).

Arguments Ok {A} a.
Arguments Raise {A} e.

Definition bind {A B : Type} (c : result A) (k : A -> result B) : result B :=
  match c with
  | Ok a => k a
  | Raise e => Raise e
  end.

(** [try: c  except: h] with a bare [except]. *)
Definition try_except {A : Type} (c : result A) (h : result A) : result A :=
  match c with
  | Ok a => Ok a
  | Raise _ => h
  end.

(** The objects that travel through the components' list inputs. *)
Inductive obj : Type :=
| PStr (s : string)
| PInt (z : Z)
| PFloat (q : Q)
| PBool (b : bool)
| PTuple (t : list Z).

(** The position a list of length [n] gives to index [i]: a negative
    index counts from the end, anything outside raises. *)
Definition index_of (n : nat) (i : Z) : result nat :=
  let j := if i <? 0 then i + Z.of_nat n else i in
  if (j <? 0) || (Z.of_nat n <=? j) then Raise IndexError
  else Ok (Z.to_nat j).

(** [l[i]] *)
Definition getitem {A : Type} (l : list A) (i : Z) : result A :=
  match index_of (List.length l) i with
  | Raise e => Raise e
  | Ok k => match nth_error l k with
            | Some a => Ok a
            | None => Raise IndexError
            end
  end.

Fixpoint update {A : Type} (l : list A) (k : nat) (v : A) : list A :=
  match l, k with
  | [], _ => []
  | _ :: t, O => v :: t
  | h :: t, S k' => h :: update t k' v
  end.

(** [l[i] = v] *)
Definition setitem {A : Type} (l : list A) (i : Z) (v : A) : result (list A) :=
  match index_of (List.length l) i with
  | Raise e => Raise e
  | Ok k => Ok (update l k v)
  end.

(** [l[i:j]] for indices that are not negative. *)
Definition slice {A : Type} (l : list A) (i j : nat) : list A :=
  skipn i (firstn j l).

(** [sum(l)] on a list of integers. *)
Definition sum (l : list Z) : Z := fold_left Z.add l 0.

Definition len {A : Type} (l : list A) : Z := Z.of_nat (List.length l).

(** [x < y] on numbers. *)
Definition Qltb (x y : Q) : bool := negb (Qle_bool y x).

(** [s.find(sub)]: the first position of [sub] in [s], or -1. *)
Definition find (s sub : string) : Z :=
  match String.index 0 sub s with
  | Some n => Z.of_nat n
  | None => -1
  end.

(** [s.replace(old, new, count)] for a non-empty [old]: the leftmost
    [count] occurrences, never overlapping, the inserted text is not
    scanned again.  [skip] counts the characters of a matched [old] that
    are still to be dropped. *)
Fixpoint replace_go (old new : string) (count : Z) (skip : nat) (s : string) : string :=
  match s with
  | EmptyString => EmptyString
  | String c s' =>
      match skip with
      | S k => replace_go old new count k s'
      | O =>
          if count <=? 0 then s
          else if String.prefix old s
               then String.append new
                      (replace_go old new (count - 1) (String.length old - 1) s')
               else String c (replace_go old new count 0 s')
      end
  end.

Definition replace (s old new : string) (count : Z) : string :=
  match old with
  | EmptyString => s
  | _ => replace_go old new count 0 s
  end.

(** [s.split(sep)] for a one-character [sep]. *)
Fixpoint split (sep : ascii) (s : string) : list string :=
  match s with
  | EmptyString => [EmptyString]
  | String c s' =>
      if Ascii.eqb c sep then EmptyString :: split sep s'
      else match split sep s' with
           | [] => [String c EmptyString]
           | h :: t => String c h :: t
           end
  end.

(** [repr(n)] of an integer (the backquotes of Python 2). *)
Definition repr_int (n : Z) : string :=
  DecimalString.NilZero.string_of_int (Z.to_int n).

(** The double quote inside a string. *)
Definition dq : string := String (ascii_of_nat 34) EmptyString.

(** The line feed of ['\n']. *)
Definition nl : string := String (ascii_of_nat 10) EmptyString.

(** [s.replace(old, new)] without a count: every occurrence. *)
Definition replace_all (s old new : string) : string :=
  replace s old new (Z.of_nat (String.length s)).

(** [range(n)] *)
Definition range (n : Z) : list Z := map Z.of_nat (seq 0 (Z.to_nat n)).

(** The number an object counts as in a comparison, if it is one. *)
Definition as_number (x : obj) : option Q :=
  match x with
  | PInt z => Some (inject_Z z)
  | PFloat q => Some q
  | PBool b => Some (if b then 1%Q else 0%Q)
  | _ => None
  end.

Fixpoint list_eqb (a b : list Z) : bool :=
  match a, b with
  | [], [] => true
  | x :: a', y :: b' => (x =? y) && list_eqb a' b'
  | _, _ => false
  end.

(** [x == y] on objects. *)
Definition obj_eqb (x y : obj) : bool :=
  match x, y with
  | PStr a, PStr b => String.eqb a b
  | PTuple a, PTuple b => list_eqb a b
  | _, _ =>
      match as_number x, as_number y with
      | Some p, Some q => Qeq_bool p q
      | _, _ => false
      end
  end.

(** [floor(log2(|x|))] for a number other than zero. *)
Definition floorLog2 (x : Q) : Z :=
  let e0 := Z.log2 (Z.abs (Qnum x)) - Z.log2 (Z.pos (Qden x)) in
  if Qle_bool (2 ^ e0)%Q (Qabs x) then e0 else e0 - 1.

(** To the nearest integer, halves to the even one. *)
Definition roundHalfEven (x : Q) : Z :=
  let f := Qfloor x in
  match (x - inject_Z f ?= 1 # 2)%Q with
  | Lt => f
  | Gt => f + 1
  | Eq => if Z.even f then f else f + 1
  end.

(** The result of a float operation whose exact result is [x]: the double
    nearest to [x], halves to the even one, that is [m * 2^e] with [m] an
    integer of 53 binary digits.  The exponent is not bounded: this is the
    double wherever the operation neither overflows nor rounds a
    subnormal, and a sum of two doubles does not round where doubles are
    subnormal. *)
Definition double (x : Q) : Q :=
  if Qeq_bool x 0 then 0%Q
  else let e := floorLog2 x - 52 in
       (inject_Z (roundHalfEven (x / 2 ^ e)) * 2 ^ e)%Q.


(** [for i, x in enumerate(l)] with an exception-aware body. *)
Fixpoint for_enumerate {A B : Type} (body : Z -> A -> result B)
         (i : Z) (l : list A) : result (list B) :=
  match l with
  | [] => Ok []
  | x :: rest =>
      match body i x with
      | Raise e => Raise e
      | Ok b =>
          match for_enumerate body (i + 1) rest with
          | Raise e => Raise e
          | Ok bs => Ok (b :: bs)
          end
      end
  end.

End Py.

Import Py.

Declare Scope py_scope.
Delimit Scope py_scope with py.
Notation "x <- c ;; k" := (Py.bind c (fun x => k))
  (at level 61, c at next level, right associativity) : py_scope.
Notation "' pat <- c ;; k" := (Py.bind c (fun x => match x with pat => k end))
  (at level 61, pat pattern, c at next level, right associativity) : py_scope.
Local Open Scope py_scope.

(** ** Ladybug_Psychrometric Chart.py *)

Module PsychChart.

(** *** statisticallyAnalyzePolygons *)

(** [Rhino.Geometry.PointContainment], the answer of [Curve.Contains]. *)
Inductive PointContainment : Type :=
| Unset
| Inside
| Outside
| Coincident.

(** [str(c) == "Inside"] *)
Definition isInside (c : PointContainment) : bool :=
  match c with
  | Inside => true
  | _ => false
  end.

Section Statistics.

Variables Polygon Point : Type.
(** [polygon.Contains(hourPt, Plane.WorldXY, tolerance)] *)
Variable Contains : Polygon -> Point -> PointContainment.

(** The component input [analysisPeriod_], read as a global. *)
Variable analysisPeriod_ : list obj.

(** The plain loop: 1 for a point the kernel reports inside, else 0. *)
Definition comfBoolPlain (comfortPolygon : Polygon) (hourPts : list Point) : list Z :=
  map (fun hourPt => if isInside (Contains comfortPolygon hourPt) then 1 else 0) hourPts.

(** The loop of the [else] branch at line 1351: the point must be inside
    and [airTemp[hourCt-12]] below [maxComfortPolyTemp-tempBelowComf].
    [and] short-circuits, so [airTemp] is indexed for inside points only. *)
Fixpoint comfBoolLagged (comfortPolygon : Polygon) (airTemp : list Q)
         (maxComfortPolyTemp tempBelowComf : Q)
         (hourCt : Z) (hourPts : list Point) : result (list Z) :=
  match hourPts with
  | [] => Ok []
  | hourPt :: rest =>
      cond <- (if isInside (Contains comfortPolygon hourPt)
               then t <- getitem airTemp (hourCt - 12) ;;
                    Ok (Qltb t (maxComfortPolyTemp - tempBelowComf)%Q)
               else Ok false) ;;
      tail <- comfBoolLagged comfortPolygon airTemp maxComfortPolyTemp
                             tempBelowComf (hourCt + 1) rest ;;
      Ok ((if cond then 1 else 0) :: tail)
  end.

(** [(sum(comfBool)/len(comfBool))*100], on integers. *)
Definition percentUnguarded (comfBool : list Z) : result Z :=
  if len comfBool =? 0 then Raise ZeroDivisionError
  else Ok ((Py.sum comfBool / len comfBool) * 100).

(** The same behind [if len(comfBool) != 0: ... else: 100]. *)
Definition percentGuarded (comfBool : list Z) : Z :=
  if negb (len comfBool =? 0) then (Py.sum comfBool / len comfBool) * 100
  else 100.

(** The seven [insert(0, ...)] calls that give a list its Ladybug header
    when EPW data is connected. *)
Definition insertHeader (epwData : bool) (epwStr : list obj)
           (title : result string) (comfBool : list Z) : result (list obj) :=
  let data := map PInt comfBool in
  if epwData then
    '(h5, h6) <- (if negb (len analysisPeriod_ =? 0)
                  then a1 <- getitem analysisPeriod_ 1 ;;
                       a0 <- getitem analysisPeriod_ 0 ;;
                       Ok (a0, a1)
                  else e6 <- getitem epwStr 6 ;;
                       e5 <- getitem epwStr 5 ;;
                       Ok (e5, e6)) ;;
    h4 <- getitem epwStr 4 ;;
    name <- title ;;
    h1 <- getitem epwStr 1 ;;
    h0 <- getitem epwStr 0 ;;
    Ok (h0 :: h1 :: PStr name :: PStr "Boolean Value" :: h4 :: h5 :: h6 :: data)
  else Ok data.

Section Run.

Variable hourPts : list Point.
Variable epwData : bool.
Variable epwStr : list obj.
Variable strategyTextNames : list string.
Variable tempBelowComf : Q.
Variable airTemp : list Q.
Variable maxComfortPolyTemp : Q.
Variable patternList : list obj.

(** Body of the first loop (lines 1319-1341). *)
Definition comfortEntry (countComf : Z) (comfortPolygon : Polygon)
  : result (Z * list obj) :=
  let comfBool := comfBoolPlain comfortPolygon hourPts in
  let comfPercent := percentGuarded comfBool in
  row <- insertHeader epwData epwStr
           (n <- getitem strategyTextNames countComf ;;
            Ok ("Comfortable Hours in " ++ n ++ " Polygon")%string)
           comfBool ;;
  Ok (comfPercent, row).

(** The test of line 1346 on the region's name. *)
Definition plainTest (name : string) : bool :=
  negb (String.eqb name "Thermal Mass + Night Vent")
  || negb epwData
  || negb (len patternList =? 0).

(** The 0/1 list of a strategy region (lines 1345-1353). *)
Definition strategyComfBool (name : string) (comfortPolygon : Polygon)
  : result (list Z) :=
  if plainTest name then Ok (comfBoolPlain comfortPolygon hourPts)
  else comfBoolLagged comfortPolygon airTemp maxComfortPolyTemp
                      tempBelowComf 0 hourPts.

(** Body of the second loop (lines 1344-1368).  [countComf] is the
    variable the first loop left behind; it is unbound when that loop
    never ran. *)
Definition strategyEntry (countComf : option Z) (countStrat : Z)
           (comfortPolygon : Polygon) : result (Z * list obj) :=
  cc <- (match countComf with Some c => Ok c | None => Raise NameError end) ;;
  name <- getitem strategyTextNames (cc + countStrat + 1) ;;
  comfBool <- strategyComfBool name comfortPolygon ;;
  comfPercent <- percentUnguarded comfBool ;;
  row <- insertHeader epwData epwStr
           (n <- getitem strategyTextNames (cc + countStrat + 1) ;;
            Ok ("Comfortable Hours in " ++ n ++ " Polygon")%string)
           comfBool ;;
  Ok (comfPercent, row).

(** Body of the third loop (lines 1373-1383). *)
Definition coverageEntry (polygon : Polygon) : Z * list Z :=
  let comfBool := comfBoolPlain polygon hourPts in
  (percentGuarded comfBool, comfBool).

(** The inner loop of lines 1389-1393 for [listCount > 0]:
    [finalComfOrNot[count] = finalComfOrNot[count] + item]. *)
Fixpoint addInto (finalComfOrNot : list Z) (count : nat) (l : list Z)
  : result (list Z) :=
  match l with
  | [] => Ok finalComfOrNot
  | item :: rest =>
      old <- getitem finalComfOrNot (Z.of_nat count) ;;
      final' <- setitem finalComfOrNot (Z.of_nat count) (old + item) ;;
      addInto final' (S count) rest
  end.

(** Lines 1387-1393. *)
Fixpoint buildFinalComfOrNot (finalComfOrNot : list Z) (listCount : nat)
         (temporaryComfOrNot : list (list Z)) : result (list Z) :=
  match temporaryComfOrNot with
  | [] => Ok finalComfOrNot
  | l :: rest =>
      final' <- (if Nat.eqb listCount 0 then Ok (finalComfOrNot ++ l)
                 else addInto finalComfOrNot 0 l) ;;
      buildFinalComfOrNot final' (S listCount) rest
  end.

(** What the function hands back:
    [finalTotalPercent, finalComfOrNot, strategyPercent, strategyOrNot]. *)
Record Statistics : Type := mkStatistics {
  finalTotalPercent : Z;
  finalComfOrNot : list obj;
  strategyPercent : list Z;
  strategyOrNot : list (list obj)
}.

Definition lastIndex {A : Type} (l : list A) : option Z :=
  match l with
  | [] => None
  | _ => Some (len l - 1)
  end.

Definition statisticallyAnalyzePolygons
           (comfortPolyline strategyPolylines unionedCurves : list Polygon)
  : result Statistics :=
  comf <- for_enumerate comfortEntry 0 comfortPolyline ;;
  strat <- for_enumerate (strategyEntry (lastIndex comfortPolyline)) 0
                         strategyPolylines ;;
  let temporary := map coverageEntry unionedCurves in
  let temporaryPercent := map fst temporary in
  let temporaryComfOrNot := map snd temporary in
  final <- buildFinalComfOrNot [] 0 temporaryComfOrNot ;;
  finalRow <- insertHeader epwData epwStr
                (Ok "Comfortable Hours in All Polygons") final ;;
  Ok {| finalTotalPercent := Py.sum temporaryPercent;
        finalComfOrNot := finalRow;
        strategyPercent := map fst comf ++ map fst strat;
        strategyOrNot := map snd comf ++ map snd strat |}.

End Run.

End Statistics.

Arguments comfBoolPlain {Polygon Point} Contains comfortPolygon hourPts.
Arguments comfBoolLagged {Polygon Point} Contains comfortPolygon airTemp
  maxComfortPolyTemp tempBelowComf hourCt hourPts.
Arguments comfortEntry {Polygon Point} Contains analysisPeriod_ hourPts epwData
  epwStr strategyTextNames countComf comfortPolygon.
Arguments strategyComfBool {Polygon Point} Contains hourPts epwData tempBelowComf
  airTemp maxComfortPolyTemp patternList name comfortPolygon.
Arguments strategyEntry {Polygon Point} Contains analysisPeriod_ hourPts epwData
  epwStr strategyTextNames tempBelowComf airTemp maxComfortPolyTemp patternList
  countComf countStrat comfortPolygon.
Arguments coverageEntry {Polygon Point} Contains hourPts polygon.
Arguments statisticallyAnalyzePolygons {Polygon Point} Contains analysisPeriod_
  hourPts epwData epwStr strategyTextNames tempBelowComf airTemp
  maxComfortPolyTemp patternList comfortPolyline strategyPolylines unionedCurves.

(** *** colorMesh: the frequency of the hours over the chart's mesh faces *)

(** [round(x)] of Python 2: to the nearest integer, halves away from zero. *)
Definition round (x : Q) : Z :=
  if Qle_bool 0 x then Qfloor (x + (1 # 2)) else Qceiling (x - (1 # 2)).

(** Lines 751-755.  The sum [airTemp[hour] + 19.5] is a float, the exact
    sum rounded to a double; [round] is exact on a double and [int(...)] is
    the identity on a rounded value. *)
Definition getTempIndex (airTemp : list Q) (hour : Z) : result Z :=
  t <- getitem airTemp hour ;;
  if Qltb (-20) t && Qltb t 50
  then Ok (round (double (t + (195 # 10))))
  else Ok (-1).

(** The [if humid < 5 ... elif humid < 10 ... else] ladder of lines 760-779. *)
Definition humidRow (humid : Q) : Z :=
  if Qltb humid 5 then 0
  else if Qltb humid 10 then 1
  else if Qltb humid 15 then 2
  else if Qltb humid 20 then 3
  else if Qltb humid 25 then 4
  else if Qltb humid 30 then 5
  else if Qltb humid 35 then 6
  else if Qltb humid 40 then 7
  else if Qltb humid 45 then 8
  else if Qltb humid 50 then 9
  else if Qltb humid 55 then 10
  else if Qltb humid 60 then 11
  else if Qltb humid 65 then 12
  else if Qltb humid 70 then 13
  else if Qltb humid 75 then 14
  else if Qltb humid 80 then 15
  else if Qltb humid 85 then 16
  else if Qltb humid 90 then 17
  else if Qltb humid 95 then 18
  else 19.

(** [meshFrequency]: one list of 1s per mesh face, 20 humidity rows
    ([range(0, 100, 5)]) of 70 temperature faces ([range(-20, 50, 1)]). *)
Definition MeshFrequency : Type := list (list (list Z)).

Definition emptyMeshFrequency : MeshFrequency :=
  repeat (repeat [] 70%nat) 20%nat.

(** [meshFrequency[row][tempIndex].append(1)] *)
Definition appendOne (meshFrequency : MeshFrequency) (row tempIndex : Z)
  : result MeshFrequency :=
  humidlist <- getitem meshFrequency row ;;
  templist <- getitem humidlist tempIndex ;;
  humidlist' <- setitem humidlist tempIndex (templist ++ [1]) ;;
  setitem meshFrequency row humidlist'.

(** The loop of lines 757-779. *)
Fixpoint binHours (airTemp : list Q) (hour : Z) (relHumid : list Q)
         (meshFrequency : MeshFrequency) : result MeshFrequency :=
  match relHumid with
  | [] => Ok meshFrequency
  | humid :: rest =>
      tempIndex <- getTempIndex airTemp hour ;;
      meshFrequency' <- (if negb (tempIndex =? -1)
                         then appendOne meshFrequency (humidRow humid) tempIndex
                         else Ok meshFrequency) ;;
      binHours airTemp (hour + 1) rest meshFrequency'
  end.

(** Lines 782-785. *)
Definition sumFaces (meshFrequency : MeshFrequency) : list Z :=
  flat_map (fun humidlist => map Py.sum humidlist) meshFrequency.

(** [finalMeshFrequency] as [colorMesh] returns it. *)
Definition finalMeshFrequency (airTemp relHumid : list Q) : result (list Z) :=
  meshFrequency <- binHours airTemp 0 relHumid emptyMeshFrequency ;;
  Ok (sumFaces meshFrequency).

(** *** unionAllCurves and the two tournament loops *)

Section Union.

Variable Curve : Type.

(** [rs.CurveBooleanUnion([guid1, guid2])] with the curves it leaves in
    the document: it raises, or returns a list that may be empty. *)
Variable CurveBooleanUnion : Curve -> Curve -> result (list Curve).

(** One turn of the loop of lines 813-842 for the pair at [curveCount].
    [a] is the local variable of that name: [None] while it is unbound,
    otherwise what the previous turn left in it.  The comparison
    [a == None] raises for an unbound [a] and is false for a list. *)
Definition unionPair (a : option (list Curve)) (c0 : Curve) (c1 : option Curve)
  : list Curve :=
  let attempt : result (list Curve) :=
    second <- (match c1 with Some c => Ok c | None => Raise IndexError end) ;;
    all <- CurveBooleanUnion c0 second ;;
    a' <- (match all with
           | _ :: _ => Ok all
           | [] => match a with
                   | Some previous => Ok previous
                   | None => Raise NameError
                   end
           end) ;;
    Ok a' in
  match attempt with
  | Ok a' => a'
  | Raise _ => [c0]
  end.

Fixpoint unionLoop (a : option (list Curve)) (res : list Curve)
         (Curves : list Curve) : list Curve :=
  match Curves with
  | [] => res
  | [c0] =>
      let a' := unionPair a c0 None in
      res ++ a'
  | c0 :: c1 :: rest =>
      let a' := unionPair a c0 (Some c1) in
      unionLoop (Some a') (res ++ a') rest
  end.

Definition unionAllCurves (Curves : list Curve) : list Curve :=
  unionLoop None [] Curves.

(** [while len(curves) > 1 and count < int(listLength/2) + 1], with
    [passes] the turns that [count] still allows. *)
Fixpoint tournament (passes : nat) (curves : list Curve) : list Curve :=
  match passes with
  | O => curves
  | S passes' =>
      if 1 <? len curves
      then tournament passes' (unionAllCurves curves)
      else curves
  end.

Definition passLimit (listLength : Z) : nat := Z.to_nat (listLength / 2 + 1).

(** Lines 925-935: the merged comfort curves and what the component
    prints.  [mergedCurvesFinal == None] is asked of the value that
    [unionAllCurves] returned, which is always a list. *)
Definition mergeComfortCurves (mergeComfPolygons_ : bool) (comfortCurves : list Curve)
  : list Curve * list string :=
  if (1 <? len comfortCurves) && mergeComfPolygons_
  then
    let mergedCurvesFinal : option (list Curve) :=
      Some (tournament (passLimit (len comfortCurves)) comfortCurves) in
    match mergedCurvesFinal with
    | None =>
        (comfortCurves,
         ["Attempt to merge comfort curves failed.  Component will return multiple comfort boundaries."])
    | Some merged => (merged, [])
    end
  else (comfortCurves, []).

(** Lines 1286-1297. *)
Definition unionComfortAndStrategies (mergedCurvesFinal passiveStrategyCurves : list Curve)
  : list Curve :=
  let allCurves := mergedCurvesFinal ++ passiveStrategyCurves in
  if 1 <? len allCurves
  then tournament (passLimit (len allCurves)) allCurves
  else allCurves.

End Union.

Arguments unionPair {Curve} CurveBooleanUnion a c0 c1.
Arguments unionLoop {Curve} CurveBooleanUnion a res Curves.
Arguments unionAllCurves {Curve} CurveBooleanUnion Curves.
Arguments tournament {Curve} CurveBooleanUnion passes curves.
Arguments mergeComfortCurves {Curve} CurveBooleanUnion mergeComfPolygons_ comfortCurves.
Arguments unionComfortAndStrategies {Curve} CurveBooleanUnion mergedCurvesFinal
  passiveStrategyCurves.

End PsychChart.

(** ** checkConditionalStatement: what both components share

    Lines 448-467 and 478-498 of the psychrometric chart are lines 60-79
    and 95-118 of the 3D chart. *)

Module Conditional.

(** [[chr(i) for i in xrange(ord('a'), ord('z')+1)]] *)
Definition letters : list string :=
  map (fun i => String (ascii_of_nat i) EmptyString) (seq 97 26).

(** The indices of the letters that occur in the cleaned statement. *)
Definition listNumOf (csCleaned : string) : list Z :=
  flat_map (fun '(count, let_) =>
              if negb (find csCleaned let_ =? -1) then [count] else [])
           (combine (range 26) letters).

(** The first [num] of [listNum] with [num > len(listInfo) - 1]. *)
Fixpoint firstUndefined (listNum : list Z) (lenListInfo : Z) : option Z :=
  match listNum with
  | [] => None
  | num :: rest =>
      if lenListInfo - 1 <? num then Some num
      else firstUndefined rest lenListInfo
  end.

(** The inner [for num in listNum] with its [break]. *)
Fixpoint substitute (listInfo : list (list obj)) (listNum : list Z)
         (statemntPart statementCopy : string) : result (string * string) :=
  match listNum with
  | [] => Ok (statemntPart, statementCopy)
  | num :: rest =>
      let toBeReplacedWith := replace_all "selList[this][HOY]" "this" (repr_int num) in
      info <- getitem listInfo num ;;
      titleObj <- getitem info 2 ;;
      letter <- getitem letters num ;;
      let statemntPart' := replace statemntPart letter toBeReplacedWith 20000 in
      titleToBeReplacedWith <- (match titleObj with
                                | PStr t => Ok t
                                | _ => Raise TypeError
                                end) ;;
      let statementCopy' := replace statementCopy letter titleToBeReplacedWith 20000 in
      if negb (find statementCopy' letter =? -1)
      then Ok (statemntPart', statementCopy')
      else substitute listInfo rest statemntPart' statementCopy'
  end.

(** The loop over the space-separated parts of the statement. *)
Fixpoint translate (listInfo : list (list obj)) (listNum : list Z)
         (statement : list string) (finalStatement titleStatement : string)
  : result (string * string) :=
  match statement with
  | [] => Ok (finalStatement, titleStatement)
  | statemntPart :: rest =>
      '(part, title) <-
        (if negb (String.eqb statemntPart "and") && negb (String.eqb statemntPart "or")
         then '(part', copy') <- substitute listInfo listNum statemntPart statemntPart ;;
              Ok (part', (titleStatement ++ " " ++ copy')%string)
         else Ok (statemntPart, (titleStatement ++ nl ++ statemntPart)%string)) ;;
      translate listInfo listNum rest (finalStatement ++ " " ++ part)%string title
  end.

Definition titleStart : string :=
  ("...                         ...                         ..." ++ nl ++
   "Conditional Selection Applied:" ++ nl)%string.

Definition buildStatements (listInfo : list (list obj)) (listNum : list Z)
           (conditionalStatement : string) : result (string * string) :=
  translate listInfo listNum (split " "%char conditionalStatement)
            "pattern = " titleStart.

(** Why a statement was turned down. *)
Inductive Warning : Type :=
| UndefinedList (num : Z)
| NotHourlyData (i : Z)
| DifferentPeriod (i : Z)
| StatementError (e : exn).

(** The two returns: [-1, -1] after a warning, or
    [titleStatement, patternList]. *)
Inductive Checked : Type :=
| Invalid (w : Warning)
| Pattern (titleStatement : string) (patternList : list obj).

(** What the collaborators give: [lb_preparation.separateList] returns
    [indexList, listInfo]; [exec] runs the final statement with [selList]
    and [HOY] in scope and leaves a value in [pattern], or raises. *)
Definition SeparateList : Type := list obj -> list nat * list (list obj).
Definition Exec : Type := string -> list (list obj) -> Z -> result obj.

(** [annualHourlyData[indexList[i]+7:indexList[i+1]]] *)
Definition sliceOfList (annualHourlyData : list obj) (indexList : list nat) (i : Z)
  : result (list obj) :=
  start <- getitem indexList i ;;
  stop <- getitem indexList (i + 1) ;;
  Ok (slice annualHourlyData (start + 7)%nat stop).

End Conditional.

Import Conditional.

Module PsychChartConditional.

Section Check.

Variable separateList : SeparateList.
Variable exec : Exec.

(** [listInfo[i][4]!='Hourly' or listInfo[i][5]!=(1,1,1) or
    listInfo[i][6]!=(12,31,24) or len(selList[i])!=8760] *)
Definition notValidHourly (info : list obj) (sel : list obj) : result bool :=
  f4 <- getitem info 4 ;;
  if negb (obj_eqb f4 (PStr "Hourly")) then Ok true
  else f5 <- getitem info 5 ;;
       if negb (obj_eqb f5 (PTuple [1; 1; 1])) then Ok true
       else f6 <- getitem info 6 ;;
            if negb (obj_eqb f6 (PTuple [12; 31; 24])) then Ok true
            else Ok (negb (len sel =? 8760)).

(** Lines 469-476: [selList] is filled in order; [selList] here is the
    part filled so far. *)
Fixpoint selectLists (annualHourlyData : list obj) (indexList : list nat)
         (i : Z) (listInfo : list (list obj)) (selList : list (list obj))
  : result (Warning + list (list obj)) :=
  match listInfo with
  | [] => Ok (inr selList)
  | info :: rest =>
      sel <- sliceOfList annualHourlyData indexList i ;;
      bad <- notValidHourly info sel ;;
      if bad then Ok (inl (NotHourlyData i))
      else selectLists annualHourlyData indexList (i + 1) rest (selList ++ [sel])
  end.

(** Lines 500-505: [exec] and [append] for every hour, inside one [try]. *)
Fixpoint evalHours (finalStatement : string) (selList : list (list obj))
         (hours : list Z) : result (list obj) :=
  match hours with
  | [] => Ok []
  | HOY :: rest =>
      pattern <- exec finalStatement selList HOY ;;
      tail <- evalHours finalStatement selList rest ;;
      Ok (pattern :: tail)
  end.

Definition checkConditionalStatement (annualHourlyData : list obj)
           (conditionalStatement : string) : result Checked :=
  let '(indexList, listInfo) := separateList annualHourlyData in
  let csCleaned := replace (replace conditionalStatement "and" "" 20000) "or" "" 20000 in
  let listNum := listNumOf csCleaned in
  match firstUndefined listNum (len listInfo) with
  | Some num => Ok (Invalid (UndefinedList num))
  | None =>
      sel <- selectLists annualHourlyData indexList 0 listInfo [] ;;
      match sel with
      | inl w => Ok (Invalid w)
      | inr selList =>
          '(finalStatement, titleStatement) <-
            buildStatements listInfo listNum conditionalStatement ;;
          match evalHours finalStatement selList (range 8760) with
          | Raise e => Ok (Invalid (StatementError e))
          | Ok patternList => Ok (Pattern titleStatement patternList)
          end
      end
  end.

End Check.

End PsychChartConditional.

(** ** Ladybug_3D Chart.py *)

Module Chart3D.

Section Check.

Variable separateList : SeparateList.
Variable exec : Exec.

(** Lines 86-93. *)
Fixpoint selectLists (annualHourlyData : list obj) (indexList : list nat)
         (startHour endHour : obj)
         (i : Z) (listInfo : list (list obj)) (selList : list (list obj))
  : result (Warning + list (list obj)) :=
  match listInfo with
  | [] => Ok (inr selList)
  | info :: rest =>
      sel <- sliceOfList annualHourlyData indexList i ;;
      f5 <- getitem info 5 ;;
      bad <- (if negb (obj_eqb f5 startHour) then Ok true
              else f6 <- getitem info 6 ;; Ok (negb (obj_eqb f6 endHour))) ;;
      if bad then Ok (inl (DifferentPeriod i))
      else selectLists annualHourlyData indexList startHour endHour
                       (i + 1) rest (selList ++ [sel])
  end.

(** Lines 121-128: the [try] is inside the loop and its handler is
    [pass]. *)
Fixpoint evalHours (finalStatement : string) (selList : list (list obj))
         (hours : list Z) (patternList : list obj) : list obj :=
  match hours with
  | [] => patternList
  | HOY :: rest =>
      match exec finalStatement selList HOY with
      | Ok pattern => evalHours finalStatement selList rest (patternList ++ [pattern])
      | Raise _ => evalHours finalStatement selList rest patternList
      end
  end.

Definition checkConditionalStatement (annualHourlyData : list obj)
           (conditionalStatement : string) : result Checked :=
  let '(indexList, listInfo) := separateList annualHourlyData in
  let csCleaned := replace_all (replace_all conditionalStatement "and" "") "or" "" in
  let listNum := listNumOf csCleaned in
  match firstUndefined listNum (len listInfo) with
  | Some num => Ok (Invalid (UndefinedList num))
  | None =>
      info0 <- getitem listInfo 0 ;;
      startHour <- getitem info0 5 ;;
      endHour <- getitem info0 6 ;;
      sel <- selectLists annualHourlyData indexList startHour endHour 0 listInfo [] ;;
      match sel with
      | inl w => Ok (Invalid w)
      | inr selList =>
          '(finalStatement, titleStatement) <-
            buildStatements listInfo listNum conditionalStatement ;;
          Ok (Pattern titleStatement
                      (evalHours finalStatement selList (range 8760) []))
      end
  end.

End Check.

End Chart3D.

(** ** Ladybug_Psychrometric Chart.py: the strategy data and the inputs *)

Module PsychChartStrategies.

(** [list.sort()] on numbers. *)
Fixpoint insert (x : Q) (l : list Q) : list Q :=
  match l with
  | [] => [x]
  | y :: t => if Qle_bool x y then x :: l else y :: insert x t
  end.

Definition sort (l : list Q) : list Q := fold_right insert [] l.

(** Lines 946-949: both lists are sorted in place, then
    [windSpeed[0] = windSpeed[-1]] and [cloLevel[0] = cloLevel[0]]. *)
Definition organize (windSpeed cloLevel : list Q) : result (list Q * list Q) :=
  let windSpeed1 := sort windSpeed in
  fastest <- getitem windSpeed1 (-1) ;;
  windSpeed2 <- setitem windSpeed1 0 fastest ;;
  let cloLevel1 := sort cloLevel in
  lightest <- getitem cloLevel1 0 ;;
  cloLevel2 <- setitem cloLevel1 0 lightest ;;
  Ok (windSpeed2, cloLevel2).

Record StrategyPar : Type := mkStrategyPar {
  tempAboveComf : Q;
  tempBelowComf : Q;
  maxWindSpeed : Q;
  bldgBalPt : Q
}.

Definition defaultStrategyPar : StrategyPar :=
  mkStrategyPar (167 # 10) (28 # 10) (15 # 10) (128 # 10).

(** Lines 998-1017, with the warning the component adds. *)
Definition readStrategyPar (strategyPar_ : list Q) : StrategyPar * list string :=
  match strategyPar_ with
  | [] => (defaultStrategyPar, [])
  | [p0; p1; p2; p3] => (mkStrategyPar p0 p1 p2 p3, [])
  | _ => (defaultStrategyPar,
          [("The strategyPar_ list does not contain valid data.  StrategyPar_ must come from the "
            ++ dq ++ "Ladybug_Passive Strategy Parameters" ++ dq ++ " component.")%string])
  end.

(** Where an upper comfort temperature lands on a humidity line
    (lines 1164-1168): on the line at that temperature, or clamped to the
    line's start or end. *)
Inductive BoundaryPoint : Type :=
| OnHumidityLine (count : Z) (temper : Q)
| PointAtStart (count : Z)
| PointAtEnd (count : Z).

Definition upIntersect (count : Z) (upTemper : Q) : BoundaryPoint :=
  if Qltb upTemper 50
  then if Qltb (-20) upTemper then OnHumidityLine count upTemper
       else PointAtStart count
  else PointAtEnd count.

Section Fans.

(** [lb_comfortModels.calcComfRange(initialGuessUp, initialGuessDown,
    radTemp, windSpeed, relHumid, metRate, cloLevel, exWork,
    eightyPercent)], returning [upTemper, downTemper]. *)
Variable calcComfRange : Q -> Q -> Q -> Q -> Q -> Q -> Q -> Q -> bool -> Q * Q.

(** Lines 1160-1169: the three points of the fans' upper boundary. *)
Definition fansUpTemperPts (radTemp metRate cloLevel exWork : list Q)
           (maxWindSpeed : Q) (eightyPercentComfort : bool) (comfCount : Z)
  : result (list BoundaryPoint) :=
  for_enumerate
    (fun count humidity =>
       r <- getitem radTemp comfCount ;;
       m <- getitem metRate comfCount ;;
       c <- getitem cloLevel comfCount ;;
       e <- getitem exWork comfCount ;;
       let '(upTemper, downTemper) :=
         calcComfRange (r + 2)%Q (r - 2)%Q r maxWindSpeed humidity m c e
                       eightyPercentComfort in
       Ok (upIntersect count upTemper))
    0 [0%Q; 50%Q; 100%Q].

End Fans.

(** *** The quantities of the fans strategy *)

(** The largest of the wind speeds, the smallest of the clothing levels, and
    whether the strategy is among those asked for. *)
Definition fastest (windSpeed : list Q) : Q := last (sort windSpeed) 0%Q.
Definition lightest (cloLevel : list Q) : Q := hd 0%Q (sort cloLevel).
Definition fansRequested (passiveStrategy : list string) : bool :=
  existsb (String.eqb "Occupant Use of Fans") passiveStrategy.

End PsychChartStrategies.

Module PsychChartInputs.

Section Inputs.

(** [float(s)] on text: [None] when it raises [ValueError]. *)
Variable float_of_string : string -> option Q.

(** [float(item)] *)
Definition float (item : obj) : result Q :=
  match item with
  | PInt z => Ok (inject_Z z)
  | PFloat q => Ok q
  | PBool b => Ok (if b then 1%Q else 0%Q)
  | PStr s => match float_of_string s with
              | Some q => Ok q
              | None => Raise ValueError
              end
  | PTuple _ => Raise TypeError
  end.

(** ["text" in item] *)
Definition textIn (text : string) (item : obj) : result bool :=
  match item with
  | PStr s => Ok (negb (find s text =? -1))
  | PTuple _ => Ok false
  | _ => Raise TypeError
  end.

(** What lines 155-184 leave behind. *)
Record PressureCheck : Type := mkPressureCheck {
  checkData3 : bool;
  barPress : list obj;
  pressMultVal : bool;
  epwData : bool;
  epwStr : list obj;
  warnings : list string
}.

(** The loop of lines 168-174 over the items, on the state
    [(barPress, checkData3, nonValue)]. *)
Fixpoint readPressures (items : list obj) (state : list obj * bool * bool)
  : list obj * bool * bool :=
  match items with
  | [] => state
  | item :: rest =>
      let '(barPress, checkData3, nonValue) := state in
      let state' :=
        match float item with
        | Ok x =>
            if Qle_bool 0 x && Qle_bool x 100
            then (barPress ++ [PFloat x], true, nonValue)
            else (barPress, checkData3, false)
        | Raise _ => (barPress, false, nonValue)
        end in
      readPressures rest state'
  end.

(** Lines 155-184 of [checkTheInputs]; [epwData0] and [epwStr0] are the
    values the two earlier inputs left in [epwData] and [epwStr]. *)
Definition checkBarometricPressure (epwData0 : bool) (epwStr0 : list obj)
           (barometricPressure_ : list obj) : PressureCheck :=
  if negb (len barometricPressure_ =? 0) then
    let tagged :=
      try_except (item2 <- getitem barometricPressure_ 2 ;;
                  textIn "Barometric Pressure" item2)
                 (Ok false) in
    let '(barPress1, checkData3a, epwData1, epwStr1) :=
      match tagged with
      | Ok true => (slice barometricPressure_ 7 (List.length barometricPressure_),
                    true, true, slice barometricPressure_ 0 7)
      | _ => ([], false, epwData0, epwStr0)
      end in
    let '(barPress2, checkData3b, nonValue) :=
      if negb checkData3a
      then readPressures barometricPressure_ (barPress1, checkData3a, true)
      else (barPress1, checkData3a, true) in
    let checkData3c := if negb nonValue then false else checkData3b in
    mkPressureCheck checkData3c barPress2 (1 <? len barPress2) epwData1 epwStr1
      (if negb checkData3c
       then ["barometricPressure_ input does not contain valid value."]
       else [])
  else
    mkPressureCheck true [PInt 101325] false epwData0 epwStr0 [].

(** Line 433: the final go-ahead is the conjunction of the thirteen
    checks. *)
Definition checkData (checkData1 checkData2 checkData3 checkData4 checkData5
                      checkData6 checkData7 checkData8 checkData9 checkData10
                      checkData11 checkData12 checkData13 : bool) : bool :=
  checkData1 && checkData2 && checkData3 && checkData4 && checkData5 &&
  checkData6 && checkData7 && checkData8 && checkData9 && checkData10 &&
  checkData11 && checkData12 && checkData13.

End Inputs.

(** A pressure supplied directly as a number: an integer or a float. *)
Definition plainNumber (n : Z + Q) : obj :=
  match n with
  | inl z => PInt z
  | inr q => PFloat q
  end.

Definition valueOf (n : Z + Q) : Q :=
  match n with
  | inl z => inject_Z z
  | inr q => q
  end.

(** [0 <= x <= 100] *)
Definition within_0_100 (x : Q) : bool := Qle_bool 0 x && Qle_bool x 100.

End PsychChartInputs.

(** ** A fragment of Python for the statements handed to [exec]

    The final statement reads [pattern =  part part ...]: comparison chains
    over integer literals, [selList[n][HOY]] and one division of the two,
    joined by [and] and [or], on lists of numbers.  Text outside this
    fragment is answered with [SyntaxError], which is what Python answers
    for the malformed statements used below. *)

Module Fragment.

(** A literal or [selList[n][HOY]]. *)
Inductive term : Type :=
| Lit (n : Z)
| Sel (n : Z).

(** A term, or one term divided by another. *)
Inductive operand : Type :=
| Term (t : term)
| Div (t1 t2 : term).

Inductive cmp : Type := Lt | Gt | Le | Ge | Eq | Ne.

Definition chain : Type := (operand * list (cmp * operand))%type.

Definition digit (c : ascii) : option Z :=
  let n := Z.of_nat (nat_of_ascii c) in
  if (48 <=? n) && (n <=? 57) then Some (n - 48) else None.

Fixpoint digits (acc : Z) (s : string) : option Z :=
  match s with
  | EmptyString => Some acc
  | String c s' =>
      match digit c with
      | Some d => digits (10 * acc + d) s'
      | None => None
      end
  end.

Definition number (s : string) : option Z :=
  match s with
  | EmptyString => None
  | _ => digits 0 s
  end.

Definition parseTerm (s : string) : option term :=
  if String.prefix "selList[" s then
    let inner := String.substring 8 (String.length s - 14) s in
    if String.eqb s ("selList[" ++ inner ++ "][HOY]")%string
    then option_map Sel (number inner)
    else None
  else option_map Lit (number s).

Definition parseOperand (s : string) : option operand :=
  match split "/"%char s with
  | [t] => option_map Term (parseTerm t)
  | [t1; t2] =>
      match parseTerm t1, parseTerm t2 with
      | Some a, Some b => Some (Div a b)
      | _, _ => None
      end
  | _ => None
  end.

Definition isOperatorChar (c : ascii) : bool :=
  Ascii.eqb c "<" || Ascii.eqb c ">" || Ascii.eqb c "=" || Ascii.eqb c "!".

Definition operator1 (c : ascii) : option cmp :=
  if Ascii.eqb c "<" then Some Lt
  else if Ascii.eqb c ">" then Some Gt
  else None.

Definition operator2 (c : ascii) : option cmp :=
  if Ascii.eqb c "<" then Some Le
  else if Ascii.eqb c ">" then Some Ge
  else if Ascii.eqb c "=" then Some Eq
  else if Ascii.eqb c "!" then Some Ne
  else None.

(** Cut a part at its comparison operators: the texts between them and the
    operators, in order. *)
Fixpoint cut (current : string) (s : string) : option (list string * list cmp) :=
  match s with
  | EmptyString => Some ([current], [])
  | String c rest =>
      if isOperatorChar c then
        match rest with
        | String "=" rest' =>
            match operator2 c, cut EmptyString rest' with
            | Some o, Some (texts, ops) => Some (current :: texts, o :: ops)
            | _, _ => None
            end
        | _ =>
            match operator1 c, cut EmptyString rest with
            | Some o, Some (texts, ops) => Some (current :: texts, o :: ops)
            | _, _ => None
            end
        end
      else cut (current ++ String c EmptyString)%string rest
  end.

Fixpoint parseOperands (texts : list string) : option (list operand) :=
  match texts with
  | [] => Some []
  | t :: rest =>
      match parseOperand t, parseOperands rest with
      | Some o, Some os => Some (o :: os)
      | _, _ => None
      end
  end.

Definition parseChain (part : string) : option chain :=
  match cut EmptyString part with
  | Some (texts, ops) =>
      match parseOperands texts, ops with
      | Some (first :: others), _ :: _ => Some (first, combine ops others)
      | _, _ => None
      end
  | None => None
  end.

(** Split the parts at a keyword; no group may be empty. *)
Fixpoint groups (keyword : string) (current : list string) (parts : list string)
  : option (list (list string)) :=
  match parts with
  | [] => match current with
          | [] => None
          | _ => Some [current]
          end
  | p :: rest =>
      if String.eqb p keyword then
        match current, groups keyword [] rest with
        | _ :: _, Some gs => Some (current :: gs)
        | _, _ => None
        end
      else groups keyword (current ++ [p]) rest
  end.

Fixpoint parseAnd (conjuncts : list (list string)) : option (list chain) :=
  match conjuncts with
  | [] => Some []
  | [part] :: rest =>
      match parseChain part, parseAnd rest with
      | Some c, Some cs => Some (c :: cs)
      | _, _ => None
      end
  | _ => None
  end.

Fixpoint parseOr (disjuncts : list (list string)) : option (list (list chain)) :=
  match disjuncts with
  | [] => Some []
  | d :: rest =>
      match groups "and" [] d with
      | Some conjuncts =>
          match parseAnd conjuncts, parseOr rest with
          | Some c, Some cs => Some (c :: cs)
          | _, _ => None
          end
      | None => None
      end
  end.

Definition parse (finalStatement : string) : option (list (list chain)) :=
  if String.prefix "pattern = " finalStatement then
    let text := String.substring 10 (String.length finalStatement - 10) finalStatement in
    let parts := filter (fun p => negb (String.eqb p "")) (split " "%char text) in
    match groups "or" [] parts with
    | Some disjuncts => parseOr disjuncts
    | None => None
    end
  else None.

(** A number at run time: an integer or a float. *)
Definition evalTerm (selList : list (list obj)) (HOY : Z) (t : term) : result (Z + Q) :=
  match t with
  | Lit n => Ok (inl n)
  | Sel n =>
      l <- getitem selList n ;;
      x <- getitem l HOY ;;
      match x with
      | PInt z => Ok (inl z)
      | PFloat q => Ok (inr q)
      | _ => Raise TypeError
      end
  end.

Definition toQ (x : Z + Q) : Q :=
  match x with
  | inl z => inject_Z z
  | inr q => q
  end.

(** [x / y] of Python 2: floor division on two integers, division
    otherwise; a zero divisor raises. *)
Definition divide (x y : Z + Q) : result (Z + Q) :=
  match x, y with
  | inl a, inl b => if b =? 0 then Raise ZeroDivisionError else Ok (inl (a / b))
  | _, _ => if Qeq_bool (toQ y) 0 then Raise ZeroDivisionError
            else Ok (inr (toQ x / toQ y)%Q)
  end.

Definition evalOperand (selList : list (list obj)) (HOY : Z) (o : operand) : result Q :=
  match o with
  | Term t => x <- evalTerm selList HOY t ;; Ok (toQ x)
  | Div t1 t2 =>
      x <- evalTerm selList HOY t1 ;;
      y <- evalTerm selList HOY t2 ;;
      q <- divide x y ;;
      Ok (toQ q)
  end.

Definition compare (o : cmp) (x y : Q) : bool :=
  match o with
  | Lt => Qltb x y
  | Gt => Qltb y x
  | Le => Qle_bool x y
  | Ge => Qle_bool y x
  | Eq => Qeq_bool x y
  | Ne => negb (Qeq_bool x y)
  end.

(** [x < y < z]: each operand once, stopping at the first false link. *)
Fixpoint evalLinks (selList : list (list obj)) (HOY : Z) (left : Q)
         (links : list (cmp * operand)) : result bool :=
  match links with
  | [] => Ok true
  | (o, right_) :: rest =>
      r <- evalOperand selList HOY right_ ;;
      if compare o left r then evalLinks selList HOY r rest else Ok false
  end.

Definition evalChain (selList : list (list obj)) (HOY : Z) (c : chain) : result bool :=
  left <- evalOperand selList HOY (fst c) ;;
  evalLinks selList HOY left (snd c).

Fixpoint evalAnd (selList : list (list obj)) (HOY : Z) (cs : list chain) : result bool :=
  match cs with
  | [] => Ok true
  | c :: rest =>
      b <- evalChain selList HOY c ;;
      if b then evalAnd selList HOY rest else Ok false
  end.

Fixpoint evalOr (selList : list (list obj)) (HOY : Z) (ds : list (list chain))
  : result bool :=
  match ds with
  | [] => Ok false
  | d :: rest =>
      b <- evalAnd selList HOY d ;;
      if b then Ok true else evalOr selList HOY rest
  end.

Definition exec : Exec :=
  fun finalStatement selList HOY =>
    match parse finalStatement with
    | None => Raise SyntaxError
    | Some ds => b <- evalOr selList HOY ds ;; Ok (PBool b)
    end.

End Fragment.

(** ** Concrete collaborators and inputs for the examples *)

Module Examples.

Import PsychChart.

(** Axis-parallel boxes standing in for closed planar curves, and points
    of the chart plane (temperature, scaled humidity ratio). *)
Record Box : Type := mkBox { xmin : Q; xmax : Q; ymin : Q; ymax : Q }.

Definition Pt : Type := (Q * Q)%type.

Definition boxContains (b : Box) (p : Pt) : PointContainment :=
  let '(x, y) := p in
  if Qltb (xmin b) x && Qltb x (xmax b) && Qltb (ymin b) y && Qltb y (ymax b)
  then Inside
  else if Qltb x (xmin b) || Qltb (xmax b) x || Qltb y (ymin b) || Qltb (ymax b) y
       then Outside
       else Coincident.

(** The header key of Ladybug data lists (it is spelled out at line 1418). *)
Definition key : string := "key:location/dataType/units/frequency/startsAt/endsAt".

Definition isKey (x : obj) : bool :=
  match x with
  | PStr s => String.eqb s key
  | _ => false
  end.

(** A stand-in for [lb_preparation.separateList]: the positions of the
    header keys followed by the length of the list, and the seven header
    entries found at each key. *)
Fixpoint keyPositions (i : nat) (l : list obj) : list nat :=
  match l with
  | [] => []
  | x :: rest => if isKey x then i :: keyPositions (S i) rest
                 else keyPositions (S i) rest
  end.

Definition separateList : SeparateList :=
  fun annualHourlyData =>
    let positions := keyPositions 0 annualHourlyData in
    (positions ++ [List.length annualHourlyData],
     map (fun i => slice annualHourlyData i (i + 7)%nat) positions).

(** A Ladybug list: seven header entries, then the values. *)
Definition ladybugList (dataType units : string) (values : list obj) : list obj :=
  [PStr key; PStr "Somewhere"; PStr dataType; PStr units; PStr "Hourly";
   PTuple [1; 1; 1]; PTuple [12; 31; 24]] ++ values.

Definition epwHeader : list obj :=
  [PStr key; PStr "Somewhere"; PStr "Dry Bulb Temperature"; PStr "C";
   PStr "Hourly"; PTuple [1; 1; 1]; PTuple [12; 31; 24]].

(** Two series of three hours each, [a] and [b]. *)
Definition seriesA : list obj := ladybugList "Dry Bulb Temperature" "C"
                                   [PInt 10; PInt 20; PInt 30].
Definition seriesB : list obj := ladybugList "Relative Humidity" "%"
                                   [PInt 50; PInt 50; PInt 50].

(** A full year of hourly values: hour [h] holds [h mod 24]. *)
Definition yearAValues : list obj := map (fun h => PInt (h mod 24)) (range 8760).
Definition yearA : list obj := ladybugList "Dry Bulb Temperature" "C" yearAValues.

(** A stand-in for the comfort model: two degrees around the radiant
    temperature, whatever the other inputs. *)
Definition calcComfRange (up down radTemp windSpeed relHumid metRate cloLevel
                          exWork : Q) (eightyPercent : bool) : Q * Q :=
  ((radTemp + 2)%Q, (radTemp - 2)%Q).

(** [float] of a text that holds no number. *)
Definition float_of_string (s : string) : option Q := None.

(** A comfort polygon, a strategy polygon to its right, and a polygon that
    overlaps the comfort polygon. *)
Definition comfortBox : Box := mkBox 20 26 0 20.
Definition strategyBox : Box := mkBox 26 30 0 20.
Definition wideBox : Box := mkBox 21 30 0 20.



(** Four hours, one of them inside [comfortBox]. *)
Definition fourPoints : list Pt := [(22, 5); (27, 5); (10, 5); (40, 5)]%Q.
Definition fourTemps : list Q := [22; 27; 10; 40]%Q.

(** The pattern of a conditional statement that no hour of the year meets. *)
Definition noHourSelected : list obj := map (fun _ => PBool false) (range 8760).

(** A series with a zero in its second hour. *)
Definition seriesZValues : list obj := [PInt 10; PInt 0; PInt 30].
Definition seriesZ : list obj := ladybugList "Wind Speed" "m/s" seriesZValues.

(** The final statements and titles that the examples lead to. *)
Definition finalOf (condition : string) : string := ("pattern =  " ++ condition)%string.
Definition titleOf (condition : string) : string := (titleStart ++ " " ++ condition)%string.

End Examples.


(** ** Quantities the properties speak about *)

Module Reading.

Import PsychChart.

Section Regions.

Variables Polygon Point : Type.
Variable Contains : Polygon -> Point -> PointContainment.

(** Whether the kernel reports the point inside the polygon. *)
Definition inside (polygon : Polygon) (hourPt : Point) : bool :=
  isInside (Contains polygon hourPt).

(** How many of the curves contain the point. *)
Definition containing (curves : list Polygon) (hourPt : Point) : Z :=
  Py.sum (map (fun polygon => if inside polygon hourPt then 1 else 0) curves).

(** How many of the curves contain every one of the points. *)
Definition containingAll (curves : list Polygon) (hourPts : list Point) : Z :=
  Py.sum (map (fun polygon => if forallb (inside polygon) hourPts then 1 else 0) curves).

End Regions.

Arguments inside {Polygon Point} Contains polygon hourPt.
Arguments containing {Polygon Point} Contains curves hourPt.
Arguments containingAll {Polygon Point} Contains curves hourPts.

(** Entry by entry sum of two lists. *)
Definition addLists (a b : list Z) : list Z :=
  map (fun '(x, y) => x + y) (combine a b).

End Reading.

Module Histogram.












End Histogram.


(** ** The quantities of the conditional statement *)

Module ConditionalReading.

(** The values of the hours that evaluate without raising, in order. *)
Definition succeeded (exec : Exec) (finalStatement : string)
           (selList : list (list obj)) (hours : list Z) : list obj :=
  flat_map (fun HOY => match exec finalStatement selList HOY with
                       | Ok pattern => [pattern]
                       | Raise _ => []
                       end) hours.

(** The psychrometric chart gets as far as evaluating the hours: every letter
    has its list, every list is a full year of hourly data, and the two
    statements are built. *)
Definition preparedPsych (separateList : SeparateList) (annualHourlyData : list obj)
           (conditionalStatement : string) (selList : list (list obj))
           (finalStatement titleStatement : string) : Prop :=
  let '(indexList, listInfo) := separateList annualHourlyData in
  let listNum :=
    listNumOf (replace (replace conditionalStatement "and" "" 20000) "or" "" 20000) in
  firstUndefined listNum (len listInfo) = None
  /\ PsychChartConditional.selectLists annualHourlyData indexList 0 listInfo []
     = Ok (inr selList)
  /\ buildStatements listInfo listNum conditionalStatement
     = Ok (finalStatement, titleStatement).

(** The same for the 3D chart, whose lists only have to share their period. *)
Definition prepared3D (separateList : SeparateList) (annualHourlyData : list obj)
           (conditionalStatement : string) (selList : list (list obj))
           (finalStatement titleStatement : string) : Prop :=
  let '(indexList, listInfo) := separateList annualHourlyData in
  let listNum :=
    listNumOf (replace_all (replace_all conditionalStatement "and" "") "or" "") in
  firstUndefined listNum (len listInfo) = None
  /\ (exists info0 startHour endHour,
         getitem listInfo 0 = Ok info0
         /\ getitem info0 5 = Ok startHour
         /\ getitem info0 6 = Ok endHour
         /\ Chart3D.selectLists annualHourlyData indexList startHour endHour
                                0 listInfo [] = Ok (inr selList))
  /\ buildStatements listInfo listNum conditionalStatement
     = Ok (finalStatement, titleStatement).

End ConditionalReading.

(** ** Ladybug_Psychrometric Chart.py: checkTheInputs as a whole *)

Module CheckTheInputs.

(** The inputs of the component, which the function reads as globals. *)
Record Inputs : Type := mkInputs {
  _dryBulbTemperature : list obj;
  _relativeHumidity : list obj;
  barometricPressure_ : list obj;
  meanRadTemperature_ : list obj;
  windSpeed_ : list obj;
  metabolicRate_ : list obj;
  clothingLevel_ : list obj;
  comfortPar_ : list obj;
  annualHourlyData_ : list obj;
  conditionalStatement_ : option string;
  passiveStrategy_ : list string;
  analysisPeriod_ : list obj
}.

(** [bool(x)] *)
Definition truthy (x : obj) : bool :=
  match x with
  | PStr s => negb (String.eqb s "")
  | PInt z => negb (z =? 0)
  | PFloat q => negb (Qeq_bool q 0)
  | PBool b => b
  | PTuple t => negb (len t =? 0)
  end.

(** [str(item) == name] for a name that is not the text of a number, of a
    boolean or of a tuple: only a string can be equal to it. *)
Definition strIs (item : obj) (name : string) : bool :=
  match item with
  | PStr s => String.eqb s name
  | _ => false
  end.

(** A number at run time, or [TypeError] where [+] meets something else. *)
Definition number (x : obj) : result (Z + Q) :=
  match x with
  | PInt z => Ok (inl z)
  | PFloat q => Ok (inr q)
  | PBool b => Ok (inl (if b then 1 else 0))
  | _ => Raise TypeError
  end.

(** [x + y] on numbers: an integer only for two integers. *)
Definition add (x y : Z + Q) : Z + Q :=
  match x, y with
  | inl a, inl b => inl (a + b)
  | _, _ => inr (Fragment.toQ x + Fragment.toQ y)%Q
  end.

(** [sum(l)], which starts from the integer 0. *)
Fixpoint sumFrom (acc : Z + Q) (l : list obj) : result (Z + Q) :=
  match l with
  | [] => Ok acc
  | x :: rest => n <- number x ;; sumFrom (add acc n) rest
  end.

(** The local function [duplicateData] of lines 200-204 and 351-355. *)
Fixpoint duplicateLoop (data : list obj) (counts : list Z) (dupData : list obj)
  : result (list obj) :=
  match counts with
  | [] => Ok dupData
  | _ :: rest =>
      x <- getitem data 0 ;;
      duplicateLoop data rest (dupData ++ [x])
  end.

Definition duplicateData (data : list obj) (calcLength : Z) : result (list obj) :=
  duplicateLoop data (range calcLength) [].

(** [all(x == listLenCheck[0] for x in listLenCheck)] *)
Definition allEqualFirst (listLenCheck : list Z) : bool :=
  match listLenCheck with
  | [] => true
  | first :: _ => forallb (fun x => x =? first) listLenCheck
  end.

(** The [if]/[elif] ladder of lines 281-298 on the activity's name. *)
Definition activity (item : obj) : option Q :=
  if strIs item "Sleeping" then Some (7 # 10)
  else if strIs item "Reclining" then Some (8 # 10)
  else if strIs item "Sitting" then Some 1%Q
  else if strIs item "Typing" then Some (11 # 10)
  else if strIs item "Standing" then Some (12 # 10)
  else if strIs item "Driving" then Some (15 # 10)
  else if strIs item "Cooking" then Some (18 # 10)
  else if strIs item "House Cleaning" then Some (27 # 10)
  else if strIs item "Walking" then Some (17 # 10)
  else if strIs item "Walking 2mph" then Some 2%Q
  else if strIs item "Walking 3mph" then Some (26 # 10)
  else if strIs item "Walking 4mph" then Some (38 # 10)
  else if strIs item "Running 9mph" then Some (95 # 10)
  else if strIs item "Lifting 10lbs" then Some (21 # 10)
  else if strIs item "Lifting 100lbs" then Some 4%Q
  else if strIs item "Shoveling" then Some (44 # 10)
  else if strIs item "Dancing" then Some (34 # 10)
  else if strIs item "Basketball" then Some (63 # 10)
  else None.

(** The names that line 410 lets through. *)
Definition knownStrategy (item : string) : bool :=
  String.eqb item "Evaporative Cooling"
  || String.eqb item "Thermal Mass + Night Vent"
  || String.eqb item "Occupant Use of Fans"
  || String.eqb item "Internal Heat Gain"
  || String.eqb item "Humidification Only"
  || String.eqb item "Dehumidification Only"
  || String.eqb item "Dessicant Dehumidification".

(** The ranges of lines 140, 250, 274 and 321. *)
Definition humidityRange (x : Q) : bool := Qle_bool 0 x && Qle_bool x 100.
Definition windRange (x : Q) : bool := Qle_bool 0 x.
Definition metabolicRange (x : Q) : bool := Qle_bool (5 # 10) x && Qle_bool x 10.
Definition clothingRange (x : Q) : bool := Qle_bool 0 x && Qle_bool x 5.

Section Check.

(** [float(s)] on text: [None] when it raises [ValueError]. *)
Variable float_of_string : string -> option Q.
(** The collaborators of [checkConditionalStatement]. *)
Variable separateList : SeparateList.
Variable exec : Exec.

(** [float(item)] *)
Definition float (item : obj) : result Q :=
  PsychChartInputs.float float_of_string item.

(** [try: if text in l[2]: ... except: pass]: whether the test is reached
    and holds. *)
Definition tagged (text : string) (l : list obj) : bool :=
  match try_except (item2 <- getitem l 2 ;; PsychChartInputs.textIn text item2)
                   (Ok false) with
  | Ok true => true
  | _ => false
  end.

(** The loops of lines 111-115 and 227-231 on the state
    [(values, checkData)]. *)
Fixpoint readNumbers (items : list obj) (state : list obj * bool)
  : list obj * bool :=
  match items with
  | [] => state
  | item :: rest =>
      let '(values, check) := state in
      readNumbers rest
        (match float item with
         | Ok x => (values ++ [PFloat x], true)
         | Raise _ => (values, false)
         end)
  end.

(** The loops of lines 138-144, 248-254, 272-278 and 319-325 on the state
    [(values, checkData, nonValue)]. *)
Fixpoint readRanged (inRange : Q -> bool) (items : list obj)
         (state : list obj * bool * bool) : list obj * bool * bool :=
  match items with
  | [] => state
  | item :: rest =>
      let '(values, check, nonValue) := state in
      readRanged inRange rest
        (match float item with
         | Ok x => if inRange x then (values ++ [PFloat x], true, nonValue)
                   else (values, check, false)
         | Raise _ => (values, false, nonValue)
         end)
  end.

(** Lines 98-122:
    [(checkData1, airTemp, airMultVal, epwData, epwStr, warnings)]. *)
Definition checkDryBulbTemperature (l : list obj)
  : bool * list obj * bool * bool * list obj * list string :=
  if negb (len l =? 0) then
    let '(airTemp, checkData1, epwData, epwStr) :=
      if tagged "Temperature" l
      then (slice l 7 (List.length l), true, true, slice l 0 7)
      else ([], false, false, []) in
    let '(airTemp, checkData1) :=
      if negb checkData1 then readNumbers l (airTemp, checkData1)
      else (airTemp, checkData1) in
    (checkData1, airTemp, 1 <? len airTemp, epwData, epwStr,
     if negb checkData1
     then ["_dryBulbTemperature input does not contain valid temperature values in degrees Celcius."]
     else [])
  else (false, [], false, false, [], []).

(** Lines 125-152:
    [(checkData2, relHumid, humidMultVal, epwData, epwStr, warnings)]. *)
Definition checkRelativeHumidity (epwData0 : bool) (epwStr0 : list obj) (l : list obj)
  : bool * list obj * bool * bool * list obj * list string :=
  if negb (len l =? 0) then
    let '(relHumid, checkData2, epwData, epwStr) :=
      if tagged "Humidity" l
      then (slice l 7 (List.length l), true, true, slice l 0 7)
      else ([], false, epwData0, epwStr0) in
    let '(relHumid, checkData2, nonValue) :=
      if negb checkData2 then readRanged humidityRange l (relHumid, checkData2, true)
      else (relHumid, checkData2, true) in
    let checkData2 := if negb nonValue then false else checkData2 in
    (checkData2, relHumid, 1 <? len relHumid, epwData, epwStr,
     if negb checkData2
     then ["_relativeHumidity input does not contain valid value."]
     else [])
  else (false, [], false, epwData0, epwStr0, []).

(** Lines 188-218: [(checkData4, calcLength, airTemp, relHumid, barPress,
    warnings)], with [None] for the [None] of line 210. *)
Definition matchChartLengths (checkData1 checkData2 checkData3 : bool)
           (airMultVal humidMultVal pressMultVal : bool)
           (airTemp relHumid barPress : list obj)
  : result (bool * option Z * list obj * list obj * list obj * list string) :=
  if checkData1 && checkData2 && checkData3 then
    if airMultVal || humidMultVal || pressMultVal then
      let listLenCheck :=
        (if airMultVal then [len airTemp] else [])
        ++ (if humidMultVal then [len relHumid] else [])
        ++ (if pressMultVal then [len barPress] else []) in
      if allEqualFirst listLenCheck then
        calcLength <- getitem listLenCheck 0 ;;
        airTemp <- (if negb airMultVal then duplicateData airTemp calcLength
                    else Ok airTemp) ;;
        relHumid <- (if negb humidMultVal then duplicateData relHumid calcLength
                     else Ok relHumid) ;;
        barPress <- (if negb pressMultVal then duplicateData barPress calcLength
                     else Ok barPress) ;;
        Ok (true, Some calcLength, airTemp, relHumid, barPress, [])
      else
        Ok (false, None, airTemp, relHumid, barPress,
            ["If you have put in lists with multiple values for temperature or humidity, the lengths of these lists must match between temperature and humidity or you have a single value for a given parameter to be applied to all values in the list."])
    else Ok (true, Some 1, airTemp, relHumid, barPress, [])
  else Ok (false, Some 0, airTemp, relHumid, barPress, []).

(** Lines 223-240: [(checkData5, radTemp, radMultVal, warnings)]. *)
Definition checkMeanRadTemperature (l : list obj)
  : bool * list obj * bool * list string :=
  if negb (len l =? 0) then
    let '(radTemp, checkData5) := readNumbers l ([], false) in
    (checkData5, radTemp, 1 <? len radTemp,
     if negb checkData5
     then ["meanRadTemperature_ input does not contain valid temperature values in degrees Celcius."]
     else [])
  else (true, [PInt 23], false, []).

(** Lines 243-264: [(checkData6, windSpeed, windMultVal, warnings)]. *)
Definition checkWindSpeed (l : list obj) : bool * list obj * bool * list string :=
  if negb (len l =? 0) then
    let '(windSpeed, checkData6, nonPositive) :=
      readRanged windRange l ([], false, true) in
    let checkData6 := if negb nonPositive then false else checkData6 in
    (checkData6, windSpeed, 1 <? len windSpeed,
     if negb checkData6
     then ["windSpeed_ input does not contain valid wind speed in meters per second.  Note that wind speed must be positive."]
     else [])
  else (true, [PFloat (5 # 100)], false, []).

(** Lines 267-311: [(checkData7, metRate, metMultVal, warnings)]. *)
Definition checkMetabolicRate (l : list obj) : bool * list obj * bool * list string :=
  if negb (len l =? 0) then
    let '(metRate, checkData7, nonVal) :=
      readRanged metabolicRange l ([], false, true) in
    let metRate :=
      if negb checkData7 then
        match getitem l 0 with
        | Ok first => match activity first with
                      | Some met => metRate ++ [PFloat met]
                      | None => metRate
                      end
        | Raise _ => metRate
        end
      else metRate in
    let checkData7 := if 0 <? len metRate then true else checkData7 in
    let checkData7 := if negb nonVal then false else checkData7 in
    (checkData7, metRate, 1 <? len metRate,
     if negb checkData7
     then ["metabolicRate_ input does not contain valid value. Note that metabolicRate_ must be a value between 0.5 and 10. Any thing outside of that is frankly not human."]
     else [])
  else (true, [PInt 1], false, []).

(** Lines 314-335: [(checkData8, cloLevel, cloMultVal, warnings)]. *)
Definition checkClothingLevel (l : list obj) : bool * list obj * bool * list string :=
  if negb (len l =? 0) then
    let '(cloLevel, checkData8, noVal) :=
      readRanged clothingRange l ([], false, true) in
    let checkData8 := if negb noVal then false else checkData8 in
    (checkData8, cloLevel, 1 <? len cloLevel,
     if negb checkData8
     then ["clothingLevel_ input does not contain valid value. Note that clothingLevel_ must be a value between 0 and 5. Any thing outside of that is frankly not human."]
     else [])
  else (true, [PInt 1], false, []).

(** Lines 338-373: [(checkData9, calcLength, radTemp, windSpeed, metRate,
    cloLevel, exWork, calcLength2, warnings)].  Here [calcLength2] and
    [exWork] are [None] while the names are unbound; [calcLength] comes in
    from line 218 and is what line 363 may overwrite with [None]. *)
Definition matchComfortLengths (checkData5 checkData6 checkData7 checkData8 : bool)
           (radMultVal windMultVal metMultVal cloMultVal : bool)
           (calcLength : option Z)
           (radTemp windSpeed metRate cloLevel : list obj)
  : result (bool * option Z * list obj * list obj * list obj * list obj
            * option (list obj) * option Z * list string) :=
  if checkData5 && checkData6 && checkData7 && checkData8 then
    if radMultVal || windMultVal || metMultVal || cloMultVal then
      let listLenCheck :=
        (if radMultVal then [len radTemp] else [])
        ++ (if windMultVal then [len windSpeed] else [])
        ++ (if metMultVal then [len metRate] else [])
        ++ (if cloMultVal then [len cloLevel] else []) in
      if allEqualFirst listLenCheck then
        calcLength2 <- getitem listLenCheck 0 ;;
        radTemp <- (if negb radMultVal then duplicateData radTemp calcLength2
                    else Ok radTemp) ;;
        windSpeed <- (if negb windMultVal then duplicateData windSpeed calcLength2
                      else Ok windSpeed) ;;
        metRate <- (if negb metMultVal then duplicateData metRate calcLength2
                    else Ok metRate) ;;
        cloLevel <- (if negb cloMultVal then duplicateData cloLevel calcLength2
                     else Ok cloLevel) ;;
        exWork <- duplicateData [PInt 0] calcLength2 ;;
        Ok (true, calcLength, radTemp, windSpeed, metRate, cloLevel,
            Some exWork, Some calcLength2, [])
      else
        Ok (false, None, radTemp, windSpeed, metRate, cloLevel, None, None,
            ["If you have put in lists with multiple values for meanRadTemperature, windSpeed, clothingLevel, or metabolicRate, the lengths of these lists must match across the parameters or you have a single value for a given parameter to be applied to all values in the list."])
    else Ok (true, calcLength, radTemp, windSpeed, metRate, cloLevel,
             Some [PInt 0], Some 1, [])
  else Ok (false, calcLength, radTemp, windSpeed, metRate, cloLevel,
           Some [], Some 0, []).

(** Lines 376-393: [(checkData10, eightyPercentComfortable, humidRatioUp,
    humidRatioLow, warnings)]. *)
Definition checkComfortPar (comfortPar_ : list obj)
  : bool * bool * Q * Q * list string :=
  if negb (len comfortPar_ =? 0) then
    match (p0 <- getitem comfortPar_ 0 ;;
           p1 <- getitem comfortPar_ 1 ;;
           up <- float p1 ;;
           p2 <- getitem comfortPar_ 2 ;;
           low <- float p2 ;;
           Ok (truthy p0, up, low)) with
    | Ok (eighty, up, low) => (true, eighty, up, low, [])
    | Raise _ =>
        (false, false, 3 # 100, 0%Q,
         ["The comfortPar_ are not valid comfort parameters from the Ladybug_Comfort Parameters component."])
    end
  else (true, false, 3 # 100, 0%Q, []).

(** Lines 396-404: [(checkData11, statement)], where [statement] is [None]
    for [titleStatement = None, patternList = []] and otherwise what
    [checkConditionalStatement] returned. *)
Definition checkStatement (epwData : bool) (i : Inputs)
  : result (bool * option Checked) :=
  let annualHourlyData :=
    _dryBulbTemperature i ++ _relativeHumidity i ++ annualHourlyData_ i in
  match conditionalStatement_ i with
  | Some statement =>
      if epwData
         && (17533 <? len (_dryBulbTemperature i ++ _relativeHumidity i))
         && negb (String.eqb statement "")
      then
        c <- PsychChartConditional.checkConditionalStatement
               separateList exec annualHourlyData statement ;;
        match c with
        | Invalid _ => Ok (false, Some c)
        | Pattern _ _ => Ok (true, Some c)
        end
      else Ok (true, None)
  | None => Ok (true, None)
  end.

(** Lines 407-415: [(checkData12, warnings)]. *)
Definition checkPassiveStrategy (passiveStrategy_ : list string) : bool * list string :=
  let checkData12 :=
    if 0 <? len passiveStrategy_ then forallb knownStrategy passiveStrategy_
    else true in
  (checkData12,
   if negb checkData12 then ["Input for passiveStrategy_ is not valid."] else []).

(** Lines 418-425: [(checkData13, warnings)]. *)
Definition checkAnalysisPeriod (analysisPeriod_ : list obj) (epwData : bool)
           (calcLength : option Z) : bool * list string :=
  if negb (len analysisPeriod_ =? 0) then
    if epwData && (match calcLength with
                   | Some n => n =? 8760
                   | None => false
                   end)
    then (true, [])
    else (false,
          ["Analysis periods can only be used with EPW or EnergyPlus simulation data that is hourly for the full year."])
  else (true, []).

(** Lines 428-430, with [None] for the [None] of line 430. *)
Definition averagePressure (barPress : list obj) : result (option obj) :=
  if 1 <? len barPress then
    total <- sumFrom (inl 0) barPress ;;
    mean <- Fragment.divide total (inl (len barPress)) ;;
    Ok (Some (PsychChartInputs.plainNumber mean))
  else if len barPress =? 1 then
    only <- getitem barPress 0 ;;
    Ok (Some only)
  else Ok None.

(** What line 440 returns, and the warnings the component has added on the
    way. *)
Record Returned : Type := mkReturned {
  checkData : bool;
  epwData : bool;
  epwStr : list obj;
  calcLength : option Z;
  airTemp : list obj;
  relHumid : list obj;
  barPress : list obj;
  avgBarPress : option obj;
  radTemp : list obj;
  windSpeed : list obj;
  metRate : list obj;
  cloLevel : list obj;
  exWork : list obj;
  humidRatioUp : Q;
  humidRatioLow : Q;
  calcLength2 : Z;
  eightyPercentComfortable : bool;
  statement : option Checked;
  warnings : list string
}.

(** A name that line 440 reads: unbound, it raises. *)
Definition bound {A : Type} (name : option A) : result A :=
  match name with
  | Some value => Ok value
  | None => Raise NameError
  end.

Definition checkTheInputs (i : Inputs) : result Returned :=
  let '(checkData1, airTemp, airMultVal, epwData, epwStr, warnings1) :=
    checkDryBulbTemperature (_dryBulbTemperature i) in
  let '(checkData2, relHumid, humidMultVal, epwData, epwStr, warnings2) :=
    checkRelativeHumidity epwData epwStr (_relativeHumidity i) in
  let pressure :=
    PsychChartInputs.checkBarometricPressure float_of_string epwData epwStr
                                             (barometricPressure_ i) in
  let checkData3 := PsychChartInputs.checkData3 pressure in
  let epwData := PsychChartInputs.epwData pressure in
  let epwStr := PsychChartInputs.epwStr pressure in
  '(checkData4, calcLength, airTemp, relHumid, barPress, warnings4) <-
    matchChartLengths checkData1 checkData2 checkData3
                      airMultVal humidMultVal
                      (PsychChartInputs.pressMultVal pressure)
                      airTemp relHumid (PsychChartInputs.barPress pressure) ;;
  let '(checkData5, radTemp, radMultVal, warnings5) :=
    checkMeanRadTemperature (meanRadTemperature_ i) in
  let '(checkData6, windSpeed, windMultVal, warnings6) :=
    checkWindSpeed (windSpeed_ i) in
  let '(checkData7, metRate, metMultVal, warnings7) :=
    checkMetabolicRate (metabolicRate_ i) in
  let '(checkData8, cloLevel, cloMultVal, warnings8) :=
    checkClothingLevel (clothingLevel_ i) in
  '(checkData9, calcLength, radTemp, windSpeed, metRate, cloLevel, exWork,
    calcLength2, warnings9) <-
    matchComfortLengths checkData5 checkData6 checkData7 checkData8
                        radMultVal windMultVal metMultVal cloMultVal
                        calcLength radTemp windSpeed metRate cloLevel ;;
  let '(checkData10, eightyPercentComfortable, humidRatioUp, humidRatioLow,
        warnings10) := checkComfortPar (comfortPar_ i) in
  '(checkData11, statement) <- checkStatement epwData i ;;
  let '(checkData12, warnings12) := checkPassiveStrategy (passiveStrategy_ i) in
  let '(checkData13, warnings13) :=
    checkAnalysisPeriod (analysisPeriod_ i) epwData calcLength in
  avgBarPress <- averagePressure barPress ;;
  let checkData :=
    PsychChartInputs.checkData checkData1 checkData2 checkData3 checkData4
                               checkData5 checkData6 checkData7 checkData8
                               checkData9 checkData10 checkData11 checkData12
                               checkData13 in
  exWork <- bound exWork ;;
  calcLength2 <- bound calcLength2 ;;
  Ok {| checkData := checkData;
        epwData := epwData;
        epwStr := epwStr;
        calcLength := calcLength;
        airTemp := airTemp;
        relHumid := relHumid;
        barPress := barPress;
        avgBarPress := avgBarPress;
        radTemp := radTemp;
        windSpeed := windSpeed;
        metRate := metRate;
        cloLevel := cloLevel;
        exWork := exWork;
        humidRatioUp := humidRatioUp;
        humidRatioLow := humidRatioLow;
        calcLength2 := calcLength2;
        eightyPercentComfortable := eightyPercentComfortable;
        statement := statement;
        warnings := warnings1 ++ warnings2 ++ PsychChartInputs.warnings pressure
                    ++ warnings4 ++ warnings5 ++ warnings6 ++ warnings7
                    ++ warnings8 ++ warnings9 ++ warnings10 ++ warnings12
                    ++ warnings13 |}.

End Check.

End CheckTheInputs.

(** ** What the inputs hold, as the properties of [checkTheInputs] read it *)

Module InputReading.

Section Reading.

Variable float_of_string : string -> option Q.

(** Whether [float(item)] succeeds. *)
Definition isNumber (item : obj) : bool :=
  match PsychChartInputs.float float_of_string item with
  | Ok _ => true
  | Raise _ => false
  end.

(** The items that [float] converts, converted, in order. *)
Definition numbersOf (l : list obj) : list obj :=
  flat_map (fun item => match PsychChartInputs.float float_of_string item with
                        | Ok x => [PFloat x]
                        | Raise _ => []
                        end) l.

(** The numbers of the list that lie in the range, in order. *)
Definition inRangeOf (inRange : Q -> bool) (l : list obj) : list obj :=
  flat_map (fun item => match PsychChartInputs.float float_of_string item with
                        | Ok x => if inRange x then [PFloat x] else []
                        | Raise _ => []
                        end) l.

(** No number of the list lies outside the range. *)
Definition allInRange (inRange : Q -> bool) (l : list obj) : bool :=
  forallb (fun item => match PsychChartInputs.float float_of_string item with
                       | Ok x => inRange x
                       | Raise _ => true
                       end) l.

(** Some number of the list lies in the range. *)
Definition hasInRange (inRange : Q -> bool) (l : list obj) : bool :=
  existsb (fun item => match PsychChartInputs.float float_of_string item with
                       | Ok x => inRange x
                       | Raise _ => false
                       end) l.

(** The list ends in a number. *)
Definition lastIsNumber (l : list obj) : bool :=
  match l with
  | [] => false
  | _ => isNumber (last l (PInt 0))
  end.

End Reading.

(** Whether the list starts with the name of an activity. *)
Definition namesActivity (l : list obj) : bool :=
  match l with
  | first :: _ => match CheckTheInputs.activity first with
                  | Some _ => true
                  | None => false
                  end
  | [] => false
  end.

(** The parts of what the checks of one comfort input leave behind. *)
Definition checkOf (t : bool * list obj * bool * list string) : bool :=
  fst (fst (fst t)).
Definition valuesOf (t : bool * list obj * bool * list string) : list obj :=
  snd (fst (fst t)).
Definition multOf (t : bool * list obj * bool * list string) : bool :=
  snd (fst t).

(** The lengths that lines 342-345 collect. *)
Definition multiLengths (ts : list (bool * list obj * bool * list string)) : list Z :=
  flat_map (fun t => if multOf t then [len (valuesOf t)] else []) ts.

(** What the four comfort inputs leave behind, in the order of lines
    342-345. *)
Definition comfortChecks (float_of_string : string -> option Q)
           (i : CheckTheInputs.Inputs)
  : list (bool * list obj * bool * list string) :=
  [CheckTheInputs.checkMeanRadTemperature float_of_string
     (CheckTheInputs.meanRadTemperature_ i);
   CheckTheInputs.checkWindSpeed float_of_string (CheckTheInputs.windSpeed_ i);
   CheckTheInputs.checkMetabolicRate float_of_string
     (CheckTheInputs.metabolicRate_ i);
   CheckTheInputs.checkClothingLevel float_of_string
     (CheckTheInputs.clothingLevel_ i)].

(** A number within the bounds. *)
Definition numberWithin (low : Q) (high : option Q) (item : obj) : Prop :=
  exists x, as_number item = Some x
            /\ (low <= x)%Q
            /\ match high with
               | Some h => (x <= h)%Q
               | None => True
               end.

End InputReading.

(** ** Inputs for the examples of [checkTheInputs] *)

Module InputExamples.

Import CheckTheInputs.

(** Two hours of temperature and humidity, nothing else connected. *)
Definition twoHours : Inputs :=
  {| _dryBulbTemperature := [PInt 20; PInt 25];
     _relativeHumidity := [PInt 50; PInt 60];
     barometricPressure_ := [];
     meanRadTemperature_ := [];
     windSpeed_ := [];
     metabolicRate_ := [];
     clothingLevel_ := [];
     comfortPar_ := [];
     annualHourlyData_ := [];
     conditionalStatement_ := None;
     passiveStrategy_ := [];
     analysisPeriod_ := [] |}.

(** The same with two radiant temperatures and three wind speeds. *)
Definition twoAgainstThree : Inputs :=
  {| _dryBulbTemperature := [PInt 20; PInt 25];
     _relativeHumidity := [PInt 50; PInt 60];
     barometricPressure_ := [];
     meanRadTemperature_ := [PInt 20; PInt 21];
     windSpeed_ := [PInt 1; PInt 2; PInt 3];
     metabolicRate_ := [];
     clothingLevel_ := [];
     comfortPar_ := [];
     annualHourlyData_ := [];
     conditionalStatement_ := None;
     passiveStrategy_ := [];
     analysisPeriod_ := [] |}.

End InputExamples.

(** ** Ladybug_Psychrometric Chart.py: how main selects the data *)

Module PsychChartMain.

(** [range(start, stop, step)] for a step above zero. *)
Definition range3 (start stop step : Z) : list Z :=
  map (fun k => start + Z.of_nat k * step)
      (seq 0 (Z.to_nat ((stop - start + step - 1) / step))).

(** The local function [chunks] of lines 1482-1486. *)
Definition chunks (l : list obj) (n : Z) : list (list obj) :=
  map (fun i => slice l (Z.to_nat i) (Z.to_nat (i + n))) (range3 0 (len l) n).

(** Lines 1481-1492: [(annualHourlyDataSplit, annualDataStr)]. *)
Definition splitAnnualData (annualHourlyData_ : list obj)
  : list (list obj) * list (list obj) :=
  let annualHourlyDataSplit :=
    if negb (len annualHourlyData_ =? 0) then chunks annualHourlyData_ 8767
    else [[]] in
  (annualHourlyDataSplit,
   match annualHourlyDataSplit with
   | [[]] => []
   | _ => map (fun l => slice l 0 7) annualHourlyDataSplit
   end).

(** The inner loop of lines 1535-1536. *)
Fixpoint appendEach (annualHourlyDataSplit newAnnualHourlyDataSplit : list (list obj))
         (count : Z) (listCounts : list Z) : result (list (list obj)) :=
  match listCounts with
  | [] => Ok newAnnualHourlyDataSplit
  | listCount :: rest =>
      target <- getitem newAnnualHourlyDataSplit listCount ;;
      source <- getitem annualHourlyDataSplit listCount ;;
      value <- getitem source count ;;
      new <- setitem newAnnualHourlyDataSplit listCount (target ++ [value]) ;;
      appendEach annualHourlyDataSplit new count rest
  end.

(** The loop of lines 1530-1536 on the state
    [(newAirTemp, newRelHumid, newBarPress, newAnnualHourlyDataSplit)]. *)
Fixpoint selectHours (airTemp relHumid barPress : list obj)
         (annualHourlyDataSplit : list (list obj))
         (count : Z) (patternList : list obj)
         (state : list obj * list obj * list obj * list (list obj))
  : result (list obj * list obj * list obj * list (list obj)) :=
  match patternList with
  | [] => Ok state
  | bool :: rest =>
      state' <-
        (if obj_eqb bool (PBool true) then
           let '(newAirTemp, newRelHumid, newBarPress, newSplit) := state in
           t <- getitem airTemp count ;;
           h <- getitem relHumid count ;;
           p <- getitem barPress count ;;
           newSplit' <- appendEach annualHourlyDataSplit newSplit count
                                   (range (len annualHourlyDataSplit)) ;;
           Ok (newAirTemp ++ [t], newRelHumid ++ [h], newBarPress ++ [p], newSplit')
         else Ok state) ;;
      selectHours airTemp relHumid barPress annualHourlyDataSplit
                  (count + 1) rest state'
  end.

(** Lines 1523-1540: [(airTemp, relHumid, barPress, annualHourlyDataSplit)]. *)
Definition selectByPattern (patternList airTemp relHumid barPress : list obj)
           (annualHourlyDataSplit : list (list obj))
  : result (list obj * list obj * list obj * list (list obj)) :=
  if negb (len patternList =? 0) then
    selectHours airTemp relHumid barPress annualHourlyDataSplit 0 patternList
                ([], [], [], map (fun _ => []) annualHourlyDataSplit)
  else Ok (airTemp, relHumid, barPress, annualHourlyDataSplit).

Section Period.

(** [lb_preparation.selectHourlyData(data, analysisPeriod)] *)
Variable selectHourlyData : list obj -> list obj -> result (list obj).

(** [lb_preparation.selectHourlyData(data, analysisPeriod_)[7:]] *)
Definition selected (data analysisPeriod_ : list obj) : result (list obj) :=
  l <- selectHourlyData data analysisPeriod_ ;;
  Ok (slice l 7 (List.length l)).

(** The loops of lines 1513-1514 and 1518-1519. *)
Fixpoint selectedEach (annualHourlyDataSplit : list (list obj))
         (analysisPeriod_ : list obj) : result (list (list obj)) :=
  match annualHourlyDataSplit with
  | [] => Ok []
  | l :: rest =>
      new <- selected l analysisPeriod_ ;;
      news <- selectedEach rest analysisPeriod_ ;;
      Ok (new :: news)
  end.

(** The loop of lines 1502-1503. *)
Fixpoint firstPressureEach (barPress : list obj) (nums : list Z)
         (barPress2 : list obj) : result (list obj) :=
  match nums with
  | [] => Ok barPress2
  | _ :: rest =>
      p <- getitem barPress 0 ;;
      firstPressureEach barPress rest (barPress2 ++ [p])
  end.

(** Lines 1495-1520:
    [(airTemp, relHumid, barPress, patternList, annualHourlyDataSplit)].
    The name [getHOYsBasedOnPeriod] of line 1506 is bound nowhere in the
    file, so reading it raises. *)
Definition selectPeriod (_dryBulbTemperature _relativeHumidity analysisPeriod_ : list obj)
           (epwData : bool) (calcLength : option Z)
           (airTemp relHumid barPress patternList : list obj)
           (annualHourlyDataSplit : list (list obj))
  : result (list obj * list obj * list obj * list obj * list (list obj)) :=
  if negb (len analysisPeriod_ =? 0) && epwData
     && (match calcLength with
         | Some n => n =? 8760
         | None => false
         end)
  then
    airTemp <- selected _dryBulbTemperature analysisPeriod_ ;;
    relHumid <- selected _relativeHumidity analysisPeriod_ ;;
    barPress <- (if len barPress =? 8760 then selected barPress analysisPeriod_
                 else firstPressureEach barPress (range (len airTemp)) []) ;;
    patternList <- (if len patternList =? 8760
                    then Raise NameError
                    else Ok patternList) ;;
    annualHourlyDataSplit <-
      (match annualHourlyDataSplit with
       | [[]] => Ok annualHourlyDataSplit
       | _ => selectedEach annualHourlyDataSplit analysisPeriod_
       end) ;;
    Ok (airTemp, relHumid, barPress, patternList, annualHourlyDataSplit)
  else
    annualHourlyDataSplit <- selectedEach annualHourlyDataSplit analysisPeriod_ ;;
    Ok (airTemp, relHumid, barPress, patternList, annualHourlyDataSplit).

End Period.

(** The key that opens the header of a Ladybug data list (line 1418). *)
Definition headerKey : string :=
  "key:location/dataType/units/frequency/startsAt/endsAt".

(** Lines 1418-1419 of [getPointColors]: the values that are coloured. *)
Definition comfortValues (totalComfOrNot : list obj) : result (list obj) :=
  first <- getitem totalComfOrNot 0 ;;
  if CheckTheInputs.strIs first headerKey
  then Ok (slice totalComfOrNot 7 (List.length totalComfOrNot))
  else Ok totalComfOrNot.

(** Lines 1573-1577: the values behind [pointColors], [None] when
    [getPointColors] is not called. *)
Definition colouredValues (totalComfOrNot : list obj) : result (option (list obj)) :=
  if 1 <? len totalComfOrNot
  then values <- comfortValues totalComfOrNot ;; Ok (Some values)
  else Ok None.

End PsychChartMain.

(** ** What the selection of [main] is measured against *)

Module SelectionReading.

(** The entries of [data] at the positions where the pattern holds [True]. *)
Fixpoint picked (patternList data : list obj) : list obj :=
  match patternList, data with
  | bool :: rest, x :: data' =>
      if obj_eqb bool (PBool true) then x :: picked rest data'
      else picked rest data'
  | _, _ => []
  end.

End SelectionReading.

(** ** Ladybug_Psychrometric Chart.py: the points of the comfort polygons *)

Module ComfortPolygons.

Import PsychChartStrategies.

(** Lines 866-871: what [downIntersect] holds after the test on
    [downTemper].  The [else] of line 870 assigns [upIntersect], so there
    [downIntersect] keeps what it held, [None] while it is unbound. *)
Definition lowerIntersect (downIntersect : option BoundaryPoint) (count : Z)
           (downTemper : Q) : option BoundaryPoint :=
  if Qltb downTemper 50
  then if Qltb (-20) downTemper then Some (OnHumidityLine count downTemper)
       else Some (PointAtStart count)
  else downIntersect.

Section Points.

(** [lb_comfortModels.calcComfRange], returning [upTemper, downTemper]. *)
Variable calcComfRange : Q -> Q -> Q -> Q -> Q -> Q -> Q -> Q -> bool -> Q * Q.

(** The loop of lines 856-871 over the humidities, for the values of one
    index, on the state [(upTemperPts, downTemperPts, downIntersect)]. *)
Fixpoint humidityLoop (radTemp windSpeed metRate cloLevel exWork : Q)
         (eightyPercentComfort : bool) (count : Z) (humidities : list Q)
         (state : list BoundaryPoint * list BoundaryPoint * option BoundaryPoint)
  : result (list BoundaryPoint * list BoundaryPoint * option BoundaryPoint) :=
  match humidities with
  | [] => Ok state
  | humidity :: rest =>
      let '(upTemperPts, downTemperPts, downIntersect) := state in
      let '(upTemper, downTemper) :=
        calcComfRange (radTemp + 2)%Q (radTemp - 2)%Q radTemp windSpeed humidity
                      metRate cloLevel exWork eightyPercentComfort in
      let downIntersect := lowerIntersect downIntersect count downTemper in
      down <- (match downIntersect with
               | Some point => Ok point
               | None => Raise NameError
               end) ;;
      humidityLoop radTemp windSpeed metRate cloLevel exWork eightyPercentComfort
                   (count + 1) rest
                   (upTemperPts ++ [upIntersect count upTemper],
                    downTemperPts ++ [down], downIntersect)
  end.

(** The loop of lines 853-872 over the indices, on the state
    [(comfPolyLinePts, downIntersect)]. *)
Fixpoint indexLoop (radTemp windSpeed metRate cloLevel exWork : list Q)
         (eightyPercentComfort : bool) (indices : list Z)
         (state : list (list BoundaryPoint * list BoundaryPoint)
                  * option BoundaryPoint)
  : result (list (list BoundaryPoint * list BoundaryPoint)) :=
  match indices with
  | [] => Ok (fst state)
  | index :: rest =>
      let '(comfPolyLinePts, downIntersect) := state in
      r <- getitem radTemp index ;;
      w <- getitem windSpeed index ;;
      m <- getitem metRate index ;;
      c <- getitem cloLevel index ;;
      e <- getitem exWork index ;;
      '(upTemperPts, downTemperPts, downIntersect) <-
        humidityLoop r w m c e eightyPercentComfort 0 [0%Q; 50%Q; 100%Q]
                     ([], [], downIntersect) ;;
      indexLoop radTemp windSpeed metRate cloLevel exWork eightyPercentComfort
                rest (comfPolyLinePts ++ [(upTemperPts, downTemperPts)],
                      downIntersect)
  end.

(** Lines 852-872: [comfPolyLinePts]. *)
Definition comfPolyLinePts (radTemp windSpeed metRate cloLevel exWork : list Q)
           (calcLengthComf : Z) (eightyPercentComfort : bool)
  : result (list (list BoundaryPoint * list BoundaryPoint)) :=
  indexLoop radTemp windSpeed metRate cloLevel exWork eightyPercentComfort
            (range calcLengthComf) ([], None).

(** The two limits of comfort for the values at [index] and a humidity. *)
Definition limits (radTemp windSpeed metRate cloLevel exWork : list Q)
           (eightyPercentComfort : bool) (index : nat) (humidity : Q) : Q * Q :=
  let r := nth index radTemp 0%Q in
  calcComfRange (r + 2)%Q (r - 2)%Q r (nth index windSpeed 0%Q) humidity
                (nth index metRate 0%Q) (nth index cloLevel 0%Q)
                (nth index exWork 0%Q) eightyPercentComfort.

(** The points of the polygon of one index when its lower limits stay
    below 50. *)
Definition regularPoints (radTemp windSpeed metRate cloLevel exWork : list Q)
           (eighty : bool) (index : nat)
  : list BoundaryPoint * list BoundaryPoint :=
  (map (fun '(count, humidity) =>
          upIntersect count
            (fst (limits radTemp windSpeed metRate cloLevel exWork
                         eighty index humidity)))
       [(0, 0%Q); (1, 50%Q); (2, 100%Q)],
   map (fun '(count, humidity) =>
          upIntersect count
            (snd (limits radTemp windSpeed metRate cloLevel exWork
                         eighty index humidity)))
       [(0, 0%Q); (1, 50%Q); (2, 100%Q)]).

End Points.

End ComfortPolygons.

(** ** Ladybug_Psychrometric Chart.py: the way to the fans strategy *)

Module StrategyPolygons.

Import PsychChartStrategies.

Section Way.

(** The curves of the geometry kernel and the humidity lines of the
    chart. *)
Variables Curve Line : Type.

(** [lb_comfortModels.calcComfRange], returning [upTemper, downTemper]. *)
Variable calcComfRange : Q -> Q -> Q -> Q -> Q -> Q -> Q -> Q -> bool -> Q * Q.

(** [rs.CurveBooleanUnion] and the component input [mergeComfPolygons_],
    read as a global. *)
Variable CurveBooleanUnion : Curve -> Curve -> result (list Curve).
Variable mergeComfPolygons_ : bool.

(** Line 875: the extrusion of the chart's boundary. *)
Variable extrudeChartBoundary : result unit.

(** Lines 876-897 for one entry of [comfPolyLinePts]: the joined comfort
    curve with its segments [[upperBoundary, lowerBoundary, topCurve,
    bottomCurve]]; [None] when the [except] of line 893 reports that the
    polygon has fallen off the chart; an exception where the geometry
    outside the two [try] blocks raises. *)
Variable comfortBoundary :
  list BoundaryPoint * list BoundaryPoint -> result (option (Curve * list Curve)).

(** Lines 899-921: the comfort curves trimmed to the humidity ratios. *)
Variable trimToHumidityRatios : list Curve -> result (list Curve).

(** Lines 950-962: the segments with the outermost boundaries put first. *)
Variable orderBoundaries : list (list Curve) -> result (list (list Curve)).

(** Lines 1022-1071 and 1074-1154: the geometry of the two strategies that
    are evaluated before the fans. *)
Variable evaporativeCooling : Curve -> list (list Curve) -> result Curve.
Variable thermalMassNightVent : StrategyPar -> list (list Curve) -> result Curve.

(** [comfortCurves] and [comfortCrvSegments] as the loop of lines 876-897
    leaves them. *)
Definition comfortCurvesOf (built : list (option (Curve * list Curve))) : list Curve :=
  flat_map (fun b => match b with Some (curve, _) => [curve] | None => [] end) built.

Definition segmentsOf (built : list (option (Curve * list Curve)))
  : list (list Curve) :=
  flat_map (fun b => match b with Some (_, segments) => [segments] | None => [] end)
           built.

(** A strategy that is evaluated when its name is in [passiveStrategy]. *)
Definition whenRequested (name : string) (passiveStrategy : list string)
           (strategy : result Curve) : result (option Curve) :=
  if existsb (String.eqb name) passiveStrategy
  then curve <- strategy ;; Ok (Some curve)
  else Ok None.

(** [calcComfAndStrategyPolygons] from its first line to the branch of
    line 1158: [None] when the fans are passed over or when the guard of
    line 898 finds no comfort curve (the [else] of line 1309), the points of
    the fans' upper boundary when the branch is entered.  The strategies are
    evaluated in [for comfCount, comfortCurve in
    enumerate([mergedCurvesFinal[0]])], so [comfCount] is 0. *)
Definition occupantUseOfFans (passiveStrategy : list string) (strategyPar_ : list Q)
           (radTemp windSpeed metRate cloLevel exWork : list Q)
           (relHumidLines : list Line) (calcLengthComf : Z)
           (eightyPercentComfort : bool)
  : result (option (list BoundaryPoint)) :=
  line0 <- getitem relHumidLines 0 ;;
  line5 <- getitem relHumidLines 5 ;;
  line10 <- getitem relHumidLines 10 ;;
  comfPolyLinePts <- ComfortPolygons.comfPolyLinePts calcComfRange radTemp windSpeed
                       metRate cloLevel exWork calcLengthComf eightyPercentComfort ;;
  chartBoundaryBrep <- extrudeChartBoundary ;;
  built <- for_enumerate (fun _ futurePoly => comfortBoundary futurePoly)
                         0 comfPolyLinePts ;;
  let comfortCurves := comfortCurvesOf built in
  let comfortCrvSegments := segmentsOf built in
  if negb (len comfortCurves =? 0) then
    comfortCurves <- trimToHumidityRatios comfortCurves ;;
    let mergedCurvesFinal :=
      fst (PsychChart.mergeComfortCurves CurveBooleanUnion mergeComfPolygons_
                                         comfortCurves) in
    '(windSpeed', cloLevel') <- organize windSpeed cloLevel ;;
    comfortCrvSegments <- orderBoundaries comfortCrvSegments ;;
    if negb (len passiveStrategy =? 0) then
      let par := fst (readStrategyPar strategyPar_) in
      comfortCurve <- getitem mergedCurvesFinal 0 ;;
      let comfCount := 0 in
      _ <- whenRequested "Evaporative Cooling" passiveStrategy
             (evaporativeCooling comfortCurve comfortCrvSegments) ;;
      _ <- whenRequested "Thermal Mass + Night Vent" passiveStrategy
             (thermalMassNightVent par comfortCrvSegments) ;;
      if existsb (String.eqb "Occupant Use of Fans") passiveStrategy then
        w <- getitem windSpeed' comfCount ;;
        if Qltb w (maxWindSpeed par) then
          pts <- fansUpTemperPts calcComfRange radTemp metRate cloLevel' exWork
                                 (maxWindSpeed par) eightyPercentComfort comfCount ;;
          Ok (Some pts)
        else Ok None
      else Ok None
    else Ok None
  else Ok None.

(** The way to the test of line 1158 is clear: the three humidity lines are
    there, the points of the comfort polygons are computed, a comfort curve
    is on the chart, and the geometry before the test raises nothing. *)
Definition wayIsClear (passiveStrategy : list string) (strategyPar_ : list Q)
           (radTemp windSpeed metRate cloLevel exWork : list Q)
           (relHumidLines : list Line) (calcLengthComf : Z)
           (eightyPercentComfort : bool) : Prop :=
  11 <= len relHumidLines
  /\ exists comfPolyLinePts built trimmed segments,
      ComfortPolygons.comfPolyLinePts calcComfRange radTemp windSpeed metRate
        cloLevel exWork calcLengthComf eightyPercentComfort = Ok comfPolyLinePts
      /\ extrudeChartBoundary = Ok tt
      /\ for_enumerate (fun _ futurePoly => comfortBoundary futurePoly)
                       0 comfPolyLinePts = Ok built
      /\ comfortCurvesOf built <> []
      /\ trimToHumidityRatios (comfortCurvesOf built) = Ok trimmed
      /\ orderBoundaries (segmentsOf built) = Ok segments
      /\ (passiveStrategy <> [] ->
          exists comfortCurve,
            getitem (fst (PsychChart.mergeComfortCurves CurveBooleanUnion
                            mergeComfPolygons_ trimmed)) 0 = Ok comfortCurve
            /\ (In "Evaporative Cooling" passiveStrategy ->
                exists curve, evaporativeCooling comfortCurve segments = Ok curve)
            /\ (In "Thermal Mass + Night Vent" passiveStrategy ->
                exists curve,
                  thermalMassNightVent (fst (readStrategyPar strategyPar_)) segments
                  = Ok curve)).

End Way.

Arguments comfortCurvesOf {Curve} built.
Arguments segmentsOf {Curve} built.
Arguments whenRequested {Curve} name passiveStrategy strategy.
Arguments occupantUseOfFans {Curve Line}.
Arguments wayIsClear {Curve Line}.

End StrategyPolygons.

(** Stand-ins for the geometry on the way to the fans: every polygon is on
    the chart and nothing raises. *)
Module StrategyExamples.

Import PsychChartStrategies.

Definition comfortBoundary (futurePoly : list BoundaryPoint * list BoundaryPoint)
  : result (option (Examples.Box * list Examples.Box)) :=
  Ok (Some (Examples.comfortBox,
            [Examples.comfortBox; Examples.comfortBox; Examples.comfortBox;
             Examples.comfortBox])).

Definition CurveBooleanUnion (c0 c1 : Examples.Box) : result (list Examples.Box) :=
  Ok [c0].

Definition trimToHumidityRatios (curves : list Examples.Box)
  : result (list Examples.Box) := Ok curves.

Definition orderBoundaries (segments : list (list Examples.Box))
  : result (list (list Examples.Box)) := Ok segments.

Definition evaporativeCooling (comfortCurve : Examples.Box)
           (segments : list (list Examples.Box)) : result Examples.Box :=
  Ok Examples.strategyBox.

Definition thermalMassNightVent (par : StrategyPar)
           (segments : list (list Examples.Box)) : result Examples.Box :=
  Ok Examples.strategyBox.

(** The eleven humidity lines of the chart, by their relative humidity. *)
Definition relHumidLines : list Z := [0; 10; 20; 30; 40; 50; 60; 70; 80; 90; 100].

(** The run of the examples, on one list of wind speeds. *)
Definition run (windSpeed : list Q) : result (option (list BoundaryPoint)) :=
  StrategyPolygons.occupantUseOfFans Examples.calcComfRange CurveBooleanUnion true
    (Ok tt) comfortBoundary trimToHumidityRatios orderBoundaries evaporativeCooling
    thermalMassNightVent ["Occupant Use of Fans"] []
    [23; 23]%Q windSpeed [1; 1]%Q [1; 1]%Q [0; 0]%Q relHumidLines 2 false.

End StrategyExamples.

(** ** Ladybug_3D Chart.py: main, makeChart and createChartCrvs *)

Module Chart3DMain.

(** [int(x)] on a float: towards zero. *)
Definition truncate (x : Q) : Z :=
  if Qle_bool 0 x then Qfloor x else Qceiling x.

(** [abs(x)] on a float. *)
Definition abs (x : Q) : Q := if Qle_bool 0 x then x else (- x)%Q.

(** A float with the values that are no finite number. *)
Inductive pyfloat : Type :=
| Finite (q : Q)
| Infinity (negative : bool)
| NaN.

(** [x < 0] *)
Definition negative (x : Q) : bool := negb (Qle_bool 0 x).

(** The float that an operation gives whose exact result is [x]: the
    nearest double, halves to the even one, with the spacing of the
    subnormal doubles below [2^-1022] and infinity from [2^1024] on. *)
Definition fl (x : Q) : pyfloat :=
  if Qeq_bool x 0 then Finite 0
  else let e := Z.max (floorLog2 x - 52) (-1074) in
       let r := (inject_Z (roundHalfEven (x / 2 ^ e)) * 2 ^ e)%Q in
       if Qle_bool (2 ^ 1024) (Qabs r) then Infinity (negative x)
       else Finite r.

(** [x * y] on floats. *)
Definition fmul (x y : pyfloat) : pyfloat :=
  match x, y with
  | NaN, _ | _, NaN => NaN
  | Finite a, Finite b => fl (a * b)
  | Infinity n, Finite b | Finite b, Infinity n =>
      if Qeq_bool b 0 then NaN else Infinity (xorb n (negative b))
  | Infinity n, Infinity m => Infinity (xorb n m)
  end.

(** [x / c] on floats, for a divisor [c] that is a finite float. *)
Definition fdiv (x : pyfloat) (c : Q) : result pyfloat :=
  if Qeq_bool c 0 then Raise ZeroDivisionError
  else match x with
       | Finite a => Ok (fl (a / c))
       | Infinity n => Ok (Infinity (xorb n (negative c)))
       | NaN => Ok NaN
       end.

(** [x == 0], [abs(x)] and [x > 0] on floats. *)
Definition isZero (x : pyfloat) : bool :=
  match x with
  | Finite a => Qeq_bool a 0
  | _ => false
  end.

Definition fabs (x : pyfloat) : pyfloat :=
  match x with
  | Finite a => Finite (abs a)
  | Infinity _ => Infinity false
  | NaN => NaN
  end.

Definition aboveZero (x : pyfloat) : bool :=
  match x with
  | Finite a => Qltb 0 a
  | Infinity n => negb n
  | NaN => false
  end.

(** What can be connected to a scale: a number, a text, or something that
    is neither. *)
Inductive connected : Type :=
| Number (x : pyfloat)
| Text (s : string)
| Other.

Section Main.

Variable separateList : SeparateList.
Variable exec : Exec.
(** [float(s)] on text: [None] when it raises [ValueError]. *)
Variable float_of_string : string -> option Q.

(** Lines 359-367: [patternList] as the chart uses it. *)
Definition patternOf (inputData : list obj) (condStatement : option string)
  : result (list obj) :=
  let unconditional := repeat (PBool false) (Z.to_nat 8760) in
  match condStatement with
  | Some statement =>
      if negb (String.eqb statement "") then
        checked <- Chart3D.checkConditionalStatement separateList exec
                     inputData statement ;;
        match checked with
        | Invalid _ => Ok unconditional
        | Pattern _ patternList => Ok patternList
        end
      else Ok unconditional
  | None => Ok unconditional
  end.

(** Lines 369-371. *)
Definition hoursOfYear (patternList : list obj) : list Z :=
  flat_map (fun '(hoy, pattern) =>
              if CheckTheInputs.truthy pattern then [hoy + 1] else [])
           (combine (range (len patternList)) patternList).

(** [float(s)] on text, [nan] and [inf] included: [None] when it raises
    [ValueError]. *)
Variable float_of_text : string -> option pyfloat.

(** [float(item)] *)
Definition floatOf (item : connected) : result pyfloat :=
  match item with
  | Number x => Ok x
  | Text s => match float_of_text s with
              | Some x => Ok x
              | None => Raise ValueError
              end
  | Other => Raise TypeError
  end.

(** [10 * float(scale[k]) * factor / conversionFac], with [factor] an
    integer. *)
Definition scaled (scale : list connected) (k : Z) (factor conversionFac : Q)
  : result pyfloat :=
  item <- getitem scale k ;;
  value <- floatOf item ;;
  fdiv (fmul (fmul (Finite 10) value) (Finite factor)) conversionFac.

(** The nested [try] of lines 395-403 and 411-417, and the test for zero
    that follows it: the scale at [i], else the first scale, else the
    default; a zero is replaced by the default. *)
Definition scaleOrDefault (scale : list connected) (i : Z)
           (factor conversionFac : Q) : result pyfloat :=
  chosen <- try_except (scaled scale i factor conversionFac)
              (try_except (scaled scale 0 factor conversionFac)
                          (fdiv (Finite (10 * factor)) conversionFac)) ;;
  if isZero chosen then fdiv (Finite (10 * factor)) conversionFac
  else Ok chosen.

(** Lines 388-421: [(ySC, xSC)] from the data's frequency text, [xScale],
    [yScale] and the conversion factor of [lb_preparation.checkUnits()], a
    float. *)
Definition axisScales (frequency : obj) (xScale yScale : list connected) (i : Z)
           (conversionFac : Q) : result (pyfloat * pyfloat) :=
  monthly <- PsychChartInputs.textIn "Month" frequency ;;
  let xExtraFactor := if monthly then 10%Q else 1%Q in
  xSCC <- scaleOrDefault xScale i xExtraFactor conversionFac ;;
  ySCC <- scaleOrDefault yScale i 1 conversionFac ;;
  Ok (fabs xSCC, fabs ySCC).

(** The item that the nested [try] reads its scale from: the one at [i]
    when it converts, else the first one when that converts. *)
Definition itemRead (scale : list connected) (i : Z) : option pyfloat :=
  match (item <- getitem scale i ;; floatOf item) with
  | Ok x => Some x
  | Raise _ =>
      match (item <- getitem scale 0 ;; floatOf item) with
      | Ok x => Some x
      | Raise _ => None
      end
  end.

(** Lines 426-437: [xC], the number of segments of the y axis. *)
Definition segments (frequency : obj) (yCount : list obj) (i : Z)
           (stHour endHour : Z) : result Z :=
  let count k := item <- getitem yCount k ;;
                 PsychChartInputs.float float_of_string item in
  let hours := inject_Z (Z.abs (endHour - stHour) + 1) in
  xC <- try_except (count i)
          (try_except (count 0)
             (daily <- PsychChartInputs.textIn "Daily" frequency ;;
              if daily then Ok 7%Q
              else if obj_eqb frequency (PStr "Monthly")
                      || obj_eqb frequency (PStr "Monthly-> averaged")
                   then Ok 1%Q
                   else Ok hours)) ;;
  let xC := if Qeq_bool xC 0 then hours else xC in
  Ok (truncate xC).

End Main.

(** A stand-in for [float] on text: it reads ["nan"] and nothing else. *)
Definition nanOnly (s : string) : option pyfloat :=
  if String.eqb s "nan" then Some NaN else None.

End Chart3DMain.

Module Chart3DMesh.

(** A point of the Rhino scene. *)
Definition Point3d : Type := (Q * Q * Q)%type.

Definition px (p : Point3d) : Q := fst (fst p).
Definition py (p : Point3d) : Q := snd (fst p).
Definition pz (p : Point3d) : Q := snd p.

(** A number at run time: an integer or a float. *)
Definition num : Type := (Z + Q)%type.

Definition sub (x y : num) : num :=
  match x, y with
  | inl a, inl b => inl (a - b)
  | _, _ => inr (Fragment.toQ x - Fragment.toQ y)%Q
  end.

Definition ltb (x y : num) : bool := Qltb (Fragment.toQ x) (Fragment.toQ y).

(** [int(x)] *)
Definition int (x : num) : Z :=
  match x with
  | inl z => z
  | inr q => Chart3DMain.truncate q
  end.

(** A list index: an integer, or [TypeError]. *)
Definition index (x : num) : result Z :=
  match x with
  | inl z => Ok z
  | inr _ => Raise TypeError
  end.

(** Lines 134-140: [yCount] after the test for an empty list. *)
Definition yCountOf (yCount : list obj) (values : list Q) (xSize : Z) : result obj :=
  if len yCount =? 0
  then if len values =? 24 then Ok (PInt 1) else Ok (PInt xSize)
  else getitem yCount 0.

(** [a / b] and [a % b] on integers. *)
Definition floordiv (a b : Z) : result Z :=
  if b =? 0 then Raise ZeroDivisionError else Ok (a / b).
Definition modulo (a b : Z) : result Z :=
  if b =? 0 then Raise ZeroDivisionError else Ok (a mod b).

Section Narrowing.

(** What a component of [rc.Geometry.Vector3f] holds of the float it is
    given: the vector stores single precision numbers. *)
Variable single : Q -> Q.

(** Lines 147-158: the four corners of the face of value [i].  The move is
    narrowed by [Vector3f] before [Point3d.Add] adds it to the base
    point. *)
Definition facePts (basePoint : Point3d) (xScale yScale zScale : Q) (xSize : Z)
           (i : Z) (value : Q) : result (list Point3d) :=
  column <- modulo i xSize ;;
  row <- floordiv i xSize ;;
  let xMove := (- xScale * inject_Z column)%Q in
  let yMove := (yScale * inject_Z row)%Q in
  let zMove := (zScale * value)%Q in
  let newPoint : Point3d :=
    (px basePoint + single xMove, py basePoint + single yMove,
     pz basePoint + single zMove)%Q in
  Ok [newPoint;
      (px newPoint + xScale, py newPoint, pz newPoint)%Q;
      (px newPoint + xScale, py newPoint + yScale, pz newPoint)%Q;
      (px newPoint, py newPoint + yScale, pz newPoint)%Q].

(** The loop of lines 146-158. *)
Definition meshFacePts (basePoint : Point3d) (xScale yScale zScale : Q)
           (xSize : Z) (values : list Q) : result (list (list Point3d)) :=
  for_enumerate (facePts basePoint xScale yScale zScale xSize) 0 values.

(** Lines 172-181: the faces between a value and the value [yCount]
    further on. *)
Definition firstWebbing (meshFacePts : list (list Point3d)) (yCount : obj)
  : result (list (list Point3d)) :=
  faces <-
    for_enumerate
      (fun listCount list =>
         n <- CheckTheInputs.number yCount ;;
         if ltb (inl listCount) (sub (inl (len meshFacePts)) n) then
           p2 <- getitem list 2 ;;
           k <- index (CheckTheInputs.add (inl listCount) n) ;;
           next <- getitem meshFacePts k ;;
           n1 <- getitem next 1 ;;
           n0 <- getitem next 0 ;;
           p3 <- getitem list 3 ;;
           Ok [[p2; n1; n0; p3]]
         else Ok [])
      0 meshFacePts ;;
  Ok (List.concat faces).

(** Lines 184-193: the faces between a value and the value before it. *)
Definition secondWebbing (meshFacePts : list (list Point3d)) (yCount : obj)
  : result (list (list Point3d)) :=
  faces <-
    for_enumerate
      (fun listCount list =>
         n <- CheckTheInputs.number yCount ;;
         quotient <- Fragment.divide (inl listCount) n ;;
         if negb (Qeq_bool (Fragment.toQ quotient) (inject_Z (int quotient))) then
           p2 <- getitem list 2 ;;
           p1 <- getitem list 1 ;;
           before <- getitem meshFacePts (listCount - 1) ;;
           b0 <- getitem before 0 ;;
           b3 <- getitem before 3 ;;
           Ok [[p2; p1; b0; b3]]
         else Ok [])
      0 meshFacePts ;;
  Ok (List.concat faces).

(** Lines 134-193: the faces of [joinedMesh] in the order they are
    appended. *)
Definition meshFaces (values : list Q) (xSize : Z) (xScale yScale zScale : Q)
           (basePoint : Point3d) (yCount : list obj)
  : result (list (list Point3d)) :=
  yCount <- yCountOf yCount values xSize ;;
  ySize <- floordiv (len values) xSize ;;
  primary <- meshFacePts basePoint xScale yScale zScale xSize values ;;
  first <- firstWebbing primary yCount ;;
  second <- secondWebbing primary yCount ;;
  Ok (primary ++ first ++ second).

End Narrowing.

(** A stand-in for the narrowing of [Vector3f]: the nearest number of 24
    binary digits. *)
Definition single24 (x : Q) : Q :=
  if Qeq_bool x 0 then 0%Q
  else let e := floorLog2 x - 23 in
       (inject_Z (roundHalfEven (x / 2 ^ e)) * 2 ^ e)%Q.

End Chart3DMesh.

Module Chart3DCurves.

Definition daysPerMonth : list Z := [31; 28; 31; 30; 31; 30; 31; 31; 30; 31; 30; 31].

Definition monthNames : list string :=
  ["Jan"; "Feb"; "Mar"; "Apr"; "May"; "Jun"; "Jul"; "Aug"; "Sep"; "Oct"; "Nov";
   "Dec"].

(** Lines 245-249: [zMax], with [tolerance] for
    [sc.doc.ModelAbsoluteTolerance]. *)
Definition zMax (values : list Q) (xSize : Z) (zScale tolerance : Q) : result Q :=
  ySize <- Chart3DMesh.floordiv (len values) xSize ;;
  let orderedVal := PsychChartStrategies.sort values in
  lowest <- getitem orderedVal 0 ;;
  Ok (lowest * zScale + tolerance * 5)%Q.

(** The body of the loop of lines 269-278 for one month: the name and the
    number of days it adds. *)
Definition monthEntry (startMonth startDay endMonth endDay : Z) (months : Z)
           (count month : Z) : result (string * Z) :=
  name <- getitem monthNames (month - 1) ;;
  days <- getitem daysPerMonth (month - 1) ;;
  if (count =? 0) && (startMonth =? endMonth)
  then Ok (name, days + 1 - startDay + (endDay - days))
  else if count =? 0
       then Ok (name, days + 1 - startDay)
       else if (count =? months - 1) && negb (endDay =? days)
            then Ok (name, endDay)
            else Ok (name, days).

(** Lines 252-278: [(textStrings, daysList)] for the analysis period. *)
Definition monthsOfPeriod (analysisStart analysisEnd : list Z)
  : result (list string * list Z) :=
  startMonth <- getitem analysisStart 0 ;;
  startDay <- getitem analysisStart 1 ;;
  startHour <- getitem analysisStart 2 ;;
  endMonth <- getitem analysisEnd 0 ;;
  endDay <- getitem analysisEnd 1 ;;
  endHour <- getitem analysisEnd 2 ;;
  let monthsList := PsychChartMain.range3 startMonth (endMonth + 1) 1 in
  entries <- for_enumerate
               (monthEntry startMonth startDay endMonth endDay (len monthsList))
               0 monthsList ;;
  Ok (map fst entries, map snd entries).

(** The number of the day in a year of 365 days. *)
Definition dayOfYear (month day : Z) : Z :=
  Py.sum (firstn (Z.to_nat (month - 1)) daysPerMonth) + day.

End Chart3DCurves.

Module CurveReading.

(** The days that [monthEntry] gives a month, with the last test of the
    loop resolved: a last month that ends on its last day gets its number
    of days, which is the end day. *)
Definition daysGiven (startMonth startDay endMonth endDay months count month : Z)
  : Z :=
  let days := nth (Z.to_nat (month - 1)) Chart3DCurves.daysPerMonth 0 in
  if (count =? 0) && (startMonth =? endMonth)
  then days + 1 - startDay + (endDay - days)
  else if count =? 0 then days + 1 - startDay
       else if count =? months - 1 then endDay else days.

End CurveReading.

(** * Properties *)

(** ** The run-time model *)

Section PyFacts.

Context {A : Type}.

Lemma index_of_nonneg (n : nat) (i : Z) :
  0 <= i < Z.of_nat n -> index_of n i = Ok (Z.to_nat i).
Proof.
  intros H. unfold index_of.
  destruct (Z.ltb_spec i 0); [lia |].
  destruct (Z.ltb_spec i 0); [lia |].
  destruct (Z.leb_spec (Z.of_nat n) i); [lia | reflexivity].
Qed.

Lemma index_of_negative (n : nat) (i : Z) :
  - Z.of_nat n <= i < 0 -> index_of n i = Ok (Z.to_nat (i + Z.of_nat n)).
Proof.
  intros H. unfold index_of.
  destruct (Z.ltb_spec i 0); [| lia].
  destruct (Z.ltb_spec (i + Z.of_nat n) 0); [lia |].
  destruct (Z.leb_spec (Z.of_nat n) (i + Z.of_nat n)); [lia | reflexivity].
Qed.

Lemma index_of_outside (n : nat) (i : Z) :
  i < - Z.of_nat n \/ Z.of_nat n <= i -> index_of n i = Raise IndexError.
Proof.
  intros H. unfold index_of.
  destruct (Z.ltb_spec i 0).
  - destruct (Z.ltb_spec (i + Z.of_nat n) 0); [reflexivity |].
    destruct (Z.leb_spec (Z.of_nat n) (i + Z.of_nat n)); [reflexivity | lia].
  - destruct (Z.ltb_spec i 0); [lia |].
    destruct (Z.leb_spec (Z.of_nat n) i); [reflexivity | lia].
Qed.

Lemma index_of_bound (n : nat) (i : Z) (k : nat) :
  index_of n i = Ok k -> (k < n)%nat.
Proof.
  unfold index_of.
  destruct (Z.ltb_spec i 0);
    match goal with |- context [?j <? 0] => destruct (Z.ltb_spec j 0) end;
    simpl; try discriminate;
    match goal with |- context [?a <=? ?b] => destruct (Z.leb_spec a b) end;
    try discriminate; intros E; injection E as <-; lia.
Qed.

Lemma getitem_nth (l : list A) (i : nat) (x : A) :
  nth_error l i = Some x -> getitem l (Z.of_nat i) = Ok x.
Proof.
  intros H. unfold getitem.
  assert (i < List.length l)%nat by (apply nth_error_Some; congruence).
  rewrite index_of_nonneg by lia.
  rewrite Nat2Z.id, H. reflexivity.
Qed.

Lemma getitem_outside (l : list A) (i : Z) :
  Z.of_nat (List.length l) <= i -> getitem l i = Raise IndexError.
Proof.
  intros H. unfold getitem. rewrite index_of_outside by lia. reflexivity.
Qed.

Lemma getitem_Ok_inv (l : list A) (i : Z) (x : A) :
  getitem l i = Ok x ->
  exists k, index_of (List.length l) i = Ok k /\ nth_error l k = Some x.
Proof.
  unfold getitem. destruct (index_of (List.length l) i) as [k |] eqn:E; [| discriminate].
  destruct (nth_error l k) eqn:N; [| discriminate].
  intros H. injection H as <-. eauto.
Qed.




Lemma update_split (l : list A) (k : nat) (v : A) :
  (k < List.length l)%nat ->
  update l k v = firstn k l ++ v :: skipn (S k) l.
Proof.
  revert k. induction l as [| h t IH]; intros [| k] H; simpl in *; try lia; auto.
  f_equal. apply IH. lia.
Qed.

End PyFacts.

Lemma sum_from (l : list Z) (a : Z) : fold_left Z.add l a = a + Py.sum l.
Proof.
  unfold Py.sum. revert a.
  induction l as [| x l IH]; intros a; simpl; [lia |].
  rewrite IH, (IH x). lia.
Qed.

Lemma sum_cons (x : Z) (l : list Z) : Py.sum (x :: l) = x + Py.sum l.
Proof. unfold Py.sum at 1. simpl. apply sum_from. Qed.

Lemma sum_app (l1 l2 : list Z) : Py.sum (l1 ++ l2) = Py.sum l1 + Py.sum l2.
Proof.
  induction l1 as [| x l1 IH]; simpl; [reflexivity |].
  rewrite !sum_cons, IH. lia.
Qed.

Lemma Qltb_lt (x y : Q) : Qltb x y = true <-> (x < y)%Q.
Proof.
  unfold Qltb. rewrite negb_true_iff.
  split; intros H.
  - apply Qnot_le_lt. intros L. apply Qle_bool_iff in L. congruence.
  - destruct (Qle_bool y x) eqn:E; [| reflexivity].
    apply Qle_bool_iff in E. exfalso. revert E. apply Qlt_not_le, H.
Qed.


(** ** The barometric pressure input *)

Section PressureFacts.

Import PsychChartInputs.

Variable float_of_string : string -> option Q.

Lemma within_0_100_spec (x : Q) : within_0_100 x = true <-> (0 <= x <= 100)%Q.
Proof.
  unfold within_0_100. rewrite andb_true_iff, !Qle_bool_iff. tauto.
Qed.

Lemma float_plainNumber (n : Z + Q) :
  float float_of_string (plainNumber n) = Ok (valueOf n).
Proof. destruct n; reflexivity. Qed.

Lemma readPressures_plain (ns : list (Z + Q)) (acc : list obj) (cd nv : bool) :
  readPressures float_of_string (map plainNumber ns) (acc, cd, nv) =
  (acc ++ map PFloat (filter within_0_100 (map valueOf ns)),
   cd || existsb within_0_100 (map valueOf ns),
   nv && forallb within_0_100 (map valueOf ns)).
Proof.
  revert acc cd nv.
  induction ns as [| n ns IH]; intros acc cd nv; simpl.
  - rewrite app_nil_r, orb_false_r, andb_true_r. reflexivity.
  - rewrite float_plainNumber.
    fold (within_0_100 (valueOf n)).
    destruct (within_0_100 (valueOf n)) eqn:E; rewrite IH; simpl.
    + rewrite <- app_assoc. simpl. rewrite orb_true_r. reflexivity.
    + rewrite andb_false_r. reflexivity.
Qed.

Lemma not_tagged_plain (ns : list (Z + Q)) :
  try_except (item2 <- getitem (map plainNumber ns) 2 ;;
              textIn "Barometric Pressure" item2) (Ok false) = Ok false.
Proof.
  destruct (getitem (map plainNumber ns) 2) as [x |] eqn:E; simpl; [| reflexivity].
  apply getitem_Ok_inv in E. destruct E as (k & _ & N).
  apply nth_error_In, in_map_iff in N. destruct N as ([z | q] & <- & _); reflexivity.
Qed.

Lemma forallb_existsb_nonempty {B : Type} (p : B -> bool) (l : list B) :
  l <> [] -> forallb p l = true -> existsb p l = true.
Proof.
  destruct l as [| x l]; [congruence |]. simpl.
  intros _ H. apply andb_true_iff in H. destruct H as [-> _]. reflexivity.
Qed.

Lemma checkData3_plain (epwData0 : bool) (epwStr0 : list obj) (ns : list (Z + Q)) :
  checkData3 (checkBarometricPressure float_of_string epwData0 epwStr0
                                      (map plainNumber ns))
  = forallb within_0_100 (map valueOf ns).
Proof.
  unfold checkBarometricPressure.
  destruct ns as [| n ns]; [reflexivity |].
  replace (negb (len (map plainNumber (n :: ns)) =? 0)) with true
    by (unfold len; simpl List.length; symmetry; apply negb_true_iff, Z.eqb_neq; lia).
  rewrite not_tagged_plain. cbv zeta. simpl negb. cbv match.
  rewrite readPressures_plain.
  assert (X : forallb within_0_100 (map valueOf (n :: ns)) = true ->
              existsb within_0_100 (map valueOf (n :: ns)) = true)
    by (apply forallb_existsb_nonempty; discriminate).
  revert X.
  generalize (forallb within_0_100 (map valueOf (n :: ns))).
  generalize (existsb within_0_100 (map valueOf (n :: ns))).
  generalize (filter within_0_100 (map valueOf (n :: ns))).
  intros fl ex [|] X; simpl; [apply X |]; reflexivity.
Qed.

(** C10.  A barometric pressure given as plain numbers passes its check
    exactly when every value lies in [0, 100]; a value above 100, such as
    the sea-level 101325 Pa that the component documents, is flagged with
    a warning and makes the final go-ahead false; an empty input gives the
    default 101325 Pa and passes. *)
Theorem plain_pressure_accepted_only_within_0_100 :
  forall (epwData0 : bool) (epwStr0 : list obj),
    (forall ns : list (Z + Q),
        let r := checkBarometricPressure float_of_string epwData0 epwStr0
                                         (map plainNumber ns) in
        (checkData3 r = true <->
         Forall (fun n => (0 <= valueOf n <= 100)%Q) ns)
        /\ (forall n, In n ns -> (100 < valueOf n)%Q ->
            checkData3 r = false
            /\ warnings r = ["barometricPressure_ input does not contain valid value."]
            /\ forall c1 c2 c4 c5 c6 c7 c8 c9 c10 c11 c12 c13,
                checkData c1 c2 (checkData3 r) c4 c5 c6 c7 c8 c9 c10 c11 c12 c13
                = false))
    /\ checkData3 (checkBarometricPressure float_of_string epwData0 epwStr0
                                           [PInt 101325]) = false
    /\ checkBarometricPressure float_of_string epwData0 epwStr0 []
       = mkPressureCheck true [PInt 101325] false epwData0 epwStr0 [].
Proof.
  intros epwData0 epwStr0. split; [| split; reflexivity].
  intros ns r.
  assert (E : checkData3 r = forallb within_0_100 (map valueOf ns))
    by apply checkData3_plain.
  split.
  - rewrite E, forallb_forall, Forall_forall. split.
    + intros H n Hn. apply within_0_100_spec, H, in_map, Hn.
    + intros H x Hx. apply in_map_iff in Hx. destruct Hx as (n & <- & Hn).
      apply within_0_100_spec, H, Hn.
  - intros n Hn Hbig.
    assert (F : checkData3 r = false).
    { rewrite E. apply not_true_is_false. intros T.
      rewrite forallb_forall in T.
      specialize (T (valueOf n) (in_map valueOf ns n Hn)).
      apply within_0_100_spec in T. destruct T as [_ T].
      revert T. apply Qlt_not_le, Hbig. }
    split; [exact F |]. split.
    + subst r. revert F. unfold checkBarometricPressure.
      destruct ns as [| n0 ns0]; [destruct Hn |].
      replace (negb (len (map plainNumber (n0 :: ns0)) =? 0)) with true
        by (unfold len; simpl List.length; symmetry;
            apply negb_true_iff, Z.eqb_neq; lia).
      rewrite not_tagged_plain. cbv zeta. simpl negb. cbv match.
      rewrite readPressures_plain.
      generalize (forallb within_0_100 (map valueOf (n0 :: ns0))).
      generalize (existsb within_0_100 (map valueOf (n0 :: ns0))).
      generalize (filter within_0_100 (map valueOf (n0 :: ns0))).
      intros fl ex fa. simpl. intros ->. reflexivity.
    + intros. rewrite F. unfold checkData.
      rewrite !andb_false_r. reflexivity.
Qed.

End PressureFacts.

(** ** Classifying the hours against the polygons *)

Section StatisticsFacts.

Import PsychChart.

Variables Polygon Point : Type.
Variable Contains : Polygon -> Point -> PointContainment.

Lemma comfBoolPlain_length (polygon : Polygon) (hourPts : list Point) :
  List.length (comfBoolPlain Contains polygon hourPts) = List.length hourPts.
Proof. apply length_map. Qed.





Lemma getitem_raises_IndexError {B : Type} (l : list B) (i : Z) (e : exn) :
  getitem l i = Raise e -> e = IndexError.
Proof.
  unfold getitem. destruct (index_of (List.length l) i) as [k | e'] eqn:E.
  - destruct (nth_error l k); intros H; [discriminate |].
    injection H as <-. reflexivity.
  - intros H. injection H as <-. unfold index_of in E.
    destruct ((_ <? 0) || _); [injection E as <-; reflexivity | discriminate].
Qed.



Import Reading.

Lemma sum_zero_one_bounds (l : list Z) :
  Forall (fun x => x = 0 \/ x = 1) l -> 0 <= Py.sum l <= len l.
Proof.
  unfold len. induction 1 as [| x l Hx _ IH].
  - cbv. split; discriminate.
  - rewrite sum_cons. simpl List.length. destruct Hx; subst; lia.
Qed.

Lemma sum_zero_one_full (l : list Z) :
  Forall (fun x => x = 0 \/ x = 1) l ->
  (Py.sum l = len l <-> Forall (fun x => x = 1) l).
Proof.
  unfold len. induction 1 as [| x l Hx Hl IH].
  - split; [constructor | reflexivity].
  - rewrite sum_cons. simpl List.length.
    pose proof (sum_zero_one_bounds l Hl) as B. unfold len in B.
    split.
    + intros E. destruct Hx; subst; [lia |].
      constructor; [reflexivity |]. apply IH. lia.
    + intros F. inversion F; subst. apply IH in H2. lia.
Qed.

Lemma comfBoolPlain_zero_one (polygon : Polygon) (hourPts : list Point) :
  Forall (fun x => x = 0 \/ x = 1) (comfBoolPlain Contains polygon hourPts).
Proof.
  unfold comfBoolPlain. apply Forall_map, Forall_forall. intros p _.
  destruct (isInside (Contains polygon p)); auto.
Qed.

Lemma comfBoolPlain_all_one (polygon : Polygon) (hourPts : list Point) :
  Forall (fun x => x = 1) (comfBoolPlain Contains polygon hourPts)
  <-> forallb (inside Contains polygon) hourPts = true.
Proof.
  unfold comfBoolPlain, inside. rewrite Forall_map, forallb_forall, Forall_forall.
  split; intros H p Hp; specialize (H p Hp);
    destruct (isInside (Contains polygon p)); congruence.
Qed.

(** Integer division leaves nothing between none and all. *)
Lemma whole_quotient (l : list Z) :
  Forall (fun x => x = 0 \/ x = 1) l -> l <> [] ->
  Py.sum l / len l = if Z.eqb (Py.sum l) (len l) then 1 else 0.
Proof.
  intros H Hne.
  pose proof (sum_zero_one_bounds l H) as B.
  assert (0 < len l) by (unfold len; destruct l; [congruence | simpl; lia]).
  destruct (Z.eqb_spec (Py.sum l) (len l)) as [E | E].
  - rewrite E. apply Z.div_same. lia.
  - apply Z.div_small. lia.
Qed.

Lemma percentGuarded_plain (polygon : Polygon) (hourPts : list Point) :
  percentGuarded (comfBoolPlain Contains polygon hourPts)
  = if forallb (inside Contains polygon) hourPts then 100 else 0.
Proof.
  unfold percentGuarded.
  destruct hourPts as [| p rest]; [reflexivity |].
  set (l := comfBoolPlain Contains polygon (p :: rest)).
  replace (negb (len l =? 0)) with true
    by (unfold l, len; simpl; reflexivity).
  rewrite whole_quotient by (try apply comfBoolPlain_zero_one; discriminate).
  destruct (Z.eqb_spec (Py.sum l) (len l)) as [E | E].
  - apply sum_zero_one_full in E; [| apply comfBoolPlain_zero_one].
    apply comfBoolPlain_all_one in E. rewrite E. reflexivity.
  - destruct (forallb (inside Contains polygon) (p :: rest)) eqn:F; [| reflexivity].
    exfalso. apply E. apply sum_zero_one_full; [apply comfBoolPlain_zero_one |].
    apply comfBoolPlain_all_one, F.
Qed.

Lemma percentUnguarded_plain (polygon : Polygon) (hourPts : list Point) :
  percentUnguarded (comfBoolPlain Contains polygon hourPts)
  = match hourPts with
    | [] => Raise ZeroDivisionError
    | _ => Ok (if forallb (inside Contains polygon) hourPts then 100 else 0)
    end.
Proof.
  destruct hourPts as [| p rest]; [reflexivity |].
  rewrite <- percentGuarded_plain. reflexivity.
Qed.

(** With no hours, a strategy region never gets past its percentage. *)
Lemma strategyEntry_no_hours (analysisPeriod_ : list obj) (epwData : bool)
      (epwStr : list obj) (strategyTextNames : list string) (tempBelowComf : Q)
      (airTemp : list Q) (maxComfortPolyTemp : Q) (patternList : list obj)
      (countComf : option Z) (countStrat : Z) (polygon : Polygon) :
  strategyEntry Contains analysisPeriod_ [] epwData epwStr strategyTextNames
                tempBelowComf airTemp maxComfortPolyTemp patternList
                countComf countStrat polygon
  = match countComf with
    | None => Raise NameError
    | Some cc =>
        match getitem strategyTextNames (cc + countStrat + 1) with
        | Ok _ => Raise ZeroDivisionError
        | Raise e => Raise e
        end
    end.
Proof.
  unfold strategyEntry. destruct countComf as [cc |]; [| reflexivity]. simpl.
  destruct (getitem strategyTextNames (cc + countStrat + 1)) as [name |];
    [| reflexivity]. simpl.
  unfold strategyComfBool. destruct (plainTest epwData patternList name); reflexivity.
Qed.

Lemma statistics_no_hours (analysisPeriod_ : list obj) (epwData : bool)
      (epwStr : list obj) (strategyTextNames : list string) (tempBelowComf : Q)
      (airTemp : list Q) (maxComfortPolyTemp : Q) (patternList : list obj)
      (comfortPolyline : list Polygon) (strategy : Polygon)
      (strategies unionedCurves : list Polygon) :
  exists e,
    statisticallyAnalyzePolygons Contains analysisPeriod_ [] epwData epwStr
      strategyTextNames tempBelowComf airTemp maxComfortPolyTemp patternList
      comfortPolyline (strategy :: strategies) unionedCurves = Raise e.
Proof.
  unfold statisticallyAnalyzePolygons.
  destruct (for_enumerate _ 0 comfortPolyline) as [comf | e];
    [| eexists; reflexivity].
  simpl. rewrite strategyEntry_no_hours.
  destruct (lastIndex comfortPolyline) as [cc |]; [| eexists; reflexivity].
  destruct (getitem strategyTextNames (cc + 0 + 1)); eexists; reflexivity.
Qed.

Lemma addInto_spec (b pre a : list Z) :
  List.length a = List.length b ->
  addInto (pre ++ a) (List.length pre) b = Ok (pre ++ addLists a b).
Proof.
  revert pre a. induction b as [| y b IH]; intros pre a Hlen.
  - destruct a; [| discriminate]. reflexivity.
  - destruct a as [| x a]; [discriminate |]. simpl in Hlen.
    cbn [addInto].
    rewrite (getitem_nth (pre ++ x :: a) (List.length pre) x)
      by (rewrite nth_error_app2, Nat.sub_diag by lia; reflexivity).
    simpl bind. unfold setitem.
    rewrite index_of_nonneg by (rewrite length_app; simpl; lia).
    rewrite Nat2Z.id. simpl bind.
    rewrite update_split by (rewrite length_app; simpl; lia).
    rewrite firstn_app, Nat.sub_diag, firstn_all, app_nil_r.
    replace (skipn (S (List.length pre)) (pre ++ x :: a)) with a.
    + replace (pre ++ (x + y) :: a) with ((pre ++ [x + y]) ++ a)
        by (rewrite <- app_assoc; reflexivity).
      replace (S (List.length pre)) with (List.length (pre ++ [x + y]))
        by (rewrite length_app; simpl; lia).
      rewrite IH by lia. rewrite <- app_assoc. reflexivity.
    + rewrite skipn_app.
      replace (S (List.length pre) - List.length pre)%nat with 1%nat by lia.
      rewrite skipn_all2 by lia. reflexivity.
Qed.

Lemma addLists_length (a b : list Z) :
  List.length a = List.length b -> List.length (addLists a b) = List.length a.
Proof.
  intros H. unfold addLists. rewrite length_map, length_combine. lia.
Qed.

Lemma buildFinalComfOrNot_later (lists : list (list Z)) (final : list Z) (k : nat) :
  Forall (fun l => List.length l = List.length final) lists ->
  buildFinalComfOrNot final (S k) lists = Ok (fold_left addLists lists final).
Proof.
  revert final k. induction lists as [| l lists IH]; intros final k H.
  - reflexivity.
  - inversion H as [| ? ? Hl Hrest]; subst. cbn [buildFinalComfOrNot Nat.eqb].
    pose proof (addInto_spec l [] final) as E. simpl in E.
    rewrite E by congruence. simpl bind.
    rewrite IH.
    + reflexivity.
    + rewrite addLists_length by congruence.
      exact Hrest.
Qed.

Lemma addLists_containing (curves : list Polygon) (polygon : Polygon)
      (hourPts : list Point) :
  addLists (map (containing Contains curves) hourPts)
           (comfBoolPlain Contains polygon hourPts)
  = map (containing Contains (curves ++ [polygon])) hourPts.
Proof.
  unfold addLists, comfBoolPlain.
  induction hourPts as [| p rest IH]; [reflexivity |].
  simpl. rewrite IH. f_equal.
  unfold containing. rewrite map_app, sum_app. simpl. unfold inside.
  rewrite sum_cons. cbv [Py.sum fold_left]. lia.
Qed.

Lemma fold_addLists_containing (later earlier : list Polygon) (hourPts : list Point) :
  fold_left addLists (map (fun polygon => comfBoolPlain Contains polygon hourPts) later)
            (map (containing Contains earlier) hourPts)
  = map (containing Contains (earlier ++ later)) hourPts.
Proof.
  revert earlier. induction later as [| polygon later IH]; intros earlier.
  - rewrite app_nil_r. reflexivity.
  - simpl. rewrite addLists_containing, IH, <- app_assoc. reflexivity.
Qed.

(** The list that lines 1387-1393 build holds, for every hour, the number
    of unioned curves that contain its point. *)
Lemma coverage_counts (first : Polygon) (others : list Polygon) (hourPts : list Point) :
  buildFinalComfOrNot [] 0
    (map snd (map (coverageEntry Contains hourPts) (first :: others)))
  = Ok (map (containing Contains (first :: others)) hourPts).
Proof.
  rewrite map_map. cbn [map buildFinalComfOrNot Nat.eqb coverageEntry snd app].
  simpl bind.
  rewrite buildFinalComfOrNot_later.
  - f_equal.
    replace (comfBoolPlain Contains first hourPts)
      with (map (containing Contains [first]) hourPts).
    + apply (fold_addLists_containing others [first]).
    + unfold comfBoolPlain, containing, inside. apply map_ext. intros p.
      cbv [map Py.sum fold_left]. destruct (isInside (Contains first p)); reflexivity.
  - apply Forall_map, Forall_forall. intros polygon _.
    rewrite !comfBoolPlain_length. reflexivity.
Qed.

(** The total percentage is a hundred for every unioned curve that contains
    all the points. *)
Lemma coverage_percent (unionedCurves : list Polygon) (hourPts : list Point) :
  Py.sum (map fst (map (coverageEntry Contains hourPts) unionedCurves))
  = 100 * containingAll Contains unionedCurves hourPts.
Proof.
  unfold containingAll.
  induction unionedCurves as [| polygon rest IH]; [reflexivity |].
  cbn [map]. rewrite !sum_cons, IH. unfold coverageEntry. cbn [fst].
  rewrite percentGuarded_plain.
  destruct (forallb (inside Contains polygon) hourPts); lia.
Qed.



(** C2.  With no hours to classify, the comfort and the coverage regions
    report 100 percent, but a strategy region divides by the number of hours
    without the guard the other two loops have: whenever there is a strategy
    region the run ends in an exception, and it is [ZeroDivisionError] once
    the region's name has been found. *)
Theorem no_hours_stop_at_the_first_strategy_region :
  forall (analysisPeriod_ : list obj) (epwData : bool) (epwStr : list obj)
         (strategyTextNames : list string) (tempBelowComf : Q) (airTemp : list Q)
         (maxComfortPolyTemp : Q) (patternList : list obj)
         (comfortPolyline : list Polygon) (strategy : Polygon)
         (strategies unionedCurves : list Polygon) (polygon : Polygon),
    (exists e,
        statisticallyAnalyzePolygons Contains analysisPeriod_ [] epwData epwStr
          strategyTextNames tempBelowComf airTemp maxComfortPolyTemp patternList
          comfortPolyline (strategy :: strategies) unionedCurves = Raise e)
    /\ percentGuarded (comfBoolPlain Contains polygon []) = 100
    /\ fst (coverageEntry Contains [] polygon) = 100
    /\ percentUnguarded (comfBoolPlain Contains polygon []) = Raise ZeroDivisionError
    /\ statisticallyAnalyzePolygons Examples.boxContains [] [] false []
         ["Comfort"; "Occupant Use of Fans"] (28 # 10) [] 26
         Examples.noHourSelected
         [Examples.comfortBox] [Examples.strategyBox]
         [Examples.comfortBox; Examples.strategyBox]
       = Raise ZeroDivisionError.
Proof.
  intros. split; [apply statistics_no_hours |].
  repeat split; vm_compute; reflexivity.
Qed.

(** C3.  The percentage of a region is computed with the integer division of
    Python 2, so it is 100 when every hour is inside and 0 otherwise: one
    hour inside out of four gives 0, not 25. *)
Theorem percent_is_all_or_nothing :
  forall (polygon : Polygon) (hourPts : list Point),
    percentGuarded (comfBoolPlain Contains polygon hourPts)
    = (if forallb (inside Contains polygon) hourPts then 100 else 0)
    /\ percentUnguarded (comfBoolPlain Contains polygon hourPts)
       = match hourPts with
         | [] => Raise ZeroDivisionError
         | _ => Ok (if forallb (inside Contains polygon) hourPts then 100 else 0)
         end
    /\ statisticallyAnalyzePolygons Examples.boxContains [] Examples.fourPoints
         false [] ["Comfort"] (28 # 10) Examples.fourTemps 26 []
         [Examples.comfortBox] [] [Examples.comfortBox]
       = Ok {| finalTotalPercent := 0;
               finalComfOrNot := [PInt 1; PInt 0; PInt 0; PInt 0];
               strategyPercent := [0];
               strategyOrNot := [[PInt 1; PInt 0; PInt 0; PInt 0]] |}.
Proof.
  intros. split; [apply percentGuarded_plain |].
  split; [apply percentUnguarded_plain |].
  vm_compute. reflexivity.
Qed.

(** C4.  The aggregate list adds the 0/1 lists of the unioned curves entry by
    entry, and the total percentage adds their percentages: an hour inside
    two unioned curves is marked 2, and two curves that hold every hour give
    200 percent. *)
Theorem total_coverage_adds_the_curves :
  forall (first : Polygon) (others : list Polygon) (hourPts : list Point),
    buildFinalComfOrNot [] 0
      (map snd (map (coverageEntry Contains hourPts) (first :: others)))
    = Ok (map (containing Contains (first :: others)) hourPts)
    /\ Py.sum (map fst (map (coverageEntry Contains hourPts) (first :: others)))
       = 100 * containingAll Contains (first :: others) hourPts
    /\ statisticallyAnalyzePolygons Examples.boxContains [] [(22, 5)%Q]
         false [] ["Comfort"] (28 # 10) [22%Q] 26 []
         [Examples.comfortBox] [] [Examples.comfortBox; Examples.wideBox]
       = Ok {| finalTotalPercent := 200;
               finalComfOrNot := [PInt 2];
               strategyPercent := [100];
               strategyOrNot := [[PInt 1]] |}.
Proof.
  intros. split; [apply coverage_counts |].
  split; [apply coverage_percent |].
  vm_compute. reflexivity.
Qed.

End StatisticsFacts.



(** ** Float sums and the column of a temperature *)

Section FloatFacts.

Import PsychChart Histogram.

Local Open Scope Q_scope.

Lemma pow2_pos (e : Z) : 0 < 2 ^ e.
Proof. apply Qpower_0_lt. reflexivity. Qed.

Lemma pow2_succ (e : Z) : 2 ^ (e + 1) == 2 * 2 ^ e.
Proof. rewrite Qpower_plus by discriminate. rewrite Qpower_1_r. ring. Qed.

Lemma pow2_inject (a : Z) : (0 <= a)%Z -> inject_Z (2 ^ a) == 2 ^ a.
Proof. intros H. rewrite Zpower_Qpower by exact H. reflexivity. Qed.

Lemma floorLog2_spec (x : Q) :
  ~ x == 0 -> 2 ^ floorLog2 x <= Qabs x /\ Qabs x < 2 ^ (floorLog2 x + 1).
Proof.
  intros Hx. destruct x as [n d].
  assert (Hn : (0 < Z.abs n)%Z).
  { assert (n <> 0%Z); [| lia]. intros ->. apply Hx. reflexivity. }
  unfold floorLog2. cbn [Qnum Qden].
  set (a := Z.log2 (Z.abs n)). set (b := Z.log2 (Z.pos d)).
  assert (Ha0 : (0 <= a)%Z) by apply Z.log2_nonneg.
  assert (Hb0 : (0 <= b)%Z) by apply Z.log2_nonneg.
  destruct (Z.log2_spec (Z.abs n) Hn) as [A1 A2]. fold a in A1, A2.
  destruct (Z.log2_spec (Z.pos d) (Pos2Z.is_pos d)) as [B1 B2]. fold b in B1, B2.
  assert (EA : Qabs (n # d) == inject_Z (Z.abs n) / inject_Z (Z.pos d))
    by (unfold Qabs; apply Qmake_Qdiv).
  set (N := inject_Z (Z.abs n)) in *. set (D := inject_Z (Z.pos d)) in *.
  assert (QA1 : 2 ^ a <= N).
  { rewrite <- pow2_inject by exact Ha0. unfold N. rewrite <- Zle_Qle. exact A1. }
  assert (QA2 : N < 2 * 2 ^ a).
  { rewrite <- pow2_succ, <- pow2_inject by lia. unfold N.
    rewrite <- Zlt_Qlt. exact A2. }
  assert (QB1 : 2 ^ b <= D).
  { rewrite <- pow2_inject by exact Hb0. unfold D. rewrite <- Zle_Qle. exact B1. }
  assert (QB2 : D < 2 * 2 ^ b).
  { rewrite <- pow2_succ, <- pow2_inject by lia. unfold D.
    rewrite <- Zlt_Qlt. exact B2. }
  pose proof (pow2_pos a) as PA. pose proof (pow2_pos b) as PB.
  assert (PD : 0 < D) by lra.
  assert (E0 : 2 ^ (a - b) == 2 ^ a / 2 ^ b) by (apply Qpower_minus; discriminate).
  destruct (Qle_bool (2 ^ (a - b)) (Qabs (n # d))) eqn:C.
  - apply Qle_bool_iff in C. split; [exact C |].
    rewrite pow2_succ, E0, EA.
    apply Qlt_shift_div_r; [exact PD |].
    assert (G : N * 2 ^ b < 2 * 2 ^ a * D) by nra.
    assert (S : 2 * (2 ^ a / 2 ^ b) * D == (2 * 2 ^ a * D) / 2 ^ b)
      by (field; lra).
    rewrite S. apply Qlt_shift_div_l; [exact PB | exact G].
  - assert (C' : Qabs (n # d) < 2 ^ (a - b)).
    { apply Qnot_le_lt. intros L. apply Qle_bool_iff in L. congruence. }
    replace (a - b - 1 + 1)%Z with (a - b)%Z by lia.
    split; [| exact C'].
    assert (E1 : 2 ^ (a - b - 1) == 2 ^ a / (2 * 2 ^ b)).
    { replace (a - b - 1)%Z with (a - (b + 1))%Z by lia.
      rewrite Qpower_minus by discriminate. rewrite pow2_succ. reflexivity. }
    rewrite E1, EA.
    apply Qle_shift_div_l; [exact PD |].
    assert (S : 2 ^ a / (2 * 2 ^ b) * D == (2 ^ a * D) / (2 * 2 ^ b))
      by (field; lra).
    rewrite S. apply Qle_shift_div_r; [lra |]. nra.
Qed.

Lemma roundHalfEven_bounds (x : Q) :
  (Qfloor x <= roundHalfEven x <= Qfloor x + 1)%Z.
Proof.
  unfold roundHalfEven.
  destruct (x - inject_Z (Qfloor x) ?= 1 # 2); [destruct (Z.even _) | |]; lia.
Qed.

Lemma roundHalfEven_le (x : Q) (J : Z) :
  x <= inject_Z J -> (roundHalfEven x <= J)%Z.
Proof.
  intros H.
  assert (F : (Qfloor x <= J)%Z)
    by (rewrite <- (Qfloor_Z J); apply Qfloor_resp_le, H).
  destruct (Z.eq_dec (Qfloor x) J) as [E | N].
  - unfold roundHalfEven. rewrite E.
    assert (L : x - inject_Z J < 1 # 2) by lra.
    rewrite Qlt_alt in L. rewrite L. lia.
  - pose proof (roundHalfEven_bounds x). lia.
Qed.

Lemma roundHalfEven_ge (x : Q) (J : Z) :
  inject_Z J <= x -> (J <= roundHalfEven x)%Z.
Proof.
  intros H.
  assert (F : (J <= Qfloor x)%Z)
    by (rewrite <- (Qfloor_Z J); apply Qfloor_resp_le, H).
  pose proof (roundHalfEven_bounds x). lia.
Qed.













End FloatFacts.

(** ** The frequency of the hours over the mesh *)

Section HistogramFacts.

Import PsychChart Histogram.

Lemma Qfloor_unique (y : Q) (k : Z) :
  (inject_Z k <= y)%Q -> (y < inject_Z (k + 1))%Q -> Qfloor y = k.
Proof.
  intros Hlo Hhi.
  assert (k <= Qfloor y) by (rewrite <- (Qfloor_Z k); apply Qfloor_resp_le, Hlo).
  assert (Qfloor y < k + 1).
  { rewrite Zlt_Qlt. eapply Qle_lt_trans; [apply Qfloor_le | exact Hhi]. }
  lia.
Qed.






Lemma getitem_at {A : Type} (l : list A) (i : Z) (d : A) :
  0 <= i < len l -> getitem l i = Ok (nth (Z.to_nat i) l d).
Proof.
  unfold len. intros H. unfold getitem. rewrite index_of_nonneg by lia.
  rewrite (nth_error_nth' l d) by lia. reflexivity.
Qed.

Lemma setitem_at {A : Type} (l : list A) (i : Z) (v : A) :
  0 <= i < len l -> setitem l i v = Ok (update l (Z.to_nat i) v).
Proof.
  unfold len. intros H. unfold setitem. rewrite index_of_nonneg by lia.
  reflexivity.
Qed.

Lemma update_middle {A : Type} (pre post : list A) (x v : A) :
  update (pre ++ x :: post) (List.length pre) v = pre ++ v :: post.
Proof.
  induction pre as [| h pre IH]; simpl; [reflexivity |]. rewrite IH. reflexivity.
Qed.

Lemma skipn_cons_nth {A : Type} (l : list A) (n : nat) (d : A) :
  (n < List.length l)%nat -> skipn n l = nth n l d :: skipn (S n) l.
Proof.
  revert n. induction l as [| h l IH]; intros [| n] H; simpl in *; try lia.
  - reflexivity.
  - apply IH. lia.
Qed.























End HistogramFacts.



(** ** Merging the curves *)

Section UnionFacts.

Import PsychChart.

Variable Curve : Type.
Variable CurveBooleanUnion : Curve -> Curve -> result (list Curve).

Lemma unionPair_fresh_failure (c0 c1 : Curve) :
  (CurveBooleanUnion c0 c1 = Ok [] \/ exists e, CurveBooleanUnion c0 c1 = Raise e) ->
  unionPair CurveBooleanUnion None c0 (Some c1) = [c0].
Proof.
  unfold unionPair. cbn [bind]. intros [E | [e E]]; rewrite E; reflexivity.
Qed.

Lemma unionPair_stale (previous : list Curve) (c0 c1 : Curve) :
  CurveBooleanUnion c0 c1 = Ok [] ->
  unionPair CurveBooleanUnion (Some previous) c0 (Some c1) = previous.
Proof.
  unfold unionPair. cbn [bind]. intros E. rewrite E. reflexivity.
Qed.

Lemma unionPair_success (a : option (list Curve)) (c0 c1 u : Curve) (us : list Curve) :
  CurveBooleanUnion c0 c1 = Ok (u :: us) ->
  unionPair CurveBooleanUnion a c0 (Some c1) = u :: us.
Proof.
  unfold unionPair. cbn [bind]. intros E. rewrite E. reflexivity.
Qed.

(** C6.  When the union of a pair raises or comes back empty, the pair is
    replaced by its first curve alone: the second boundary is lost, nothing
    is printed and no warning is added.  The assignment that would keep both
    curves sits behind [a == None], which is never true, and behind an
    unbound [a] on the first turn.  On a later turn an empty union leaves in
    [a] the result of the pair before, which is appended once more in place
    of both curves. *)
Theorem failed_union_keeps_only_the_first_curve :
  forall c0 c1 : Curve,
    (CurveBooleanUnion c0 c1 = Ok [] \/ exists e, CurveBooleanUnion c0 c1 = Raise e) ->
    unionAllCurves CurveBooleanUnion [c0; c1] = [c0]
    /\ mergeComfortCurves CurveBooleanUnion true [c0; c1] = ([c0], [])
    /\ unionComfortAndStrategies CurveBooleanUnion [c0] [c1] = [c0]
    /\ forall previous res : list Curve,
        CurveBooleanUnion c0 c1 = Ok [] ->
        unionLoop CurveBooleanUnion (Some previous) res [c0; c1] = res ++ previous.
Proof.
  intros c0 c1 H.
  assert (U : unionAllCurves CurveBooleanUnion [c0; c1] = [c0]).
  { unfold unionAllCurves. cbn [unionLoop].
    rewrite unionPair_fresh_failure by exact H. reflexivity. }
  split; [exact U |]. split; [| split].
  - unfold mergeComfortCurves.
    change (passLimit (len [c0; c1])) with 2%nat.
    change ((1 <? len [c0; c1]) && true) with true. cbv iota.
    cbn [tournament]. change (1 <? len [c0; c1]) with true. cbv iota.
    rewrite U. reflexivity.
  - unfold unionComfortAndStrategies. cbn [app].
    change (passLimit (len [c0; c1])) with 2%nat.
    change (1 <? len [c0; c1]) with true. cbv iota.
    cbn [tournament]. change (1 <? len [c0; c1]) with true. cbv iota.
    rewrite U. reflexivity.
  - intros previous res E. cbn [unionLoop].
    rewrite unionPair_stale by exact E. reflexivity.
Qed.

(** Curves are only ever united with their neighbour in the list: when the
    first two curves come back from their union as they went in, the third
    one never meets the second, whatever the two have in common. *)
Lemma unpaired_curves_stay_apart (c0 c1 c2 : Curve) :
  CurveBooleanUnion c0 c1 = Ok [c0; c1] ->
  unionComfortAndStrategies CurveBooleanUnion [c0] [c1; c2] = [c0; c1; c2].
Proof.
  intros E.
  assert (U : unionAllCurves CurveBooleanUnion [c0; c1; c2] = [c0; c1; c2]).
  { unfold unionAllCurves. cbn [unionLoop].
    rewrite (unionPair_success None c0 c1 c0 [c1]) by exact E. reflexivity. }
  unfold unionComfortAndStrategies. cbn [app].
  change (passLimit (len [c0; c1; c2])) with 2%nat.
  change (1 <? len [c0; c1; c2]) with true. cbv iota.
  cbn [tournament]. change (1 <? len [c0; c1; c2]) with true. cbv iota.
  rewrite U. change (1 <? len [c0; c1; c2]) with true. cbv iota.
  rewrite U. reflexivity.
Qed.

End UnionFacts.

Lemma failed_union_keeps_only_the_first_curve_witness :
  PsychChart.unionAllCurves (fun _ _ : nat => Ok []) [1%nat; 2%nat] = [1%nat]
  /\ PsychChart.mergeComfortCurves (fun _ _ : nat => Ok []) true [1%nat; 2%nat]
     = ([1%nat], [])
  /\ PsychChart.unionComfortAndStrategies (fun _ _ : nat => Ok []) [1%nat] [2%nat]
     = [1%nat].
Proof.
  destruct (failed_union_keeps_only_the_first_curve
              nat (fun _ _ => Ok []) 1%nat 2%nat (or_introl eq_refl))
    as (A & B & C & _).
  repeat split; assumption.
Defined.

(** ** The conditional statement *)

Lemma range_length (n : Z) : List.length (range n) = Z.to_nat n.
Proof. unfold range. rewrite length_map, length_seq. reflexivity. Qed.

Lemma range_In (n h : Z) : In h (range n) <-> 0 <= h < n.
Proof.
  unfold range. rewrite in_map_iff. split.
  - intros (k & <- & Hk). apply in_seq in Hk. lia.
  - intros H. exists (Z.to_nat h). split; [lia |]. apply in_seq. lia.
Qed.

Lemma range_nth (n : Z) (k : nat) :
  (k < Z.to_nat n)%nat -> nth_error (range n) k = Some (Z.of_nat k).
Proof.
  intros H. unfold range. rewrite nth_error_map.
  rewrite (nth_error_nth' _ 0%nat) by (rewrite length_seq; exact H).
  rewrite seq_nth by exact H. reflexivity.
Qed.

Section ConditionalFacts.

Import ConditionalReading.

Variable separateList : SeparateList.
Variable exec : Exec.

(** *** One [try] around the loop: the psychrometric chart *)

Lemma psych_evalHours_ok (finalStatement : string) (selList : list (list obj))
      (hours : list Z) :
  (forall HOY, In HOY hours -> exists v, exec finalStatement selList HOY = Ok v) ->
  exists patternList,
    PsychChartConditional.evalHours exec finalStatement selList hours = Ok patternList
    /\ List.length patternList = List.length hours
    /\ forall (k : nat) (HOY : Z),
        nth_error hours k = Some HOY ->
        exists v, nth_error patternList k = Some v
                  /\ exec finalStatement selList HOY = Ok v.
Proof.
  induction hours as [| h hours IH]; intros H.
  - exists []. repeat split. intros [| k] HOY; discriminate.
  - destruct (H h (or_introl eq_refl)) as (v & Ev).
    destruct IH as (tail & Et & Lt & Nt); [intros; apply H; right; assumption |].
    exists (v :: tail). cbn [PsychChartConditional.evalHours].
    rewrite Ev, Et. split; [reflexivity |]. split; [simpl; congruence |].
    intros [| k] HOY Hk; simpl in Hk.
    + injection Hk as <-. exists v. auto.
    + apply Nt, Hk.
Qed.

Lemma psych_evalHours_length (finalStatement : string) (selList : list (list obj))
      (hours : list Z) (patternList : list obj) :
  PsychChartConditional.evalHours exec finalStatement selList hours = Ok patternList ->
  List.length patternList = List.length hours.
Proof.
  revert patternList. induction hours as [| h hours IH]; intros patternList.
  - simpl. intros E. injection E as <-. reflexivity.
  - cbn [PsychChartConditional.evalHours].
    destruct (exec finalStatement selList h) as [v |]; [| discriminate].
    cbn [bind].
    destruct (PsychChartConditional.evalHours exec finalStatement selList hours)
      as [tail |]; [| discriminate].
    simpl. intros E. injection E as <-. simpl. f_equal. apply IH. reflexivity.
Qed.

Lemma psych_evalHours_raise (finalStatement : string) (selList : list (list obj))
      (hours : list Z) (HOY : Z) (e : exn) :
  In HOY hours -> exec finalStatement selList HOY = Raise e ->
  exists e', PsychChartConditional.evalHours exec finalStatement selList hours
             = Raise e'.
Proof.
  induction hours as [| h hours IH]; intros Hin E; [destruct Hin |].
  cbn [PsychChartConditional.evalHours].
  destruct (exec finalStatement selList h) as [v | e0] eqn:Eh;
    [| eexists; reflexivity].
  destruct Hin as [-> | Hin]; [congruence |].
  destruct (IH Hin E) as (e' & E'). rewrite E'. eexists. reflexivity.
Qed.

Lemma psych_selectLists_full_years (annualHourlyData : list obj) (indexList : list nat)
      (listInfo : list (list obj)) (i : Z) (acc selList : list (list obj)) :
  PsychChartConditional.selectLists annualHourlyData indexList i listInfo acc
  = Ok (inr selList) ->
  Forall (fun sel => len sel = 8760) acc ->
  Forall (fun sel => len sel = 8760) selList.
Proof.
  revert i acc. induction listInfo as [| info rest IH]; intros i acc.
  - simpl. intros E. injection E as <-. auto.
  - cbn [PsychChartConditional.selectLists].
    destruct (sliceOfList annualHourlyData indexList i) as [sel |]; [| discriminate].
    cbn [bind].
    destruct (PsychChartConditional.notValidHourly info sel) as [bad |] eqn:Eb;
      [| discriminate].
    cbn [bind]. destruct bad; [discriminate |].
    intros E Hacc. apply (IH _ _ E).
    apply Forall_app. split; [exact Hacc |]. constructor; [| constructor].
    unfold PsychChartConditional.notValidHourly in Eb.
    destruct (getitem info 4) as [f4 |]; [| discriminate]. simpl in Eb.
    destruct (negb (obj_eqb f4 (PStr "Hourly"))); [discriminate |].
    destruct (getitem info 5) as [f5 |]; [| discriminate]. simpl in Eb.
    destruct (negb (obj_eqb f5 (PTuple [1; 1; 1]))); [discriminate |].
    destruct (getitem info 6) as [f6 |]; [| discriminate]. simpl in Eb.
    destruct (negb (obj_eqb f6 (PTuple [12; 31; 24]))); [discriminate |].
    injection Eb as Eb. apply negb_false_iff, Z.eqb_eq in Eb. exact Eb.
Qed.

(** C7, as the code has it.  The psychrometric chart evaluates the compiled
    statement at the hours 0..8759 of lists that each hold a full year of
    8760 hourly values: when the statement and the lists pass the checks and
    no hour raises, it returns a mask of exactly 8760 entries, the entry of
    an hour being what [exec] left in [pattern]; and a mask is never returned
    in another way, so lists of any other length are turned down. *)
Theorem pattern_covers_the_8760_hours :
  forall (annualHourlyData : list obj) (conditionalStatement : string),
    (forall (selList : list (list obj)) (finalStatement titleStatement : string),
        preparedPsych separateList annualHourlyData conditionalStatement
                      selList finalStatement titleStatement ->
        (forall HOY, 0 <= HOY < 8760 ->
                     exists v, exec finalStatement selList HOY = Ok v) ->
        Forall (fun sel => len sel = 8760) selList
        /\ exists patternList,
            PsychChartConditional.checkConditionalStatement
              separateList exec annualHourlyData conditionalStatement
            = Ok (Pattern titleStatement patternList)
            /\ len patternList = 8760
            /\ forall HOY, 0 <= HOY < 8760 ->
                           exists v, nth_error patternList (Z.to_nat HOY) = Some v
                                     /\ exec finalStatement selList HOY = Ok v)
    /\ (forall (titleStatement : string) (patternList : list obj),
           PsychChartConditional.checkConditionalStatement
             separateList exec annualHourlyData conditionalStatement
           = Ok (Pattern titleStatement patternList) ->
           len patternList = 8760
           /\ exists selList finalStatement,
               preparedPsych separateList annualHourlyData conditionalStatement
                             selList finalStatement titleStatement
               /\ Forall (fun sel => len sel = 8760) selList).
Proof.
  intros annualHourlyData conditionalStatement. split.
  - intros selList finalStatement titleStatement Hprep Hexec.
    unfold preparedPsych in Hprep.
    unfold PsychChartConditional.checkConditionalStatement.
    destruct (separateList annualHourlyData) as [indexList listInfo].
    destruct Hprep as (Hundef & Hsel & Hbuild).
    split.
    + apply (psych_selectLists_full_years _ _ _ _ _ _ Hsel). constructor.
    + rewrite Hundef, Hsel. cbn [bind]. rewrite Hbuild. cbn [bind].
      destruct (psych_evalHours_ok finalStatement selList (range 8760))
        as (patternList & E & L & N).
      { intros HOY Hin. apply Hexec, range_In, Hin. }
      exists patternList. rewrite E. split; [reflexivity |].
      split.
      * unfold len. rewrite L, range_length. reflexivity.
      * intros HOY HH.
        destruct (N (Z.to_nat HOY) HOY) as (v & Nv & Ev).
        { rewrite range_nth by lia. f_equal. lia. }
        exists v. auto.
  - intros titleStatement patternList.
    unfold PsychChartConditional.checkConditionalStatement, preparedPsych.
    destruct (separateList annualHourlyData) as [indexList listInfo].
    destruct (firstUndefined _ (len listInfo)) eqn:Hundef; [discriminate |].
    destruct (PsychChartConditional.selectLists annualHourlyData indexList 0
                                                listInfo [])
      as [[w | selList] |] eqn:Hsel; try discriminate.
    cbn [bind].
    destruct (buildStatements listInfo _ conditionalStatement)
      as [[finalStatement title] |] eqn:Hbuild; [| discriminate].
    cbn [bind].
    destruct (PsychChartConditional.evalHours exec finalStatement selList
                                              (range 8760))
      as [pl |] eqn:E; [| discriminate].
    intros H. injection H as <- <-.
    split.
    + unfold len. rewrite (psych_evalHours_length _ _ _ _ E), range_length.
      reflexivity.
    + exists selList, finalStatement. split; [auto |].
      apply (psych_selectLists_full_years _ _ _ _ _ _ Hsel). constructor.
Qed.

(** *** A [try] inside the loop: the 3D chart *)

Lemma chart3d_evalHours_succeeded (finalStatement : string)
      (selList : list (list obj)) (hours : list Z) (patternList : list obj) :
  Chart3D.evalHours exec finalStatement selList hours patternList
  = patternList ++ succeeded exec finalStatement selList hours.
Proof.
  revert patternList. induction hours as [| h hours IH]; intros patternList.
  - simpl. rewrite app_nil_r. reflexivity.
  - cbn [Chart3D.evalHours succeeded flat_map].
    destruct (exec finalStatement selList h) as [v | e].
    + rewrite IH, <- app_assoc. reflexivity.
    + rewrite IH. reflexivity.
Qed.

Lemma succeeded_length (finalStatement : string) (selList : list (list obj))
      (hours : list Z) :
  (List.length (succeeded exec finalStatement selList hours) <= List.length hours)%nat.
Proof.
  induction hours as [| h hours IH]; [simpl; lia |].
  cbn [succeeded flat_map]. fold (succeeded exec finalStatement selList hours).
  destruct (exec finalStatement selList h); simpl; lia.
Qed.

Lemma succeeded_app (finalStatement : string) (selList : list (list obj))
      (hours1 hours2 : list Z) :
  succeeded exec finalStatement selList (hours1 ++ hours2)
  = succeeded exec finalStatement selList hours1
    ++ succeeded exec finalStatement selList hours2.
Proof. unfold succeeded. apply flat_map_app. Qed.

Lemma chart3d_prepared_result (annualHourlyData : list obj)
      (conditionalStatement : string) (selList : list (list obj))
      (finalStatement titleStatement : string) :
  prepared3D separateList annualHourlyData conditionalStatement
             selList finalStatement titleStatement ->
  Chart3D.checkConditionalStatement separateList exec annualHourlyData
                                    conditionalStatement
  = Ok (Pattern titleStatement
                (succeeded exec finalStatement selList (range 8760))).
Proof.
  unfold prepared3D, Chart3D.checkConditionalStatement.
  destruct (separateList annualHourlyData) as [indexList listInfo].
  intros (Hundef & (info0 & startHour & endHour & H0 & H5 & H6 & Hsel) & Hbuild).
  rewrite Hundef, H0. cbn [bind]. rewrite H5. cbn [bind]. rewrite H6. cbn [bind].
  rewrite Hsel. cbn [bind]. rewrite Hbuild. cbn [bind].
  rewrite chart3d_evalHours_succeeded. reflexivity.
Qed.

(** Once every later hour raises, only the first [k] hours leave entries. *)
Lemma succeeded_first_hours (finalStatement : string) (selList : list (list obj))
      (k n : nat) :
  (k <= n)%nat ->
  (forall HOY, Z.of_nat k <= HOY -> exists e, exec finalStatement selList HOY = Raise e) ->
  succeeded exec finalStatement selList (range (Z.of_nat n))
  = succeeded exec finalStatement selList (range (Z.of_nat k)).
Proof.
  intros Hk Hraise. unfold range. rewrite !Nat2Z.id.
  replace n with (k + (n - k))%nat at 1 by lia.
  rewrite seq_app, map_app, succeeded_app.
  replace (succeeded exec finalStatement selList
                     (map Z.of_nat (seq (0 + k) (n - k)))) with (@nil obj).
  - apply app_nil_r.
  - symmetry. generalize (seq (0 + k) (n - k)) (fun x => proj1 (in_seq (n - k) (0 + k) x)).
    intros l Hl. induction l as [| h l IH]; [reflexivity |].
    cbn [map succeeded flat_map].
    destruct (Hraise (Z.of_nat h)) as (e & E).
    { specialize (Hl h (or_introl eq_refl)). lia. }
    rewrite E. apply IH. intros x Hx. apply Hl. right. exact Hx.
Qed.

(** C8, as the code has it.  In the 3D chart an hour whose evaluation raises
    leaves no entry at all: the mask holds the values of the hours that did
    not raise, in order, so it is shorter by one for every hour that raised.
    In the psychrometric chart the first hour that raises ends the whole
    statement with the error result and no mask. *)
Theorem skipped_hours_leave_no_entry :
  forall (annualHourlyData : list obj) (conditionalStatement : string)
         (selList : list (list obj)) (finalStatement titleStatement : string),
    (prepared3D separateList annualHourlyData conditionalStatement
                selList finalStatement titleStatement ->
     Chart3D.checkConditionalStatement separateList exec annualHourlyData
                                       conditionalStatement
     = Ok (Pattern titleStatement
                   (succeeded exec finalStatement selList (range 8760))))
    /\ (len (succeeded exec finalStatement selList (range 8760)) <= 8760)
    /\ (forall (before after : list Z) (HOY : Z) (e : exn),
           exec finalStatement selList HOY = Raise e ->
           succeeded exec finalStatement selList (before ++ HOY :: after)
           = succeeded exec finalStatement selList before
             ++ succeeded exec finalStatement selList after)
    /\ (forall (before after : list Z) (HOY : Z) (v : obj),
           exec finalStatement selList HOY = Ok v ->
           succeeded exec finalStatement selList (before ++ HOY :: after)
           = succeeded exec finalStatement selList before
             ++ v :: succeeded exec finalStatement selList after)
    /\ (preparedPsych separateList annualHourlyData conditionalStatement
                      selList finalStatement titleStatement ->
        forall (HOY : Z) (e : exn),
          0 <= HOY < 8760 ->
          exec finalStatement selList HOY = Raise e ->
          exists e',
            PsychChartConditional.checkConditionalStatement
              separateList exec annualHourlyData conditionalStatement
            = Ok (Invalid (StatementError e'))).
Proof.
  intros annualHourlyData conditionalStatement selList finalStatement titleStatement.
  split; [| split; [| split; [| split]]].
  - apply chart3d_prepared_result.
  - pose proof (succeeded_length finalStatement selList (range 8760)) as L.
    rewrite range_length in L. unfold len. lia.
  - intros before after HOY e E. rewrite succeeded_app.
    cbn [succeeded flat_map]. rewrite E. reflexivity.
  - intros before after HOY v E. rewrite succeeded_app.
    cbn [succeeded flat_map]. rewrite E. reflexivity.
  - unfold preparedPsych, PsychChartConditional.checkConditionalStatement.
    destruct (separateList annualHourlyData) as [indexList listInfo].
    intros (Hundef & Hsel & Hbuild) HOY e HH E.
    rewrite Hundef, Hsel. cbn [bind]. rewrite Hbuild. cbn [bind].
    destruct (psych_evalHours_raise finalStatement selList (range 8760) HOY e)
      as (e' & E'); [apply range_In, HH | exact E |].
    rewrite E'. exists e'. reflexivity.
Qed.

End ConditionalFacts.

(** *** A full year of numbers as the psychrometric chart selects it *)

Lemma keyPositions_no_key (values : list obj) (i : nat) :
  Forall (fun x => Examples.isKey x = false) values ->
  Examples.keyPositions i values = [].
Proof.
  intros H. revert i. induction H as [| x values Hx _ IH]; intros i; simpl.
  - reflexivity.
  - rewrite Hx. apply IH.
Qed.

Lemma temperature_year_separated (values : list obj) :
  List.length values = Z.to_nat 8760 ->
  Forall (fun x => Examples.isKey x = false) values ->
  Examples.separateList (Examples.ladybugList "Dry Bulb Temperature" "C" values)
  = ([0%nat; Z.to_nat 8767], [Examples.epwHeader]).
Proof.
  intros Hlen Hkey. unfold Examples.separateList, Examples.ladybugList.
  cbn [app Examples.keyPositions Examples.isKey].
  replace (String.eqb Examples.key Examples.key) with true by (vm_compute; reflexivity).
  replace (String.eqb "Somewhere" Examples.key) with false by (vm_compute; reflexivity).
  replace (String.eqb "Dry Bulb Temperature" Examples.key) with false
    by (vm_compute; reflexivity).
  replace (String.eqb "C" Examples.key) with false by (vm_compute; reflexivity).
  replace (String.eqb "Hourly" Examples.key) with false by (vm_compute; reflexivity).
  cbv iota. rewrite (keyPositions_no_key values 7 Hkey).
  cbn [List.length map app]. rewrite Hlen.
  replace (S (S (S (S (S (S (S (Z.to_nat 8760)))))))) with (Z.to_nat 8767) by lia.
  reflexivity.
Qed.

Lemma temperature_year_selected (values : list obj) :
  List.length values = Z.to_nat 8760 ->
  PsychChartConditional.selectLists
    (Examples.ladybugList "Dry Bulb Temperature" "C" values)
    [0%nat; Z.to_nat 8767] 0 [Examples.epwHeader] []
  = Ok (inr [values]).
Proof.
  intros Hlen. cbn [PsychChartConditional.selectLists].
  assert (S_ : sliceOfList (Examples.ladybugList "Dry Bulb Temperature" "C" values)
                           [0%nat; Z.to_nat 8767] 0 = Ok values).
  { unfold sliceOfList.
    assert (G0 : getitem [0%nat; Z.to_nat 8767] 0 = Ok 0%nat)
      by (apply (getitem_nth _ 0%nat); reflexivity).
    assert (G1 : getitem [0%nat; Z.to_nat 8767] (0 + 1) = Ok (Z.to_nat 8767))
      by (apply (getitem_nth _ 1%nat); reflexivity).
    rewrite G0, G1.
    cbn [bind]. f_equal. unfold slice, Examples.ladybugList.
    rewrite firstn_all2 by (rewrite length_app, Hlen; simpl List.length; lia).
    reflexivity. }
  rewrite S_. cbn [bind].
  assert (V : PsychChartConditional.notValidHourly Examples.epwHeader values = Ok false).
  { unfold PsychChartConditional.notValidHourly.
    change (getitem Examples.epwHeader 4) with (Ok (PStr "Hourly")).
    change (getitem Examples.epwHeader 5) with (Ok (PTuple [1; 1; 1])).
    change (getitem Examples.epwHeader 6) with (Ok (PTuple [12; 31; 24])).
    cbn [bind].
    replace (obj_eqb (PStr "Hourly") (PStr "Hourly")) with true
      by (vm_compute; reflexivity).
    replace (obj_eqb (PTuple [1; 1; 1]) (PTuple [1; 1; 1])) with true
      by (vm_compute; reflexivity).
    replace (obj_eqb (PTuple [12; 31; 24]) (PTuple [12; 31; 24])) with true
      by (vm_compute; reflexivity).
    cbn [negb]. unfold len. rewrite Hlen, Z2Nat.id by lia. reflexivity. }
  rewrite V. reflexivity.
Qed.

Lemma yearAValues_length : List.length Examples.yearAValues = Z.to_nat 8760.
Proof.
  unfold Examples.yearAValues. rewrite length_map, range_length. reflexivity.
Qed.

Lemma yearAValues_no_key :
  Forall (fun x => Examples.isKey x = false) Examples.yearAValues.
Proof.
  unfold Examples.yearAValues. apply Forall_map, Forall_forall.
  intros h _. reflexivity.
Qed.

(** The checks that [yearA] passes under a statement in the letter [a]. *)
Lemma yearA_prepared (conditionalStatement finalStatement titleStatement : string) :
  firstUndefined
    (listNumOf (replace (replace conditionalStatement "and" "" 20000) "or" "" 20000))
    1 = None ->
  buildStatements
    [Examples.epwHeader]
    (listNumOf (replace (replace conditionalStatement "and" "" 20000) "or" "" 20000))
    conditionalStatement = Ok (finalStatement, titleStatement) ->
  ConditionalReading.preparedPsych
    Examples.separateList Examples.yearA conditionalStatement
    [Examples.yearAValues] finalStatement titleStatement.
Proof.
  intros Hundef Hbuild. unfold ConditionalReading.preparedPsych, Examples.yearA.
  rewrite (temperature_year_separated _ yearAValues_length yearAValues_no_key).
  split; [exact Hundef |]. split; [| exact Hbuild].
  apply temperature_year_selected, yearAValues_length.
Qed.

(** Every hour of [yearA] evaluates: its value is [HOY mod 24]. *)
Lemma yearA_hour (HOY : Z) :
  0 <= HOY < 8760 ->
  Fragment.exec (Examples.finalOf "selList[0][HOY]>15") [Examples.yearAValues] HOY
  = Ok (PBool (Qltb 15 (inject_Z (HOY mod 24)))).
Proof.
  intros H. unfold Fragment.exec.
  replace (Fragment.parse (Examples.finalOf "selList[0][HOY]>15"))
    with (Some [[(Fragment.Term (Fragment.Sel 0),
                  [(Fragment.Gt, Fragment.Term (Fragment.Lit 15))])]])
    by (vm_compute; reflexivity).
  assert (G : getitem Examples.yearAValues HOY = Ok (PInt (HOY mod 24))).
  { replace HOY with (Z.of_nat (Z.to_nat HOY)) at 1 by lia.
    apply getitem_nth. unfold Examples.yearAValues.
    rewrite nth_error_map, range_nth by lia.
    simpl option_map. do 3 f_equal. lia. }
  cbn [Fragment.evalOr Fragment.evalAnd].
  unfold Fragment.evalChain. cbn [fst snd Fragment.evalLinks].
  unfold Fragment.evalOperand, Fragment.evalTerm.
  change (getitem [Examples.yearAValues] 0) with (Ok Examples.yearAValues).
  cbn [bind]. rewrite G. cbn [bind Fragment.toQ Fragment.compare].
  change (inject_Z 15) with 15%Q.
  destruct (Qltb 15 (inject_Z (HOY mod 24))); reflexivity.
Qed.

Lemma pattern_covers_the_8760_hours_witness :
  exists patternList,
    PsychChartConditional.checkConditionalStatement
      Examples.separateList Fragment.exec Examples.yearA "a>15"
    = Ok (Pattern (Examples.titleOf "Dry Bulb Temperature>15") patternList)
    /\ len patternList = 8760
    /\ nth_error patternList 16 = Some (PBool true).
Proof.
  destruct (proj1 (pattern_covers_the_8760_hours
                     Examples.separateList Fragment.exec Examples.yearA "a>15")
                  [Examples.yearAValues]
                  (Examples.finalOf "selList[0][HOY]>15")
                  (Examples.titleOf "Dry Bulb Temperature>15"))
    as (_ & patternList & E & L & N).
  - apply yearA_prepared; vm_compute; reflexivity.
  - intros HOY H. rewrite yearA_hour by exact H. eexists. reflexivity.
  - exists patternList. split; [exact E |]. split; [exact L |].
    destruct (N 16) as (v & Nv & Ev); [lia |].
    change (Z.to_nat 16) with 16%nat in Nv. rewrite Nv. f_equal.
    rewrite yearA_hour in Ev by lia. injection Ev as <-. reflexivity.
Defined.

(** C7 fails as stated: for the two three-hour series of the example the
    psychrometric chart returns its error result, not a mask. *)
Lemma three_hour_series_are_turned_down :
  PsychChartConditional.checkConditionalStatement
    Examples.separateList Fragment.exec (Examples.seriesA ++ Examples.seriesB) "a>15"
  = Ok (Invalid (NotHourlyData 0))
  /\ Examples.separateList (Examples.seriesA ++ Examples.seriesB)
     = ([0%nat; 10%nat; 20%nat],
        [firstn 7 Examples.seriesA; firstn 7 Examples.seriesB])
  /\ skipn 7 Examples.seriesA = [PInt 10; PInt 20; PInt 30]
  /\ skipn 7 Examples.seriesB = [PInt 50; PInt 50; PInt 50].
Proof.
  split; [vm_compute; reflexivity |].
  split; [vm_compute; reflexivity |].
  split; vm_compute; reflexivity.
Qed.

(** The three hours of [seriesZ] under [50/a>2], and the hours after them. *)
Lemma seriesZ_prepared :
  ConditionalReading.prepared3D
    Examples.separateList Examples.seriesZ "50/a>2" [Examples.seriesZValues]
    (Examples.finalOf "50/selList[0][HOY]>2") (Examples.titleOf "50/Wind Speed>2").
Proof.
  vm_compute. split; [reflexivity |]. split; [| reflexivity].
  eexists. eexists. eexists.
  split; [reflexivity |]. split; [reflexivity |]. split; reflexivity.
Qed.

Lemma seriesZ_later_hours (HOY : Z) :
  3 <= HOY ->
  exists e, Fragment.exec (Examples.finalOf "50/selList[0][HOY]>2")
                          [Examples.seriesZValues] HOY = Raise e.
Proof.
  intros H. exists IndexError. unfold Fragment.exec.
  replace (Fragment.parse (Examples.finalOf "50/selList[0][HOY]>2"))
    with (Some [[(Fragment.Div (Fragment.Lit 50) (Fragment.Sel 0),
                  [(Fragment.Gt, Fragment.Term (Fragment.Lit 2))])]])
    by (vm_compute; reflexivity).
  cbn [Fragment.evalOr Fragment.evalAnd].
  unfold Fragment.evalChain. cbn [fst snd].
  unfold Fragment.evalOperand, Fragment.evalTerm.
  change (getitem [Examples.seriesZValues] 0) with (Ok Examples.seriesZValues).
  cbn [bind].
  rewrite getitem_outside by (unfold Examples.seriesZValues; simpl List.length; lia).
  reflexivity.
Qed.

Lemma seriesZ_pattern :
  ConditionalReading.succeeded Fragment.exec (Examples.finalOf "50/selList[0][HOY]>2")
                               [Examples.seriesZValues] (range 8760)
  = [PBool true; PBool false].
Proof.
  change 8760 with (Z.of_nat (Z.to_nat 8760)).
  rewrite (succeeded_first_hours Fragment.exec _ _ 3 (Z.to_nat 8760)).
  - vm_compute. reflexivity.
  - lia.
  - intros HOY H. apply seriesZ_later_hours. lia.
Qed.

Lemma skipped_hours_leave_no_entry_witness :
  Chart3D.checkConditionalStatement
    Examples.separateList Fragment.exec Examples.seriesZ "50/a>2"
  = Ok (Pattern (Examples.titleOf "50/Wind Speed>2") [PBool true; PBool false])
  /\ exists e,
      PsychChartConditional.checkConditionalStatement
        Examples.separateList Fragment.exec Examples.yearA "50/a>2"
      = Ok (Invalid (StatementError e)).
Proof.
  split.
  - rewrite (proj1 (skipped_hours_leave_no_entry
                      Examples.separateList Fragment.exec Examples.seriesZ "50/a>2"
                      [Examples.seriesZValues]
                      (Examples.finalOf "50/selList[0][HOY]>2")
                      (Examples.titleOf "50/Wind Speed>2")) seriesZ_prepared).
    rewrite seriesZ_pattern. reflexivity.
  - apply (proj2 (proj2 (proj2 (proj2
             (skipped_hours_leave_no_entry
                Examples.separateList Fragment.exec Examples.yearA "50/a>2"
                [Examples.yearAValues]
                (Examples.finalOf "50/selList[0][HOY]>2")
                (Examples.titleOf "50/Dry Bulb Temperature>2"))))))
      with (HOY := 0) (e := ZeroDivisionError).
    + apply yearA_prepared; vm_compute; reflexivity.
    + lia.
    + vm_compute. reflexivity.
Defined.

(** C8 fails as stated: of the three hours of the series 10, 0, 30 the
    second raises on [50/a>2]; the 3D chart returns two entries, those of
    the first and the third hour, and no [False] for the second. *)
Lemma raising_hour_is_not_recorded_as_false :
  Chart3D.checkConditionalStatement
    Examples.separateList Fragment.exec Examples.seriesZ "50/a>2"
  = Ok (Pattern (Examples.titleOf "50/Wind Speed>2") [PBool true; PBool false])
  /\ Fragment.exec (Examples.finalOf "50/selList[0][HOY]>2")
                   [Examples.seriesZValues] 0 = Ok (PBool true)
  /\ Fragment.exec (Examples.finalOf "50/selList[0][HOY]>2")
                   [Examples.seriesZValues] 1 = Raise ZeroDivisionError
  /\ Fragment.exec (Examples.finalOf "50/selList[0][HOY]>2")
                   [Examples.seriesZValues] 2 = Ok (PBool false).
Proof.
  split.
  - rewrite (chart3d_prepared_result _ _ _ _ _ _ _ seriesZ_prepared).
    rewrite seriesZ_pattern. reflexivity.
  - split; [vm_compute; reflexivity |].
    split; vm_compute; reflexivity.
Qed.

(** ** The fans strategy *)

Section FansFacts.

Import PsychChartStrategies.

Variable calcComfRange : Q -> Q -> Q -> Q -> Q -> Q -> Q -> Q -> bool -> Q * Q.

Lemma insert_In (x y : Q) (l : list Q) : In y (insert x l) <-> y = x \/ In y l.
Proof.
  induction l as [| h t IH]; simpl.
  - intuition.
  - destruct (Qle_bool x h); simpl; [intuition |]. rewrite IH. intuition.
Qed.

Lemma sort_In (y : Q) (l : list Q) : In y (sort l) <-> In y l.
Proof.
  induction l as [| h t IH]; simpl; [reflexivity |].
  rewrite insert_In, IH. intuition.
Qed.

Lemma insert_sorted (x : Q) (l : list Q) :
  StronglySorted Qle l -> StronglySorted Qle (insert x l).
Proof.
  induction 1 as [| h t Ht IH Hh]; simpl.
  - repeat constructor.
  - destruct (Qle_bool x h) eqn:E.
    + apply Qle_bool_iff in E. constructor; [constructor; assumption |].
      constructor; [exact E |].
      rewrite Forall_forall in *. intros z Hz. eapply Qle_trans; [exact E | auto].
    + assert (L : (h <= x)%Q).
      { apply Qlt_le_weak, Qnot_le_lt. intros L. apply Qle_bool_iff in L. congruence. }
      constructor; [exact IH |].
      rewrite Forall_forall in *. intros z Hz. apply insert_In in Hz.
      destruct Hz as [-> | Hz]; auto.
Qed.

Lemma sort_sorted (l : list Q) : StronglySorted Qle (sort l).
Proof.
  induction l as [| h t IH]; simpl; [constructor | apply insert_sorted, IH].
Qed.

Lemma insert_not_nil (x : Q) (l : list Q) : insert x l <> [].
Proof. destruct l as [| h t]; simpl; [| destruct (Qle_bool x h)]; discriminate. Qed.

Lemma last_In (l : list Q) (d : Q) : l <> [] -> In (last l d) l.
Proof.
  induction l as [| h t IH]; [congruence |]. intros _.
  destruct t as [| h' t']; [left; reflexivity |].
  right. apply IH. discriminate.
Qed.

Lemma sorted_last_max (l : list Q) (d x : Q) :
  StronglySorted Qle l -> In x l -> (x <= last l d)%Q.
Proof.
  induction 1 as [| h t Ht IH Hh]; [intros [] |].
  intros Hx. destruct t as [| h' t'].
  - destruct Hx as [<- | []]. apply Qle_refl.
  - change (last (h :: h' :: t') d) with (last (h' :: t') d).
    destruct Hx as [<- | Hx]; [| apply IH, Hx].
    rewrite Forall_forall in Hh. apply Hh, last_In. discriminate.
Qed.

Lemma nth_error_last (l : list Q) (d : Q) :
  l <> [] -> nth_error l (List.length l - 1) = Some (last l d).
Proof.
  induction l as [| h t IH]; [congruence |]. intros _.
  destruct t as [| h' t']; [reflexivity |].
  change (last (h :: h' :: t') d) with (last (h' :: t') d).
  rewrite <- IH by discriminate. simpl. rewrite Nat.sub_0_r. reflexivity.
Qed.

Lemma getitem_last (l : list Q) (d : Q) :
  l <> [] -> getitem l (-1) = Ok (last l d).
Proof.
  intros H. unfold getitem.
  assert (0 < List.length l)%nat by (destruct l; [congruence | simpl; lia]).
  rewrite index_of_negative by lia.
  replace (Z.to_nat (-1 + Z.of_nat (List.length l))) with (List.length l - 1)%nat by lia.
  rewrite (nth_error_last l d H). reflexivity.
Qed.

(** The wind speed that line 1158 reads is the largest of all. *)
Lemma organize_spec (w c : Q) (ws cs : list Q) :
  exists windRest cloRest,
    organize (w :: ws) (c :: cs)
    = Ok (fastest (w :: ws) :: windRest, lightest (c :: cs) :: cloRest).
Proof.
  unfold organize, fastest, lightest.
  assert (Nw : sort (w :: ws) <> []) by apply insert_not_nil.
  assert (Nc : sort (c :: cs) <> []) by apply insert_not_nil.
  rewrite (getitem_last _ 0%Q Nw). cbn [bind].
  destruct (sort (w :: ws)) as [| w0 wrest]; [congruence |].
  destruct (sort (c :: cs)) as [| c0 crest]; [congruence |].
  exists wrest, crest. reflexivity.
Qed.

Lemma fastest_below (l : list Q) (bound : Q) :
  l <> [] ->
  (Qltb (fastest l) bound = true <-> Forall (fun x => (x < bound)%Q) l).
Proof.
  intros Hl. unfold fastest. rewrite Qltb_lt, Forall_forall.
  assert (Ns : sort l <> []).
  { destruct l as [| h t]; [congruence | apply insert_not_nil]. }
  split.
  - intros H x Hx. eapply Qle_lt_trans; [| exact H].
    apply sorted_last_max; [apply sort_sorted | apply sort_In, Hx].
  - intros H. apply H, sort_In, last_In, Ns.
Qed.

Section WayFacts.

Import StrategyPolygons.

Variables Curve Line : Type.
Variable CurveBooleanUnion : Curve -> Curve -> result (list Curve).
Variable mergeComfPolygons_ : bool.
Variable extrudeChartBoundary : result unit.
Variable comfortBoundary :
  list BoundaryPoint * list BoundaryPoint -> result (option (Curve * list Curve)).
Variable trimToHumidityRatios : list Curve -> result (list Curve).
Variable orderBoundaries : list (list Curve) -> result (list (list Curve)).
Variable evaporativeCooling : Curve -> list (list Curve) -> result Curve.
Variable thermalMassNightVent : StrategyPar -> list (list Curve) -> result Curve.

Lemma getitem_within {B : Type} (l : list B) (i : Z) :
  0 <= i < len l -> exists x, getitem l i = Ok x.
Proof.
  unfold len. intros H. unfold getitem. rewrite index_of_nonneg by lia.
  destruct (nth_error l (Z.to_nat i)) as [x |] eqn:N; [eauto |].
  apply nth_error_None in N. lia.
Qed.

Lemma requested_In (name : string) (passiveStrategy : list string) :
  existsb (String.eqb name) passiveStrategy = true <-> In name passiveStrategy.
Proof.
  rewrite existsb_exists. split.
  - intros (x & Hx & E). apply String.eqb_eq in E. subst. exact Hx.
  - intros H. eexists. split; [exact H | apply String.eqb_refl].
Qed.

Lemma whenRequested_returns (name : string) (passiveStrategy : list string)
      (strategy : result Curve) :
  (In name passiveStrategy -> exists curve, strategy = Ok curve) ->
  exists outcome, whenRequested name passiveStrategy strategy = Ok outcome.
Proof.
  intros H. unfold whenRequested.
  destruct (existsb (String.eqb name) passiveStrategy) eqn:E; [| eauto].
  apply requested_In in E. destruct (H E) as (curve & ->). cbn [bind]. eauto.
Qed.

(** C9, as the code has it.  Where the way to its test is clear (the
    chart has its humidity lines, the points of the comfort polygons are
    computed, a comfort curve is on the chart and passes the guard of line
    898, the geometry before the test raises nothing), the branch of "Occupant Use of Fans" is entered exactly
    when the strategy is asked for and [maxWindSpeed] strictly exceeds the
    largest wind speed of all the comfort parameter sets (the wind speeds
    are sorted and entry 0 is overwritten with the largest before the
    strategies are evaluated); then the upper comfort temperatures at 0, 50
    and 100 percent humidity are recomputed with [maxWindSpeed] as the wind
    speed, together with the first radiant temperature, metabolic rate and
    external work and the smallest clothing level.  Otherwise the strategy
    is passed over.  With no comfort curve on the chart no strategy is
    evaluated, and an exception among the points of the comfort polygons
    ends the function before the test. *)
Theorem fans_need_more_than_the_fastest_wind_speed :
  forall (passiveStrategy : list string) (strategyPar_ : list Q)
         (r w m c e : Q) (rs ws ms cs es : list Q)
         (relHumidLines : list Line) (calcLengthComf : Z)
         (eightyPercentComfort : bool),
    let maxW := maxWindSpeed (fst (readStrategyPar strategyPar_)) in
    let upTemper := fun humidity : Q =>
      fst (calcComfRange (r + 2)%Q (r - 2)%Q r maxW humidity m
                         (lightest (c :: cs)) e eightyPercentComfort) in
    let run :=
      occupantUseOfFans calcComfRange CurveBooleanUnion mergeComfPolygons_
        extrudeChartBoundary comfortBoundary trimToHumidityRatios orderBoundaries
        evaporativeCooling
        thermalMassNightVent passiveStrategy strategyPar_
        (r :: rs) (w :: ws) (m :: ms) (c :: cs) (e :: es)
        relHumidLines calcLengthComf eightyPercentComfort in
    (wayIsClear calcComfRange CurveBooleanUnion mergeComfPolygons_
       extrudeChartBoundary comfortBoundary trimToHumidityRatios orderBoundaries
       evaporativeCooling
       thermalMassNightVent passiveStrategy strategyPar_
       (r :: rs) (w :: ws) (m :: ms) (c :: cs) (e :: es)
       relHumidLines calcLengthComf eightyPercentComfort ->
     run = (if fansRequested passiveStrategy && Qltb (fastest (w :: ws)) maxW
            then Ok (Some [upIntersect 0 (upTemper 0%Q);
                           upIntersect 1 (upTemper 50%Q);
                           upIntersect 2 (upTemper 100%Q)])
            else Ok None))
    /\ (forall comfPolyLinePts built,
           11 <= len relHumidLines ->
           ComfortPolygons.comfPolyLinePts calcComfRange (r :: rs) (w :: ws)
             (m :: ms) (c :: cs) (e :: es) calcLengthComf eightyPercentComfort
           = Ok comfPolyLinePts ->
           extrudeChartBoundary = Ok tt ->
           for_enumerate (fun _ futurePoly => comfortBoundary futurePoly)
                         0 comfPolyLinePts = Ok built ->
           comfortCurvesOf built = [] ->
           run = Ok None)
    /\ (forall raised,
           ComfortPolygons.comfPolyLinePts calcComfRange (r :: rs) (w :: ws)
             (m :: ms) (c :: cs) (e :: es) calcLengthComf eightyPercentComfort
           = Raise raised ->
           exists e', run = Raise e')
    /\ (fansRequested passiveStrategy = true
        <-> In "Occupant Use of Fans" passiveStrategy)
    /\ (Qltb (fastest (w :: ws)) maxW = true
        <-> Forall (fun x => (x < maxW)%Q) (w :: ws))
    /\ maxWindSpeed (fst (readStrategyPar [])) = (15 # 10)%Q.
Proof.
  intros passiveStrategy strategyPar_ r w m c e rs ws ms cs es relHumidLines
         calcLengthComf eighty maxW upTemper run.
  split; [| split; [| split; [| split; [| split]]]].
  - intros (Hl & pts & built & trimmed & segments & E1 & Eb & E2 & N & E3 & E4 & Hps).
    unfold run, occupantUseOfFans.
    destruct (getitem_within relHumidLines 0) as (l0 & ->); [lia |].
    destruct (getitem_within relHumidLines 5) as (l5 & ->); [lia |].
    destruct (getitem_within relHumidLines 10) as (l10 & ->); [lia |].
    cbn [bind]. rewrite E1. cbn [bind]. rewrite Eb. cbn [bind].
    rewrite E2. cbn [bind].
    replace (negb (len (comfortCurvesOf built) =? 0)) with true
      by (symmetry; apply negb_true_iff, Z.eqb_neq; unfold len;
          destruct (comfortCurvesOf built); [congruence | simpl; lia]).
    rewrite E3. cbn [bind].
    destruct (organize_spec w c ws cs) as (windRest & cloRest & ->).
    cbn [bind]. rewrite E4. cbn [bind].
    fold maxW. fold (fansRequested passiveStrategy).
    destruct passiveStrategy as [| s rest]; [reflexivity |].
    replace (negb (len (s :: rest) =? 0)) with true
      by (unfold len; simpl List.length; symmetry;
          apply negb_true_iff, Z.eqb_neq; lia).
    destruct Hps as (comfortCurve & G & Hev & Hth); [discriminate |].
    rewrite G. cbn [bind].
    destruct (whenRequested_returns "Evaporative Cooling" (s :: rest)
                (evaporativeCooling comfortCurve segments) Hev) as (o1 & ->).
    cbn [bind].
    destruct (whenRequested_returns "Thermal Mass + Night Vent" (s :: rest)
                (thermalMassNightVent (fst (readStrategyPar strategyPar_)) segments)
                Hth) as (o2 & ->).
    cbn [bind].
    destruct (fansRequested (s :: rest)); [| reflexivity].
    change (getitem (fastest (w :: ws) :: windRest) 0) with (Ok (fastest (w :: ws))).
    cbn [bind andb].
    destruct (Qltb (fastest (w :: ws)) maxW); [| reflexivity].
    unfold fansUpTemperPts. cbn [for_enumerate].
    change (getitem (r :: rs) 0) with (Ok r).
    change (getitem (m :: ms) 0) with (Ok m).
    change (getitem (lightest (c :: cs) :: cloRest) 0) with (Ok (lightest (c :: cs))).
    change (getitem (e :: es) 0) with (Ok e).
    cbn [bind]. unfold upTemper.
    destruct (calcComfRange (r + 2)%Q (r - 2)%Q r maxW 0%Q m (lightest (c :: cs)) e eighty).
    destruct (calcComfRange (r + 2)%Q (r - 2)%Q r maxW 50%Q m (lightest (c :: cs)) e eighty).
    destruct (calcComfRange (r + 2)%Q (r - 2)%Q r maxW 100%Q m (lightest (c :: cs)) e eighty).
    reflexivity.
  - intros pts built Hl E1 Eb E2 N. unfold run, occupantUseOfFans.
    destruct (getitem_within relHumidLines 0) as (l0 & ->); [lia |].
    destruct (getitem_within relHumidLines 5) as (l5 & ->); [lia |].
    destruct (getitem_within relHumidLines 10) as (l10 & ->); [lia |].
    cbn [bind]. rewrite E1. cbn [bind]. rewrite Eb. cbn [bind].
    rewrite E2. cbn [bind].
    rewrite N. reflexivity.
  - intros raised E1. unfold run, occupantUseOfFans.
    destruct (getitem relHumidLines 0) as [l0 | e0]; cbn [bind]; [| eauto].
    destruct (getitem relHumidLines 5) as [l5 | e5]; cbn [bind]; [| eauto].
    destruct (getitem relHumidLines 10) as [l10 | e10]; cbn [bind]; [| eauto].
    rewrite E1. cbn [bind]. eauto.
  - apply requested_In.
  - apply fastest_below. discriminate.
  - reflexivity.
Qed.

End WayFacts.

End FansFacts.

Lemma fans_need_more_than_the_fastest_wind_speed_witness :
  StrategyExamples.run [5 # 100; 1]%Q
  = Ok (Some [PsychChartStrategies.upIntersect 0 25;
              PsychChartStrategies.upIntersect 1 25;
              PsychChartStrategies.upIntersect 2 25]).
Proof.
  apply (proj1 (fans_need_more_than_the_fastest_wind_speed
                  Examples.calcComfRange Examples.Box Z
                  StrategyExamples.CurveBooleanUnion true (Ok tt)
                  StrategyExamples.comfortBoundary
                  StrategyExamples.trimToHumidityRatios
                  StrategyExamples.orderBoundaries
                  StrategyExamples.evaporativeCooling
                  StrategyExamples.thermalMassNightVent
                  ["Occupant Use of Fans"] [] 23 (5 # 100) 1 1 0
                  [23]%Q [1]%Q [1]%Q [1]%Q [0]%Q
                  StrategyExamples.relHumidLines 2 false)).
  split; [vm_compute; discriminate |].
  do 4 eexists.
  split; [vm_compute; reflexivity |].
  split; [reflexivity |].
  split; [vm_compute; reflexivity |].
  split; [vm_compute; discriminate |].
  split; [reflexivity |].
  split; [reflexivity |].
  intros _. eexists.
  split; [vm_compute; reflexivity |].
  split; intros [H | []]; discriminate.
Defined.

(** C9 fails as stated: with wind speeds 0.05 and 2 for two comfort
    parameter sets and the default [maxWindSpeed] of 1.5, the first set's
    wind speed is below [maxWindSpeed] and yet the strategy is passed over,
    on a run that reaches the test: with 1 in place of 2 the same run enters
    the branch. *)
Lemma fans_passed_over_despite_a_calm_first_set :
  StrategyExamples.run [5 # 100; 2]%Q = Ok None
  /\ (exists pts, StrategyExamples.run [5 # 100; 1]%Q = Ok (Some pts))
  /\ PsychChartStrategies.maxWindSpeed
       (fst (PsychChartStrategies.readStrategyPar [])) = (15 # 10)%Q
  /\ ((5 # 100) < (15 # 10))%Q.
Proof.
  split; [vm_compute; reflexivity |].
  split; [eexists; vm_compute; reflexivity |].
  split; [reflexivity |]. reflexivity.
Qed.

(** ** The checks of the inputs *)

Section InputFacts.

Import CheckTheInputs InputReading.

Variable float_of_string : string -> option Q.
Variable separateList : SeparateList.
Variable exec : Exec.

Lemma readNumbers_spec (l : list obj) (values : list obj) (check : bool) :
  readNumbers float_of_string l (values, check)
  = (values ++ numbersOf float_of_string l,
     match l with
     | [] => check
     | _ => lastIsNumber float_of_string l
     end).
Proof.
  revert values check. induction l as [| item rest IH]; intros values check.
  - cbn. rewrite app_nil_r. reflexivity.
  - cbn [readNumbers numbersOf flat_map]. unfold float.
    destruct (PsychChartInputs.float float_of_string item) as [x | e] eqn:E;
      rewrite IH; fold (numbersOf float_of_string rest).
    + rewrite <- app_assoc. f_equal.
      destruct rest as [| item' rest']; [| reflexivity].
      unfold lastIsNumber, isNumber. cbn [last]. rewrite E. reflexivity.
    + f_equal.
      destruct rest as [| item' rest']; [| reflexivity].
      unfold lastIsNumber, isNumber. cbn [last]. rewrite E. reflexivity.
Qed.

Lemma lastIsNumber_snoc (l : list obj) (item : obj) :
  lastIsNumber float_of_string (l ++ [item]) = isNumber float_of_string item.
Proof.
  unfold lastIsNumber. rewrite last_last.
  destruct l; reflexivity.
Qed.

Lemma lastIsNumber_cons (item : obj) (rest : list obj) :
  lastIsNumber float_of_string (item :: rest)
  = match rest with
    | [] => isNumber float_of_string item
    | _ => lastIsNumber float_of_string rest
    end.
Proof. destruct rest; reflexivity. Qed.

Lemma readRanged_spec (inRange : Q -> bool) (l : list obj)
      (values : list obj) (check nonValue : bool) :
  exists check',
    readRanged float_of_string inRange l (values, check, nonValue)
    = (values ++ inRangeOf float_of_string inRange l, check',
       nonValue && allInRange float_of_string inRange l)
    /\ (allInRange float_of_string inRange l = true ->
        check' = match l with
                 | [] => check
                 | _ => lastIsNumber float_of_string l
                 end)
    /\ (check' = true ->
        check = true \/ hasInRange float_of_string inRange l = true).
Proof.
  revert values check nonValue.
  induction l as [| item rest IH]; intros values check nonValue.
  - exists check. cbn. rewrite app_nil_r, andb_true_r. auto.
  - cbn [readRanged inRangeOf allInRange hasInRange flat_map forallb existsb].
    unfold float. rewrite lastIsNumber_cons. unfold isNumber.
    destruct (PsychChartInputs.float float_of_string item) as [x | e] eqn:E.
    + destruct (inRange x) eqn:Rx.
      * destruct (IH (values ++ [PFloat x]) true nonValue) as (c & Eq & A & B).
        exists c. rewrite Eq, <- app_assoc. cbn [andb orb].
        split; [reflexivity |]. split; [| auto].
        intros H. rewrite (A H). destruct rest; reflexivity.
      * destruct (IH values check false) as (c & Eq & A & B).
        exists c. rewrite Eq. cbn [andb orb app]. rewrite andb_false_r.
        split; [reflexivity |]. split; [discriminate | exact B].
    + destruct (IH values false nonValue) as (c & Eq & A & B).
      exists c. rewrite Eq. cbn [andb orb app].
      split; [reflexivity |]. split.
      * intros H. rewrite (A H). destruct rest; reflexivity.
      * intros H. destruct (B H) as [F | T]; [discriminate | auto].
Qed.

Lemma inRangeOf_nil (inRange : Q -> bool) (l : list obj) :
  hasInRange float_of_string inRange l
  = (0 <? len (inRangeOf float_of_string inRange l)).
Proof.
  induction l as [| item rest IH]; [reflexivity |].
  cbn [hasInRange existsb inRangeOf flat_map].
  fold (hasInRange float_of_string inRange rest).
  fold (inRangeOf float_of_string inRange rest).
  destruct (PsychChartInputs.float float_of_string item) as [x | e];
    [destruct (inRange x) |]; cbn [orb app]; try exact IH.
  unfold len. cbn [List.length]. symmetry. apply Z.ltb_lt. lia.
Qed.

Lemma inRangeOf_within (inRange : Q -> bool) (l : list obj) :
  Forall (fun item => exists x, item = PFloat x /\ inRange x = true)
         (inRangeOf float_of_string inRange l).
Proof.
  induction l as [| item rest IH]; [constructor |].
  cbn [inRangeOf flat_map]. fold (inRangeOf float_of_string inRange rest).
  destruct (PsychChartInputs.float float_of_string item) as [x | e];
    [destruct (inRange x) eqn:Rx |]; cbn [app]; try exact IH.
  constructor; [exists x; auto | exact IH].
Qed.

Lemma len_nonempty (l : list obj) : l <> [] -> negb (len l =? 0) = true.
Proof.
  intros Hl. destruct l; [contradiction |]. unfold len. cbn [List.length].
  apply negb_true_iff, Z.eqb_neq. lia.
Qed.

(** The closed form of a ranged input that is connected. *)
Lemma ranged_closed_form (inRange : Q -> bool) (l : list obj) :
  l <> [] ->
  exists check,
    readRanged float_of_string inRange l ([], false, true)
    = (inRangeOf float_of_string inRange l, check,
       allInRange float_of_string inRange l)
    /\ (if negb (allInRange float_of_string inRange l) then false else check)
       = allInRange float_of_string inRange l && lastIsNumber float_of_string l
    /\ (check = true -> hasInRange float_of_string inRange l = true).
Proof.
  intros Hl.
  destruct (readRanged_spec inRange l [] false true) as (c & Eq & A & B).
  exists c. split; [exact Eq |]. split.
  - destruct (allInRange float_of_string inRange l) eqn:All; cbn [negb andb].
    + rewrite (A eq_refl). destruct l; [contradiction | reflexivity].
    + reflexivity.
  - intros H. destruct (B H) as [F | T]; [discriminate | exact T].
Qed.

(** X1.  A dry bulb temperature list that is not a tagged data list is
    judged by its last item alone: it is accepted exactly when the last
    item converts to a number.  The temperatures kept are the items that
    convert, in order; an item before the last that does not convert is
    dropped without a warning. *)
Theorem temperature_list_is_judged_by_its_last_item :
  forall (l : list obj) (item : obj),
    tagged "Temperature" (l ++ [item]) = false ->
    checkDryBulbTemperature float_of_string (l ++ [item])
    = (isNumber float_of_string item,
       numbersOf float_of_string (l ++ [item]),
       1 <? len (numbersOf float_of_string (l ++ [item])),
       false, [],
       if isNumber float_of_string item then []
       else ["_dryBulbTemperature input does not contain valid temperature values in degrees Celcius."]).
Proof.
  intros l item Htag. unfold checkDryBulbTemperature.
  assert (N : negb (len (l ++ [item]) =? 0) = true).
  { unfold len. rewrite length_app. cbn [List.length].
    apply negb_true_iff, Z.eqb_neq. lia. }
  rewrite N, Htag. cbn [negb]. rewrite readNumbers_spec. cbn [app].
  rewrite lastIsNumber_snoc.
  destruct l; cbn [app];
    destruct (isNumber float_of_string item); reflexivity.
Qed.

(** X2.  A relative humidity list that is not a tagged data list is
    accepted exactly when none of its numbers lies outside 0 to 100 and its
    last item is a number; the humidities kept are the numbers inside the
    range.  A text before the last item is passed over without a warning, a
    number outside the range turns the whole input down. *)
Theorem humidity_list_needs_its_numbers_in_range_and_a_number_last :
  forall (epwData0 : bool) (epwStr0 l : list obj),
    l <> [] ->
    tagged "Humidity" l = false ->
    checkRelativeHumidity float_of_string epwData0 epwStr0 l
    = (allInRange float_of_string humidityRange l
       && lastIsNumber float_of_string l,
       inRangeOf float_of_string humidityRange l,
       1 <? len (inRangeOf float_of_string humidityRange l),
       epwData0, epwStr0,
       if allInRange float_of_string humidityRange l
          && lastIsNumber float_of_string l
       then []
       else ["_relativeHumidity input does not contain valid value."]).
Proof.
  intros epwData0 epwStr0 l Hl Htag. unfold checkRelativeHumidity.
  rewrite (len_nonempty l Hl), Htag. cbn [negb].
  destruct (ranged_closed_form humidityRange l Hl) as (c & Eq & C & _).
  rewrite Eq, C.
  destruct (allInRange float_of_string humidityRange l
            && lastIsNumber float_of_string l); reflexivity.
Qed.

(** X3.  Wind speed and clothing level are read by one rule: a connected
    input is accepted exactly when none of its numbers lies outside the
    range (not negative; 0 to 5) and its last item is a number, and the
    values kept are the numbers inside the range. *)
Theorem wind_and_clothing_need_their_numbers_in_range_and_a_number_last :
  forall (l : list obj),
    l <> [] ->
    checkOf (checkWindSpeed float_of_string l)
    = allInRange float_of_string windRange l && lastIsNumber float_of_string l
    /\ valuesOf (checkWindSpeed float_of_string l)
       = inRangeOf float_of_string windRange l
    /\ checkOf (checkClothingLevel float_of_string l)
       = allInRange float_of_string clothingRange l && lastIsNumber float_of_string l
    /\ valuesOf (checkClothingLevel float_of_string l)
       = inRangeOf float_of_string clothingRange l.
Proof.
  intros l Hl.
  split; [| split; [| split]].
  - unfold checkWindSpeed. rewrite (len_nonempty l Hl).
    destruct (ranged_closed_form windRange l Hl) as (c & Eq & C & _).
    rewrite Eq, C. reflexivity.
  - unfold checkWindSpeed. rewrite (len_nonempty l Hl).
    destruct (ranged_closed_form windRange l Hl) as (c & Eq & C & _).
    rewrite Eq. reflexivity.
  - unfold checkClothingLevel. rewrite (len_nonempty l Hl).
    destruct (ranged_closed_form clothingRange l Hl) as (c & Eq & C & _).
    rewrite Eq, C. reflexivity.
  - unfold checkClothingLevel. rewrite (len_nonempty l Hl).
    destruct (ranged_closed_form clothingRange l Hl) as (c & Eq & C & _).
    rewrite Eq. reflexivity.
Qed.

Lemma activity_within (item : obj) (met : Q) :
  activity item = Some met -> ((5 # 10) <= met)%Q /\ (met <= 10)%Q.
Proof.
  unfold activity.
  repeat match goal with
         | |- (if ?b then _ else _) = _ -> _ => destruct b
         end;
    intros H; try discriminate; injection H as <-;
    split; unfold Qle; cbn; lia.
Qed.

Lemma Forall_numberWithin_floats (inRange : Q -> bool) (low : Q) (high : option Q)
      (l : list obj) :
  (forall x, inRange x = true ->
             (low <= x)%Q /\ match high with
                             | Some h => (x <= h)%Q
                             | None => True
                             end) ->
  Forall (fun item => exists x, item = PFloat x /\ inRange x = true) l ->
  Forall (numberWithin low high) l.
Proof.
  intros HR H. induction H as [| item rest (x & -> & Rx) _ IH]; constructor; auto.
  exists x. split; [reflexivity | apply HR, Rx].
Qed.

Lemma windRange_spec (x : Q) : windRange x = true -> (0 <= x)%Q /\ True.
Proof. unfold windRange. intros H. split; [apply Qle_bool_iff, H | exact I]. Qed.

Lemma metabolicRange_spec (x : Q) :
  metabolicRange x = true -> ((5 # 10) <= x)%Q /\ (x <= 10)%Q.
Proof.
  unfold metabolicRange. intros H. apply andb_true_iff in H as [A B].
  split; apply Qle_bool_iff; assumption.
Qed.

Lemma clothingRange_spec (x : Q) :
  clothingRange x = true -> (0 <= x)%Q /\ (x <= 5)%Q.
Proof.
  unfold clothingRange. intros H. apply andb_true_iff in H as [A B].
  split; apply Qle_bool_iff; assumption.
Qed.

Lemma len_app_one (l : list obj) (x : obj) : (0 <? len (l ++ [x])) = true.
Proof. unfold len. rewrite length_app. cbn [List.length]. apply Z.ltb_lt. lia. Qed.

(** What the metabolic rate check leaves behind for a connected input. *)
Lemma metabolic_closed_form (l : list obj) :
  l <> [] ->
  checkOf (checkMetabolicRate float_of_string l)
  = allInRange float_of_string metabolicRange l
    && (hasInRange float_of_string metabolicRange l || namesActivity l)
  /\ Forall (numberWithin (5 # 10) (Some 10%Q))
            (valuesOf (checkMetabolicRate float_of_string l))
  /\ multOf (checkMetabolicRate float_of_string l)
     = (1 <? len (valuesOf (checkMetabolicRate float_of_string l)))
  /\ (checkOf (checkMetabolicRate float_of_string l) = true ->
      valuesOf (checkMetabolicRate float_of_string l) <> []).
Proof.
  intros Hl. unfold checkMetabolicRate. rewrite (len_nonempty l Hl).
  destruct (ranged_closed_form metabolicRange l Hl) as (c & Eq & _ & H).
  rewrite Eq.
  pose proof (inRangeOf_within metabolicRange l) as W.
  apply (Forall_numberWithin_floats metabolicRange (5 # 10) (Some 10%Q)) in W;
    [| apply metabolicRange_spec].
  pose proof (inRangeOf_nil metabolicRange l) as Z0.
  destruct l as [| first rest]; [contradiction |].
  assert (G : getitem (first :: rest) 0 = Ok first)
    by (apply (getitem_nth _ 0%nat); reflexivity).
  rewrite G. unfold namesActivity.
  destruct c; cbn [negb].
  - rewrite (H eq_refl) in Z0 |- *. rewrite <- Z0. cbn [orb].
    unfold checkOf, valuesOf, multOf. cbn [fst snd].
    rewrite andb_true_r.
    split; [destruct (allInRange _ _ _); reflexivity |].
    split; [exact W |]. split; [reflexivity |].
    intros _ E. rewrite E in Z0. discriminate.
  - destruct (activity first) as [met |] eqn:A.
    + rewrite len_app_one, orb_true_r, andb_true_r.
      unfold checkOf, valuesOf, multOf. cbn [fst snd].
      split; [destruct (allInRange _ _ _); reflexivity |].
      split; [| split; [reflexivity |]].
      * apply Forall_app. split; [exact W |]. constructor; [| constructor].
        exists met. split; [reflexivity |]. apply (activity_within first met A).
      * intros _ E. apply app_eq_nil in E as [_ E]. discriminate.
    + rewrite orb_false_r, <- Z0.
      unfold checkOf, valuesOf, multOf. cbn [fst snd].
      split; [destruct (hasInRange _ _ _), (allInRange _ _ _); reflexivity |].
      split; [exact W |]. split; [reflexivity |].
      destruct (hasInRange _ _ _) eqn:HR.
      * intros _ E. rewrite E in Z0. discriminate.
      * destruct (allInRange _ _ _); discriminate.
Qed.

(** X4.  The metabolic rate follows a rule of its own: the input is accepted
    exactly when none of its numbers lies outside 0.5 to 10 and either one
    of its numbers lies inside or its first item names an activity.  Unlike
    the other inputs it does not have to end in a number, and every value
    it keeps lies between 0.5 and 10. *)
Theorem metabolic_rate_needs_one_value_and_no_number_out_of_range :
  forall (l : list obj),
    l <> [] ->
    checkOf (checkMetabolicRate float_of_string l)
    = allInRange float_of_string metabolicRange l
      && (hasInRange float_of_string metabolicRange l || namesActivity l)
    /\ Forall (numberWithin (5 # 10) (Some 10%Q))
              (valuesOf (checkMetabolicRate float_of_string l)).
Proof.
  intros l Hl. destruct (metabolic_closed_form l Hl) as (A & B & _). auto.
Qed.

Lemma duplicateLoop_first (x : obj) (data : list obj) (counts : list Z)
      (dupData : list obj) :
  duplicateLoop (x :: data) counts dupData
  = Ok (dupData ++ repeat x (List.length counts)).
Proof.
  revert dupData. induction counts as [| c rest IH]; intros dupData.
  - cbn. rewrite app_nil_r. reflexivity.
  - cbn [duplicateLoop List.length repeat].
    assert (G : getitem (x :: data) 0 = Ok x)
      by (apply (getitem_nth _ 0%nat); reflexivity).
    rewrite G. cbn [bind]. rewrite IH, <- app_assoc. reflexivity.
Qed.

Lemma duplicateData_first (x : obj) (data : list obj) (n : Z) :
  duplicateData (x :: data) n = Ok (repeat x (Z.to_nat n)).
Proof.
  unfold duplicateData. rewrite duplicateLoop_first, range_length. reflexivity.
Qed.

Lemma duplicateData_empty (n : Z) :
  0 < n -> duplicateData [] n = Raise IndexError.
Proof.
  intros Hn. unfold duplicateData, range.
  destruct (Z.to_nat n) as [| k] eqn:E; [lia |]. reflexivity.
Qed.

(** What [duplicateData] gives when it returns: [n] copies, drawn from the
    list. *)
Lemma duplicateData_Ok (data dup : list obj) (n : Z) :
  0 <= n ->
  duplicateData data n = Ok dup ->
  (len dup = n /\ forall P : obj -> Prop, Forall P data -> Forall P dup)
  /\ (dup = [] \/ exists x rest, data = x :: rest /\ dup = repeat x (Z.to_nat n)).
Proof.
  intros Hn E. destruct data as [| x rest].
  - destruct (Z.eq_dec n 0) as [-> | N].
    + cbn in E. injection E as <-. split; [split; [reflexivity | auto] | auto].
    + rewrite duplicateData_empty in E by lia. discriminate.
  - rewrite duplicateData_first in E. injection E as <-.
    split; [split |].
    + unfold len. rewrite repeat_length. lia.
    + intros P HP. apply Forall_forall. intros y Hy.
      apply repeat_spec in Hy as ->. inversion HP; assumption.
    + right. exists x, rest. auto.
Qed.

Lemma allEqualFirst_In (lengths : list Z) (n : Z) :
  allEqualFirst lengths = true ->
  getitem lengths 0 = Ok n ->
  forall x, In x lengths -> x = n.
Proof.
  intros A G x Hx. destruct lengths as [| first rest]; [contradiction |].
  assert (G' : getitem (first :: rest) 0 = Ok first)
    by (apply (getitem_nth _ 0%nat); reflexivity).
  rewrite G' in G. injection G as <-.
  unfold allEqualFirst in A. rewrite forallb_forall in A.
  apply Z.eqb_eq, A, Hx.
Qed.

Lemma len_nonneg (l : list obj) : 0 <= len l.
Proof. unfold len. lia. Qed.

Lemma getitem_first_In (lengths : list Z) (n : Z) :
  getitem lengths 0 = Ok n -> In n lengths.
Proof.
  intros G. destruct lengths as [| first rest]; [discriminate |].
  assert (G' : getitem (first :: rest) 0 = Ok first)
    by (apply (getitem_nth _ 0%nat); reflexivity).
  rewrite G' in G. injection G as <-. left. reflexivity.
Qed.

(** One list through lines 206-208 or 357-360: kept when it has several
    values, copied out otherwise. *)
Lemma kept_or_duplicated (lengths : list Z) (n : Z) (l l' : list obj) :
  allEqualFirst lengths = true ->
  getitem lengths 0 = Ok n ->
  0 <= n ->
  ((1 <? len l) = true -> In (len l) lengths) ->
  (if negb (1 <? len l) then duplicateData l n else Ok l) = Ok l' ->
  len l' = n /\ forall P : obj -> Prop, Forall P l -> Forall P l'.
Proof.
  intros A G Hn HIn E. destruct (1 <? len l) eqn:M; cbn [negb] in E.
  - injection E as <-. split; [| auto].
    apply (allEqualFirst_In lengths n A G), HIn. reflexivity.
  - apply (duplicateData_Ok l l' n Hn E).
Qed.

Lemma short_list (l : list obj) :
  (1 <? len l) = false -> len l = 1 \/ l = [].
Proof.
  intros M. apply Z.ltb_ge in M. destruct l as [| x [| y rest]]; auto.
  unfold len in M. cbn [List.length] in M. lia.
Qed.

Lemma short_nonempty_list (l : list obj) :
  (1 <? len l) = false -> l <> [] -> len l = 1.
Proof. intros M N. destruct (short_list l M); [assumption | contradiction]. Qed.

Lemma matchChartLengths_accepted
      (checkData1 checkData2 checkData3 checkData4 : bool)
      (airTemp relHumid barPress airTemp' relHumid' barPress' : list obj)
      (calcLength : option Z) (warnings : list string) :
  matchChartLengths checkData1 checkData2 checkData3
                    (1 <? len airTemp) (1 <? len relHumid) (1 <? len barPress)
                    airTemp relHumid barPress
  = Ok (checkData4, calcLength, airTemp', relHumid', barPress', warnings) ->
  checkData4 = true ->
  exists n,
    calcLength = Some n
    /\ (len airTemp' = n \/ airTemp' = [])
    /\ (len relHumid' = n \/ relHumid' = [])
    /\ (len barPress' = n \/ barPress' = []).
Proof.
  unfold matchChartLengths. intros E C4.
  destruct (checkData1 && checkData2 && checkData3);
    [| injection E as <-; discriminate].
  destruct ((1 <? len airTemp) || (1 <? len relHumid) || (1 <? len barPress))
    eqn:Multi.
  - match type of E with
    | (if allEqualFirst ?L then _ else _) = _ => set (lengths := L) in *
    end.
    destruct (allEqualFirst lengths) eqn:A; [| injection E as <-; discriminate].
    destruct (getitem lengths 0) as [n | e] eqn:G; [| discriminate].
    cbn [bind] in E.
    assert (Hn : 0 <= n).
    { apply getitem_first_In in G. unfold lengths in G.
      repeat (apply in_app_or in G as [G | G]);
        match type of G with
        | In _ (if ?b then _ else _) => destruct b
        end;
        try contradiction; destruct G as [<- | []]; apply len_nonneg. }
    destruct (if negb (1 <? len airTemp) then duplicateData airTemp n
              else Ok airTemp) as [a1 | e] eqn:Ea; [| discriminate].
    cbn [bind] in E.
    destruct (if negb (1 <? len relHumid) then duplicateData relHumid n
              else Ok relHumid) as [h1 | e] eqn:Eh; [| discriminate].
    cbn [bind] in E.
    destruct (if negb (1 <? len barPress) then duplicateData barPress n
              else Ok barPress) as [p1 | e] eqn:Ep; [| discriminate].
    cbn [bind] in E. injection E as _ <- <- <- <- _.
    exists n. split; [reflexivity |].
    split; [| split]; left.
    + apply (kept_or_duplicated lengths n airTemp a1 A G Hn); [| exact Ea].
      intros M. unfold lengths. rewrite M. apply in_or_app. left. left. reflexivity.
    + apply (kept_or_duplicated lengths n relHumid h1 A G Hn); [| exact Eh].
      intros M. unfold lengths. rewrite M.
      apply in_or_app; right; apply in_or_app; left. left. reflexivity.
    + apply (kept_or_duplicated lengths n barPress p1 A G Hn); [| exact Ep].
      intros M. unfold lengths. rewrite M.
      apply in_or_app; right; apply in_or_app; right. left. reflexivity.
  - injection E as _ <- <- <- <- _.
    apply orb_false_iff in Multi as [Multi Mp].
    apply orb_false_iff in Multi as [Ma Mh].
    exists 1. split; [reflexivity |].
    split; [| split]; apply short_list; assumption.
Qed.

Lemma matchComfortLengths_accepted
      (checkData5 checkData6 checkData7 checkData8 checkData9 : bool)
      (calcLength0 calcLength calcLength2 : option Z)
      (radTemp windSpeed metRate cloLevel : list obj)
      (radTemp' windSpeed' metRate' cloLevel' : list obj)
      (exWork : option (list obj)) (warnings : list string) :
  matchComfortLengths checkData5 checkData6 checkData7 checkData8
                      (1 <? len radTemp) (1 <? len windSpeed)
                      (1 <? len metRate) (1 <? len cloLevel)
                      calcLength0 radTemp windSpeed metRate cloLevel
  = Ok (checkData9, calcLength, radTemp', windSpeed', metRate', cloLevel',
        exWork, calcLength2, warnings) ->
  checkData9 = true ->
  radTemp <> [] -> windSpeed <> [] -> metRate <> [] -> cloLevel <> [] ->
  calcLength = calcLength0
  /\ exists n,
      calcLength2 = Some n
      /\ 1 <= n
      /\ exWork = Some (repeat (PInt 0) (Z.to_nat n))
      /\ (len radTemp' = n /\ forall P : obj -> Prop, Forall P radTemp -> Forall P radTemp')
      /\ (len windSpeed' = n /\ forall P : obj -> Prop, Forall P windSpeed -> Forall P windSpeed')
      /\ (len metRate' = n /\ forall P : obj -> Prop, Forall P metRate -> Forall P metRate')
      /\ (len cloLevel' = n /\ forall P : obj -> Prop, Forall P cloLevel -> Forall P cloLevel').
Proof.
  unfold matchComfortLengths. intros E C9 Nr Nw Nm Nc.
  destruct (checkData5 && checkData6 && checkData7 && checkData8);
    [| injection E as <-; discriminate].
  destruct ((1 <? len radTemp) || (1 <? len windSpeed) || (1 <? len metRate)
            || (1 <? len cloLevel)) eqn:Multi.
  - match type of E with
    | (if allEqualFirst ?L then _ else _) = _ => set (lengths := L) in *
    end.
    destruct (allEqualFirst lengths) eqn:A; [| injection E as <-; discriminate].
    destruct (getitem lengths 0) as [n | e] eqn:G; [| discriminate].
    cbn [bind] in E.
    assert (Hn : 1 < n).
    { apply getitem_first_In in G. unfold lengths in G.
      repeat (apply in_app_or in G as [G | G]);
        match type of G with
        | In _ (if ?b then _ else _) => destruct b eqn:M
        end;
        try contradiction; destruct G as [<- | []]; apply Z.ltb_lt, M. }
    destruct (if negb (1 <? len radTemp) then duplicateData radTemp n
              else Ok radTemp) as [r1 | e] eqn:Er; [| discriminate].
    cbn [bind] in E.
    destruct (if negb (1 <? len windSpeed) then duplicateData windSpeed n
              else Ok windSpeed) as [w1 | e] eqn:Ew; [| discriminate].
    cbn [bind] in E.
    destruct (if negb (1 <? len metRate) then duplicateData metRate n
              else Ok metRate) as [m1 | e] eqn:Em; [| discriminate].
    cbn [bind] in E.
    destruct (if negb (1 <? len cloLevel) then duplicateData cloLevel n
              else Ok cloLevel) as [c1 | e] eqn:Ec; [| discriminate].
    cbn [bind] in E. rewrite duplicateData_first in E. cbn [bind] in E.
    injection E as _ <- <- <- <- <- <- <- _.
    split; [reflexivity |]. exists n.
    split; [reflexivity |]. split; [lia |]. split; [reflexivity |].
    assert (Hn0 : 0 <= n) by lia.
    split; [| split; [| split]].
    + apply (kept_or_duplicated lengths n radTemp r1 A G Hn0); [| exact Er].
      intros M. unfold lengths. rewrite M. apply in_or_app. left. left. reflexivity.
    + apply (kept_or_duplicated lengths n windSpeed w1 A G Hn0); [| exact Ew].
      intros M. unfold lengths. rewrite M.
      apply in_or_app; right; apply in_or_app; left. left. reflexivity.
    + apply (kept_or_duplicated lengths n metRate m1 A G Hn0); [| exact Em].
      intros M. unfold lengths. rewrite M.
      apply in_or_app; right; apply in_or_app; right; apply in_or_app; left.
      left. reflexivity.
    + apply (kept_or_duplicated lengths n cloLevel c1 A G Hn0); [| exact Ec].
      intros M. unfold lengths. rewrite M.
      apply in_or_app; right; apply in_or_app; right; apply in_or_app; right.
      left. reflexivity.
  - injection E as _ <- <- <- <- <- <- <- _.
    apply orb_false_iff in Multi as [Multi Mc].
    apply orb_false_iff in Multi as [Multi Mm].
    apply orb_false_iff in Multi as [Mr Mw].
    split; [reflexivity |]. exists 1.
    split; [reflexivity |]. split; [lia |]. split; [reflexivity |].
    repeat split; auto using short_nonempty_list.
Qed.

Lemma numbersOf_app (l1 l2 : list obj) :
  numbersOf float_of_string (l1 ++ l2)
  = numbersOf float_of_string l1 ++ numbersOf float_of_string l2.
Proof. unfold numbersOf. apply flat_map_app. Qed.

Lemma numbersOf_lastIsNumber (l : list obj) :
  lastIsNumber float_of_string l = true -> numbersOf float_of_string l <> [].
Proof.
  destruct l as [| first rest]; [discriminate |].
  destruct (@exists_last _ (first :: rest)) as (l' & item & E); [discriminate |].
  rewrite E, lastIsNumber_snoc, numbersOf_app. unfold isNumber.
  cbn [numbersOf flat_map].
  destruct (PsychChartInputs.float float_of_string item); [| discriminate].
  intros _ F. apply app_eq_nil in F as [_ F]. discriminate.
Qed.

Lemma number_PInt (z : Z) (low : Q) (high : option Q) :
  (low <= inject_Z z)%Q ->
  match high with
  | Some h => (inject_Z z <= h)%Q
  | None => True
  end ->
  numberWithin low high (PInt z).
Proof. intros L H. exists (inject_Z z). auto. Qed.

(** What each of the four comfort inputs leaves behind when it is accepted. *)
Lemma radTemp_accepted (l : list obj) :
  checkOf (checkMeanRadTemperature float_of_string l) = true ->
  valuesOf (checkMeanRadTemperature float_of_string l) <> []
  /\ multOf (checkMeanRadTemperature float_of_string l)
     = (1 <? len (valuesOf (checkMeanRadTemperature float_of_string l))).
Proof.
  unfold checkMeanRadTemperature.
  destruct (negb (len l =? 0)) eqn:N.
  - rewrite readNumbers_spec. cbn [app].
    unfold checkOf, valuesOf, multOf. cbn [fst snd].
    destruct l as [| item rest]; [discriminate |].
    intros H. split; [apply numbersOf_lastIsNumber, H | reflexivity].
  - intros _. split; [discriminate | reflexivity].
Qed.

Lemma ranged_accepted (inRange : Q -> bool) (l : list obj) (values : list obj)
      (check nonValue : bool) :
  l <> [] ->
  readRanged float_of_string inRange l ([], false, true)
  = (values, check, nonValue) ->
  (if negb nonValue then false else check) = true ->
  values <> []
  /\ Forall (fun item => exists x, item = PFloat x /\ inRange x = true) values.
Proof.
  intros Hl E C.
  destruct (ranged_closed_form inRange l Hl) as (c & Eq & _ & H).
  rewrite Eq in E. injection E as <- <- <-.
  split; [| apply inRangeOf_within].
  destruct (allInRange float_of_string inRange l); [| discriminate].
  cbn [negb] in C. specialize (H C). rewrite inRangeOf_nil in H.
  intros E. rewrite E in H. discriminate.
Qed.

Lemma windSpeed_accepted (l : list obj) :
  checkOf (checkWindSpeed float_of_string l) = true ->
  valuesOf (checkWindSpeed float_of_string l) <> []
  /\ multOf (checkWindSpeed float_of_string l)
     = (1 <? len (valuesOf (checkWindSpeed float_of_string l)))
  /\ Forall (numberWithin 0 None) (valuesOf (checkWindSpeed float_of_string l)).
Proof.
  unfold checkWindSpeed.
  destruct (negb (len l =? 0)) eqn:N.
  - destruct (readRanged float_of_string windRange l ([], false, true))
      as [[values check] nonValue] eqn:E.
    unfold checkOf, valuesOf, multOf. cbn [fst snd]. intros C.
    destruct (ranged_accepted windRange l values check nonValue) as [A B];
      [intros -> ; discriminate | exact E | exact C |].
    split; [exact A |]. split; [reflexivity |].
    apply (Forall_numberWithin_floats windRange); [apply windRange_spec | exact B].
  - intros _. unfold checkOf, valuesOf, multOf. cbn [fst snd].
    split; [discriminate |]. split; [reflexivity |].
    constructor; [| constructor]. exists (5 # 100). repeat split.
    unfold Qle; cbn; lia.
Qed.

Lemma cloLevel_accepted (l : list obj) :
  checkOf (checkClothingLevel float_of_string l) = true ->
  valuesOf (checkClothingLevel float_of_string l) <> []
  /\ multOf (checkClothingLevel float_of_string l)
     = (1 <? len (valuesOf (checkClothingLevel float_of_string l)))
  /\ Forall (numberWithin 0 (Some 5%Q))
            (valuesOf (checkClothingLevel float_of_string l)).
Proof.
  unfold checkClothingLevel.
  destruct (negb (len l =? 0)) eqn:N.
  - destruct (readRanged float_of_string clothingRange l ([], false, true))
      as [[values check] nonValue] eqn:E.
    unfold checkOf, valuesOf, multOf. cbn [fst snd]. intros C.
    destruct (ranged_accepted clothingRange l values check nonValue) as [A B];
      [intros -> ; discriminate | exact E | exact C |].
    split; [exact A |]. split; [reflexivity |].
    apply (Forall_numberWithin_floats clothingRange);
      [apply clothingRange_spec | exact B].
  - intros _. unfold checkOf, valuesOf, multOf. cbn [fst snd].
    split; [discriminate |]. split; [reflexivity |].
    constructor; [| constructor].
    apply number_PInt; unfold Qle; cbn; lia.
Qed.

Lemma metRate_accepted (l : list obj) :
  checkOf (checkMetabolicRate float_of_string l) = true ->
  valuesOf (checkMetabolicRate float_of_string l) <> []
  /\ multOf (checkMetabolicRate float_of_string l)
     = (1 <? len (valuesOf (checkMetabolicRate float_of_string l)))
  /\ Forall (numberWithin (5 # 10) (Some 10%Q))
            (valuesOf (checkMetabolicRate float_of_string l)).
Proof.
  destruct l as [| item rest].
  - intros _. unfold checkMetabolicRate, checkOf, valuesOf, multOf.
    cbn [len List.length Z.of_nat Z.eqb negb fst snd].
    split; [discriminate |]. split; [reflexivity |].
    constructor; [| constructor].
    apply number_PInt; unfold Qle; cbn; lia.
  - destruct (metabolic_closed_form (item :: rest)) as (_ & W & M & N);
      [discriminate |].
    intros C. auto.
Qed.

Lemma temperature_mult (l : list obj) :
  forall checkData1 airTemp airMultVal epwData epwStr warnings,
    checkDryBulbTemperature float_of_string l
    = (checkData1, airTemp, airMultVal, epwData, epwStr, warnings) ->
    airMultVal = (1 <? len airTemp).
Proof.
  intros c a m e s w. unfold checkDryBulbTemperature.
  destruct (negb (len l =? 0)).
  - destruct (tagged "Temperature" l); cbn [negb].
    + intros E. injection E as _ <- <- _ _ _. reflexivity.
    + destruct (readNumbers float_of_string l ([], false)) as [v k].
      intros E. injection E as _ <- <- _ _ _. reflexivity.
  - intros E. injection E as _ <- <- _ _ _. reflexivity.
Qed.

Lemma humidity_mult (epwData0 : bool) (epwStr0 l : list obj) :
  forall checkData2 relHumid humidMultVal epwData epwStr warnings,
    checkRelativeHumidity float_of_string epwData0 epwStr0 l
    = (checkData2, relHumid, humidMultVal, epwData, epwStr, warnings) ->
    humidMultVal = (1 <? len relHumid).
Proof.
  intros c a m e s w. unfold checkRelativeHumidity.
  destruct (negb (len l =? 0)).
  - destruct (tagged "Humidity" l); cbn [negb].
    + intros E. injection E as _ <- <- _ _ _. reflexivity.
    + destruct (readRanged float_of_string humidityRange l ([], false, true))
        as [[v k] nv].
      intros E. injection E as _ <- <- _ _ _. reflexivity.
  - intros E. injection E as _ <- <- _ _ _. reflexivity.
Qed.

Lemma pressure_mult (epwData0 : bool) (epwStr0 l : list obj) :
  PsychChartInputs.pressMultVal
    (PsychChartInputs.checkBarometricPressure float_of_string epwData0 epwStr0 l)
  = (1 <? len (PsychChartInputs.barPress
                 (PsychChartInputs.checkBarometricPressure
                    float_of_string epwData0 epwStr0 l))).
Proof.
  unfold PsychChartInputs.checkBarometricPressure.
  destruct (negb (len l =? 0)); [| reflexivity].
  destruct (try_except _ _) as [[|] | e]; cbn [negb];
    try reflexivity;
    destruct (PsychChartInputs.readPressures float_of_string l ([], false, true))
      as [[v k] nv]; reflexivity.
Qed.

Lemma checkData_all (c1 c2 c3 c4 c5 c6 c7 c8 c9 c10 c11 c12 c13 : bool) :
  PsychChartInputs.checkData c1 c2 c3 c4 c5 c6 c7 c8 c9 c10 c11 c12 c13 = true ->
  c4 = true /\ c5 = true /\ c6 = true /\ c7 = true /\ c8 = true /\ c9 = true
  /\ c13 = true.
Proof.
  unfold PsychChartInputs.checkData. intros H.
  repeat (apply andb_true_iff in H as [H ?]). repeat split; assumption.
Qed.

(** What [main] can rely on once [checkTheInputs] has given its go-ahead. *)
Lemma accepted_inputs (i : Inputs) (r : Returned) :
  checkTheInputs float_of_string separateList exec i = Ok r ->
  checkData r = true ->
  (exists n,
      calcLength r = Some n
      /\ (len (airTemp r) = n \/ airTemp r = [])
      /\ (len (relHumid r) = n \/ relHumid r = [])
      /\ (len (barPress r) = n \/ barPress r = [])
      /\ (analysisPeriod_ i <> [] -> epwData r = true /\ n = 8760))
  /\ (1 <= calcLength2 r
      /\ exWork r = repeat (PInt 0) (Z.to_nat (calcLength2 r))
      /\ len (radTemp r) = calcLength2 r
      /\ len (windSpeed r) = calcLength2 r
      /\ len (metRate r) = calcLength2 r
      /\ len (cloLevel r) = calcLength2 r)
  /\ (Forall (numberWithin 0 None) (windSpeed r)
      /\ Forall (numberWithin (5 # 10) (Some 10%Q)) (metRate r)
      /\ Forall (numberWithin 0 (Some 5%Q)) (cloLevel r)).
Proof.
  unfold checkTheInputs. intros E C.
  destruct (checkDryBulbTemperature float_of_string (_dryBulbTemperature i))
    as [[[[[c1 a] am] e1] s1] w1] eqn:E1.
  destruct (checkRelativeHumidity float_of_string e1 s1 (_relativeHumidity i))
    as [[[[[c2 h] hm] e2] s2] w2] eqn:E2.
  cbv beta iota zeta in E.
  rewrite pressure_mult in E.
  rewrite (temperature_mult _ _ _ _ _ _ _ E1) in E.
  rewrite (humidity_mult _ _ _ _ _ _ _ _ _ E2) in E.
  destruct (matchChartLengths _ _ _ _ _ _ _ _ _)
    as [[[[[[c4 cl] a'] h'] p'] w4] | e] eqn:E4; [| discriminate].
  cbn [bind] in E.
  pose proof (radTemp_accepted (meanRadTemperature_ i)) as Hr.
  pose proof (windSpeed_accepted (windSpeed_ i)) as Hw.
  pose proof (metRate_accepted (metabolicRate_ i)) as Hm.
  pose proof (cloLevel_accepted (clothingLevel_ i)) as Hc.
  destruct (checkMeanRadTemperature float_of_string (meanRadTemperature_ i))
    as [[[c5 rt] rm] w5].
  destruct (checkWindSpeed float_of_string (windSpeed_ i))
    as [[[c6 ws] wm] w6].
  destruct (checkMetabolicRate float_of_string (metabolicRate_ i))
    as [[[c7 mr] mm] w7].
  destruct (checkClothingLevel float_of_string (clothingLevel_ i))
    as [[[c8 clo] cm] w8].
  unfold checkOf, valuesOf, multOf in Hr, Hw, Hm, Hc.
  cbn [fst snd] in Hr, Hw, Hm, Hc.
  destruct (matchComfortLengths _ _ _ _ _ _ _ _ _ _ _ _ _)
    as [[[[[[[[[c9 cl'] rt'] ws'] mr'] clo'] ex] n2] w9] | e] eqn:E9;
    [| discriminate].
  cbn [bind] in E.
  destruct (checkComfortPar float_of_string (comfortPar_ i))
    as [[[[c10 eighty] up] low] w10].
  destruct (checkStatement separateList exec _ i) as [[c11 st] | e];
    [| discriminate].
  cbn [bind] in E.
  destruct (checkPassiveStrategy (passiveStrategy_ i)) as [c12 w12].
  destruct (checkAnalysisPeriod (analysisPeriod_ i) _ cl') as [c13 w13] eqn:E13.
  destruct (averagePressure p') as [avg | e]; [| discriminate].
  cbn [bind] in E.
  destruct (bound ex) as [ex' | e] eqn:Eex; [| discriminate].
  cbn [bind] in E.
  destruct (bound n2) as [n2' | e] eqn:En2; [| discriminate].
  cbn [bind] in E. injection E as <-.
  cbn [checkData] in C.
  apply checkData_all in C as (C4 & C5 & C6 & C7 & C8 & C9 & C13).
  destruct (Hr C5) as (Nr & Mr). destruct (Hw C6) as (Nw & Mw & Rw).
  destruct (Hm C7) as (Nm & Mm & Rm). destruct (Hc C8) as (Nc & Mc & Rc).
  rewrite Mr, Mw, Mm, Mc in E9.
  destruct (matchComfortLengths_accepted _ _ _ _ _ _ _ _ _ _ _ _ _ _ _ _ _ _
              E9 C9 Nr Nw Nm Nc)
    as (-> & n & -> & Hn & -> & (Lr & _) & (Lw & Fw) & (Lm & Fm) & (Lc & Fc)).
  cbn [bound] in Eex, En2. injection Eex as <-. injection En2 as <-.
  destruct (matchChartLengths_accepted _ _ _ _ _ _ _ _ _ _ _ _ E4 C4)
    as (k & -> & La & Lh & Lp).
  cbn [calcLength airTemp relHumid barPress epwData calcLength2 exWork
       radTemp windSpeed metRate cloLevel].
  split; [| split].
  - exists k. split; [reflexivity |]. split; [exact La |].
    split; [exact Lh |]. split; [exact Lp |].
    intros Hap. unfold checkAnalysisPeriod in E13.
    rewrite (len_nonempty _ Hap) in E13.
    destruct (PsychChartInputs.epwData _); cbn [andb] in E13.
    + destruct (k =? 8760) eqn:K; [| injection E13 as <-; discriminate].
      split; [reflexivity | apply Z.eqb_eq, K].
    + injection E13 as <-. discriminate.
  - repeat split; assumption.
  - split; [apply Fw, Rw |]. split; [apply Fm, Rm | apply Fc, Rc].
Qed.


(** X6.  When [checkTheInputs] gives its go-ahead, the radiant temperatures,
    wind speeds, metabolic rates and clothing levels it returns all have
    [calcLength2] entries, [calcLength2] is at least 1, and the external
    work is that many zeros: every index below [calcLength2] is defined in
    each of the five lists. *)
Theorem accepted_comfort_lists_share_one_length :
  forall (i : Inputs) (r : Returned),
    checkTheInputs float_of_string separateList exec i = Ok r ->
    checkData r = true ->
    1 <= calcLength2 r
    /\ exWork r = repeat (PInt 0) (Z.to_nat (calcLength2 r))
    /\ len (radTemp r) = calcLength2 r
    /\ len (windSpeed r) = calcLength2 r
    /\ len (metRate r) = calcLength2 r
    /\ len (cloLevel r) = calcLength2 r.
Proof.
  intros i r E C. apply (accepted_inputs i r E C).
Qed.

(** X7.  When [checkTheInputs] gives its go-ahead, every wind speed it
    returns is a number that is not negative, every metabolic rate a number
    between 0.5 and 10, every clothing level a number between 0 and 5,
    defaults and activity names included. *)
Theorem accepted_comfort_values_lie_in_their_ranges :
  forall (i : Inputs) (r : Returned),
    checkTheInputs float_of_string separateList exec i = Ok r ->
    checkData r = true ->
    Forall (numberWithin 0 None) (windSpeed r)
    /\ Forall (numberWithin (5 # 10) (Some 10%Q)) (metRate r)
    /\ Forall (numberWithin 0 (Some 5%Q)) (cloLevel r).
Proof.
  intros i r E C. apply (accepted_inputs i r E C).
Qed.

(** X8.  When the four comfort inputs are each valid but those with several
    values differ in length, [checkTheInputs] does not return: the branch of
    line 363 binds neither [exWork] nor [calcLength2], and line 440 reads
    both. *)
Theorem comfort_lists_of_different_lengths_end_in_an_exception :
  forall (i : Inputs),
    forallb checkOf (comfortChecks float_of_string i) = true ->
    allEqualFirst (multiLengths (comfortChecks float_of_string i)) = false ->
    exists e, checkTheInputs float_of_string separateList exec i = Raise e.
Proof.
  intros i Hc Hl. unfold comfortChecks in Hc, Hl. unfold checkTheInputs.
  destruct (checkDryBulbTemperature float_of_string (_dryBulbTemperature i))
    as [[[[[c1 a] am] e1] s1] w1].
  destruct (checkRelativeHumidity float_of_string e1 s1 (_relativeHumidity i))
    as [[[[[c2 h] hm] e2] s2] w2].
  cbv beta iota zeta.
  destruct (matchChartLengths _ _ _ _ _ _ _ _ _)
    as [[[[[[c4 cl] a'] h'] p'] w4] | e]; [| eexists; reflexivity].
  cbn [bind].
  destruct (checkMeanRadTemperature float_of_string (meanRadTemperature_ i))
    as [[[c5 rt] rm] w5].
  destruct (checkWindSpeed float_of_string (windSpeed_ i))
    as [[[c6 ws] wm] w6].
  destruct (checkMetabolicRate float_of_string (metabolicRate_ i))
    as [[[c7 mr] mm] w7].
  destruct (checkClothingLevel float_of_string (clothingLevel_ i))
    as [[[c8 clo] cm] w8].
  unfold multiLengths, checkOf, valuesOf, multOf in Hc, Hl.
  cbn [forallb flat_map fst snd] in Hc, Hl. rewrite app_nil_r in Hl.
  rewrite andb_true_r in Hc.
  apply andb_true_iff in Hc as [-> Hc]. apply andb_true_iff in Hc as [-> Hc].
  apply andb_true_iff in Hc as [-> ->].
  unfold matchComfortLengths. cbn [andb].
  destruct (rm || wm || mm || cm) eqn:M.
  - rewrite Hl. cbn [bind].
    destruct (checkComfortPar float_of_string (comfortPar_ i))
      as [[[[c10 eighty] up] low] w10].
    destruct (checkStatement separateList exec _ i) as [[c11 st] | e];
      [| eexists; reflexivity].
    cbn [bind].
    destruct (checkPassiveStrategy (passiveStrategy_ i)) as [c12 w12].
    destruct (checkAnalysisPeriod (analysisPeriod_ i) _ None) as [c13 w13].
    destruct (averagePressure p') as [avg | e]; [| eexists; reflexivity].
    cbn [bind bound]. eexists; reflexivity.
  - destruct rm, wm, mm, cm; discriminate.
Qed.

Lemma sumFrom_repeat_int (x : Z) (k : nat) (acc : Z) :
  sumFrom (inl acc) (repeat (PInt x) k) = Ok (inl (acc + Z.of_nat k * x)).
Proof.
  revert acc. induction k as [| k IH]; intros acc.
  - cbn. f_equal. f_equal. lia.
  - cbn [repeat sumFrom number bind add]. rewrite IH. f_equal. f_equal. lia.
Qed.

Lemma averagePressure_repeat_int (x : Z) (k : nat) :
  averagePressure (repeat (PInt x) (S k)) = Ok (Some (PInt x)).
Proof.
  unfold averagePressure. unfold len. rewrite repeat_length.
  destruct k as [| k].
  - reflexivity.
  - assert (L : (1 <? Z.of_nat (S (S k))) = true) by (apply Z.ltb_lt; lia).
    rewrite L, sumFrom_repeat_int. cbn [bind].
    unfold Fragment.divide.
    assert (N : (Z.of_nat (S (S k)) =? 0) = false) by (apply Z.eqb_neq; lia).
    rewrite N. cbn [bind PsychChartInputs.plainNumber].
    rewrite Z.add_0_l, Z.mul_comm, Z.div_mul by lia. reflexivity.
Qed.

Lemma matchChartLengths_default_pressure
      (checkData1 checkData2 checkData4 : bool)
      (airTemp relHumid airTemp' relHumid' barPress' : list obj)
      (calcLength : option Z) (warnings : list string) :
  matchChartLengths checkData1 checkData2 true
                    (1 <? len airTemp) (1 <? len relHumid) false
                    airTemp relHumid [PInt 101325]
  = Ok (checkData4, calcLength, airTemp', relHumid', barPress', warnings) ->
  exists k, barPress' = repeat (PInt 101325) (S k).
Proof.
  unfold matchChartLengths. intros E. cbn [negb] in E.
  rewrite !app_nil_r in E.
  destruct (checkData1 && checkData2 && true);
    [| injection E as _ _ _ _ <- _; exists 0%nat; reflexivity].
  destruct ((1 <? len airTemp) || (1 <? len relHumid) || false);
    [| injection E as _ _ _ _ <- _; exists 0%nat; reflexivity].
  match type of E with
  | (if allEqualFirst ?L then _ else _) = _ => set (lengths := L) in *
  end.
  destruct (allEqualFirst lengths);
    [| injection E as _ _ _ _ <- _; exists 0%nat; reflexivity].
  destruct (getitem lengths 0) as [n | e] eqn:G; [| discriminate].
  cbn [bind] in E.
  assert (Hn : 1 < n).
  { apply getitem_first_In in G. unfold lengths in G.
    repeat (apply in_app_or in G as [G | G]);
      match type of G with
      | In _ (if ?b then _ else _) => destruct b eqn:M
      end;
      try contradiction; destruct G as [<- | []]; apply Z.ltb_lt, M. }
  destruct (if negb (1 <? len airTemp) then duplicateData airTemp n
            else Ok airTemp) as [a1 | e]; [| discriminate].
  cbn [bind] in E.
  destruct (if negb (1 <? len relHumid) then duplicateData relHumid n
            else Ok relHumid) as [h1 | e]; [| discriminate].
  cbn [bind] in E. rewrite duplicateData_first in E. cbn [bind] in E.
  injection E as _ _ _ _ <- _.
  exists (Z.to_nat n - 1)%nat. f_equal. lia.
Qed.

(** X9.  With no barometric pressure connected, whatever the other inputs
    are, what [checkTheInputs] returns holds the sea level pressure 101325
    for every hour and as the average pressure, exactly: the copies made to
    match the other lists and the mean taken over them give the default
    back. *)
Theorem unconnected_pressure_is_sea_level_throughout :
  forall (i : Inputs) (r : Returned),
    barometricPressure_ i = [] ->
    checkTheInputs float_of_string separateList exec i = Ok r ->
    avgBarPress r = Some (PInt 101325)
    /\ exists k, barPress r = repeat (PInt 101325) (S k).
Proof.
  intros i r Hp. unfold checkTheInputs. rewrite Hp.
  destruct (checkDryBulbTemperature float_of_string (_dryBulbTemperature i))
    as [[[[[c1 a] am] e1] s1] w1] eqn:E1.
  destruct (checkRelativeHumidity float_of_string e1 s1 (_relativeHumidity i))
    as [[[[[c2 h] hm] e2] s2] w2] eqn:E2.
  cbv beta iota zeta.
  change (PsychChartInputs.checkBarometricPressure float_of_string e2 s2 [])
    with (PsychChartInputs.mkPressureCheck true [PInt 101325] false e2 s2 []).
  cbn [PsychChartInputs.checkData3 PsychChartInputs.epwData
       PsychChartInputs.epwStr PsychChartInputs.pressMultVal
       PsychChartInputs.barPress PsychChartInputs.warnings].
  rewrite (temperature_mult _ _ _ _ _ _ _ E1).
  rewrite (humidity_mult _ _ _ _ _ _ _ _ _ E2).
  destruct (matchChartLengths _ _ _ _ _ _ _ _ _)
    as [[[[[[c4 cl] a'] h'] p'] w4] | e] eqn:E4; [| discriminate].
  cbn [bind].
  destruct (matchChartLengths_default_pressure _ _ _ _ _ _ _ _ _ _ E4)
    as (k & ->).
  destruct (checkMeanRadTemperature float_of_string (meanRadTemperature_ i))
    as [[[c5 rt] rm] w5].
  destruct (checkWindSpeed float_of_string (windSpeed_ i))
    as [[[c6 ws] wm] w6].
  destruct (checkMetabolicRate float_of_string (metabolicRate_ i))
    as [[[c7 mr] mm] w7].
  destruct (checkClothingLevel float_of_string (clothingLevel_ i))
    as [[[c8 clo] cm] w8].
  destruct (matchComfortLengths _ _ _ _ _ _ _ _ _ _ _ _ _)
    as [[[[[[[[[c9 cl'] rt'] ws'] mr'] clo'] ex] n2] w9] | e];
    [| discriminate].
  cbn [bind].
  destruct (checkComfortPar float_of_string (comfortPar_ i))
    as [[[[c10 eighty] up] low] w10].
  destruct (checkStatement separateList exec _ i) as [[c11 st] | e];
    [| discriminate].
  cbn [bind].
  destruct (checkPassiveStrategy (passiveStrategy_ i)) as [c12 w12].
  destruct (checkAnalysisPeriod (analysisPeriod_ i) _ cl') as [c13 w13].
  rewrite averagePressure_repeat_int. cbn [bind].
  destruct (bound ex) as [ex' | e]; [| discriminate]. cbn [bind].
  destruct (bound n2) as [n2' | e]; [| discriminate]. cbn [bind].
  intros E. injection E as <-. cbn [avgBarPress barPress].
  split; [reflexivity | exists k; reflexivity].
Qed.

End InputFacts.

Lemma temperature_list_is_judged_by_its_last_item_witness :
  CheckTheInputs.checkDryBulbTemperature
    Examples.float_of_string ([PInt 20; PStr "warm"] ++ [PInt 25])
  = (true, [PFloat 20; PFloat 25], true, false, [], []).
Proof.
  apply (temperature_list_is_judged_by_its_last_item
           Examples.float_of_string [PInt 20; PStr "warm"] (PInt 25)).
  reflexivity.
Defined.

Lemma humidity_list_needs_its_numbers_in_range_and_a_number_last_witness :
  CheckTheInputs.checkRelativeHumidity
    Examples.float_of_string false [] [PInt 50; PInt 120; PInt 60]
  = (false, [PFloat 50; PFloat 60], true, false, [],
     ["_relativeHumidity input does not contain valid value."]).
Proof.
  apply (humidity_list_needs_its_numbers_in_range_and_a_number_last
           Examples.float_of_string false [] [PInt 50; PInt 120; PInt 60]).
  - discriminate.
  - reflexivity.
Defined.

Lemma wind_and_clothing_need_their_numbers_in_range_and_a_number_last_witness :
  InputReading.checkOf
    (CheckTheInputs.checkWindSpeed Examples.float_of_string
                                   [PStr "calm"; PInt 2]) = true
  /\ InputReading.valuesOf
       (CheckTheInputs.checkWindSpeed Examples.float_of_string
                                      [PStr "calm"; PInt 2]) = [PFloat 2]
  /\ InputReading.checkOf
       (CheckTheInputs.checkClothingLevel Examples.float_of_string
                                          [PStr "calm"; PInt 2]) = true
  /\ InputReading.valuesOf
       (CheckTheInputs.checkClothingLevel Examples.float_of_string
                                          [PStr "calm"; PInt 2]) = [PFloat 2].
Proof.
  apply (wind_and_clothing_need_their_numbers_in_range_and_a_number_last
           Examples.float_of_string [PStr "calm"; PInt 2]).
  discriminate.
Defined.

Lemma metabolic_rate_needs_one_value_and_no_number_out_of_range_witness :
  InputReading.checkOf
    (CheckTheInputs.checkMetabolicRate Examples.float_of_string
                                       [PStr "Sitting"; PStr "Typing"]) = true
  /\ Forall (InputReading.numberWithin (5 # 10) (Some 10%Q))
            (InputReading.valuesOf
               (CheckTheInputs.checkMetabolicRate Examples.float_of_string
                                                  [PStr "Sitting"; PStr "Typing"])).
Proof.
  apply (metabolic_rate_needs_one_value_and_no_number_out_of_range
           Examples.float_of_string [PStr "Sitting"; PStr "Typing"]).
  discriminate.
Defined.


Lemma accepted_comfort_lists_share_one_length_witness :
  exists r,
    CheckTheInputs.checkTheInputs Examples.float_of_string Examples.separateList
                                  Fragment.exec InputExamples.twoHours = Ok r
    /\ 1 <= CheckTheInputs.calcLength2 r
    /\ CheckTheInputs.exWork r
       = repeat (PInt 0) (Z.to_nat (CheckTheInputs.calcLength2 r))
    /\ len (CheckTheInputs.radTemp r) = CheckTheInputs.calcLength2 r
    /\ len (CheckTheInputs.windSpeed r) = CheckTheInputs.calcLength2 r
    /\ len (CheckTheInputs.metRate r) = CheckTheInputs.calcLength2 r
    /\ len (CheckTheInputs.cloLevel r) = CheckTheInputs.calcLength2 r.
Proof.
  eexists. split; [vm_compute; reflexivity |].
  apply (accepted_comfort_lists_share_one_length
           Examples.float_of_string Examples.separateList Fragment.exec
           InputExamples.twoHours); vm_compute; reflexivity.
Defined.

Lemma accepted_comfort_values_lie_in_their_ranges_witness :
  exists r,
    CheckTheInputs.checkTheInputs Examples.float_of_string Examples.separateList
                                  Fragment.exec InputExamples.twoHours = Ok r
    /\ Forall (InputReading.numberWithin 0 None) (CheckTheInputs.windSpeed r)
    /\ Forall (InputReading.numberWithin (5 # 10) (Some 10%Q))
              (CheckTheInputs.metRate r)
    /\ Forall (InputReading.numberWithin 0 (Some 5%Q)) (CheckTheInputs.cloLevel r).
Proof.
  eexists. split; [vm_compute; reflexivity |].
  apply (accepted_comfort_values_lie_in_their_ranges
           Examples.float_of_string Examples.separateList Fragment.exec
           InputExamples.twoHours); vm_compute; reflexivity.
Defined.

Lemma comfort_lists_of_different_lengths_end_in_an_exception_witness :
  (exists e,
      CheckTheInputs.checkTheInputs Examples.float_of_string Examples.separateList
                                    Fragment.exec InputExamples.twoAgainstThree
      = Raise e)
  /\ CheckTheInputs.checkTheInputs Examples.float_of_string Examples.separateList
                                   Fragment.exec InputExamples.twoAgainstThree
     = Raise NameError.
Proof.
  split; [| vm_compute; reflexivity].
  apply (comfort_lists_of_different_lengths_end_in_an_exception
           Examples.float_of_string Examples.separateList Fragment.exec
           InputExamples.twoAgainstThree); vm_compute; reflexivity.
Defined.

Lemma unconnected_pressure_is_sea_level_throughout_witness :
  exists r,
    CheckTheInputs.checkTheInputs Examples.float_of_string Examples.separateList
                                  Fragment.exec InputExamples.twoHours = Ok r
    /\ CheckTheInputs.avgBarPress r = Some (PInt 101325)
    /\ exists k, CheckTheInputs.barPress r = repeat (PInt 101325) (S k).
Proof.
  eexists. split; [vm_compute; reflexivity |].
  apply (unconnected_pressure_is_sea_level_throughout
           Examples.float_of_string Examples.separateList Fragment.exec
           InputExamples.twoHours); vm_compute; reflexivity.
Defined.

(** ** How main selects the data *)

Section MainFacts.

Import PsychChartMain SelectionReading.

(** The piece that [chunks] cuts at step [k], for pieces of [N] entries. *)
Lemma chunks_pieces (l : list obj) (N : nat) :
  (0 < N)%nat ->
  chunks l (Z.of_nat N)
  = map (fun k => skipn (k * N) (firstn (k * N + N) l))
        (seq 0 ((List.length l + N - 1) / N)).
Proof.
  intros HN. unfold chunks, range3, len, slice. rewrite map_map.
  replace (Z.of_nat (List.length l) - 0 + Z.of_nat N - 1)
    with (Z.of_nat (List.length l + N - 1)) by lia.
  rewrite <- Nat2Z.inj_div, Nat2Z.id.
  apply map_ext. intros k. f_equal; [| f_equal]; lia.
Qed.

Lemma firstn_more (l : list obj) (a b : nat) :
  firstn a l ++ skipn a (firstn (a + b) l) = firstn (a + b) l.
Proof.
  rewrite <- (firstn_skipn a (firstn (a + b) l)) at 2.
  rewrite firstn_firstn. f_equal. f_equal. lia.
Qed.

Lemma concat_pieces (l : list obj) (N m : nat) :
  List.concat (map (fun k => skipn (k * N) (firstn (k * N + N) l)) (seq 0 m))
  = firstn (m * N) l.
Proof.
  induction m as [| m IH]; [reflexivity |].
  rewrite seq_S, map_app, concat_app, IH. cbn [map List.concat Nat.add].
  rewrite app_nil_r, firstn_more. f_equal. lia.
Qed.

Lemma pieces_cover (L N : nat) : (0 < N)%nat -> (L <= (L + N - 1) / N * N)%nat.
Proof.
  intros HN. pose proof (Nat.div_mod_eq (L + N - 1) N) as D.
  pose proof (Nat.mod_upper_bound (L + N - 1) N) as U. nia.
Qed.

Lemma pieces_begin (L N k : nat) :
  (0 < N)%nat -> (k < (L + N - 1) / N)%nat -> (k * N < L)%nat.
Proof.
  intros HN Hk. pose proof (Nat.div_mod_eq (L + N - 1) N) as D.
  pose proof (Nat.mod_upper_bound (L + N - 1) N) as U. nia.
Qed.

Lemma pieces_full_lists (ls : list (list obj)) (N : nat) :
  (0 < N)%nat ->
  Forall (fun l => List.length l = N) ls ->
  map (fun k => skipn (k * N) (firstn (k * N + N) (List.concat ls)))
      (seq 0 ((List.length (List.concat ls) + N - 1) / N))
  = ls.
Proof.
  intros HN H. induction H as [| x ls Hx _ IH]; cbn [List.concat].
  - cbn [List.length Nat.add]. rewrite Nat.div_small by lia. reflexivity.
  - rewrite length_app, Hx.
    replace (N + List.length (List.concat ls) + N - 1)%nat
      with (1 * N + (List.length (List.concat ls) + N - 1))%nat by lia.
    rewrite Nat.div_add_l by lia. cbn [Nat.add seq map].
    f_equal.
    + cbn [Nat.mul Nat.add skipn]. rewrite firstn_app, Hx, Nat.sub_diag.
      cbn [firstn]. rewrite app_nil_r. apply firstn_all2. lia.
    + rewrite <- seq_shift, map_map. rewrite <- IH at 2.
      apply map_ext. intros k.
      replace (S k * N + N)%nat with (N + (k * N + N))%nat by lia.
      rewrite firstn_app, Hx.
      rewrite (firstn_all2 (n := N + (k * N + N))) by lia.
      replace (N + (k * N + N) - N)%nat with (k * N + N)%nat by lia.
      replace (S k * N)%nat with (N + k * N)%nat by lia.
      rewrite skipn_app, Hx.
      rewrite (skipn_all2 (n := N + k * N)) by lia.
      cbn [app]. f_equal. lia.
Qed.

(** X10.  [chunks] cuts the annual data into consecutive pieces of 8767
    entries: joined again the pieces give the data back, none of them is
    empty and none is longer than 8767. *)
Theorem annual_data_are_cut_into_pieces_of_8767 :
  forall l : list obj,
    List.concat (chunks l 8767) = l
    /\ Forall (fun piece => 1 <= len piece <= 8767) (chunks l 8767).
Proof.
  intros l. set (N := Z.to_nat 8767).
  assert (HN : (0 < N)%nat) by (unfold N; lia).
  replace 8767 with (Z.of_nat N) by (unfold N; lia).
  rewrite chunks_pieces by exact HN. split.
  - rewrite concat_pieces. apply firstn_all2, pieces_cover, HN.
  - apply Forall_forall. intros piece Hp.
    apply in_map_iff in Hp as (k & <- & Hk). apply in_seq in Hk.
    pose proof (pieces_begin (List.length l) N k HN ltac:(lia)) as B.
    unfold len. rewrite length_skipn, length_firstn. lia.
Qed.

(** X11.  Annual data that are whole Ladybug lists, 7 header entries and
    8760 values each, are split back into exactly those lists, and the
    headers kept beside them are their first 7 entries. *)
Theorem whole_annual_lists_are_split_back :
  forall (first : list obj) (others : list (list obj)),
    Forall (fun l => len l = 8767) (first :: others) ->
    splitAnnualData (List.concat (first :: others))
    = (first :: others, map (fun l => slice l 0 7) (first :: others)).
Proof.
  intros first others H. unfold splitAnnualData.
  set (N := Z.to_nat 8767).
  assert (HN : (0 < N)%nat) by (unfold N; lia).
  assert (H' : Forall (fun l : list obj => List.length l = N) (first :: others)).
  { eapply Forall_impl; [| exact H]. unfold len, N. intros a Ha. cbv beta in Ha. lia. }
  assert (E : negb (len (List.concat (first :: others)) =? 0) = true).
  { apply negb_true_iff, Z.eqb_neq. unfold len. cbn [List.concat].
    rewrite length_app. inversion H' as [| ? ? Hf _]. rewrite Hf. lia. }
  rewrite E. replace 8767 with (Z.of_nat N) by (unfold N; lia).
  rewrite chunks_pieces by exact HN.
  rewrite (pieces_full_lists (first :: others) N HN H').
  destruct first as [| x first'].
  - inversion H' as [| ? ? Hf _]. cbn in Hf. lia.
  - reflexivity.
Qed.

Lemma getitem_middle {A : Type} (pre post : list A) (x : A) :
  getitem (pre ++ x :: post) (Z.of_nat (List.length pre)) = Ok x.
Proof.
  apply getitem_nth. rewrite nth_error_app2 by lia.
  rewrite Nat.sub_diag. reflexivity.
Qed.

Lemma setitem_middle {A : Type} (pre post : list A) (x v : A) :
  setitem (pre ++ x :: post) (Z.of_nat (List.length pre)) v
  = Ok (pre ++ v :: post).
Proof.
  rewrite setitem_at.
  - rewrite Nat2Z.id, update_middle. reflexivity.
  - unfold len. rewrite length_app. cbn [List.length]. lia.
Qed.

Lemma appendEach_spec (count : nat) (d : obj) :
  forall (sources targets sourcesDone targetsDone : list (list obj)),
    List.length sourcesDone = List.length targetsDone ->
    List.length sources = List.length targets ->
    Forall (fun source => (count < List.length source)%nat) sources ->
    appendEach (sourcesDone ++ sources) (targetsDone ++ targets) (Z.of_nat count)
               (map Z.of_nat (seq (List.length targetsDone) (List.length targets)))
    = Ok (targetsDone
          ++ map (fun '(target, source) => target ++ [nth count source d])
                 (combine targets sources)).
Proof.
  induction sources as [| source sources IH];
    intros [| target targets] sourcesDone targetsDone Hd Hl Hc;
    try discriminate.
  - reflexivity.
  - cbn [List.length seq map appendEach combine].
    rewrite getitem_middle. cbn [bind]. rewrite <- Hd, getitem_middle.
    cbn [bind]. inversion Hc as [| ? ? Hs Hc']; subst.
    rewrite (getitem_at source (Z.of_nat count) d) by (unfold len; lia).
    cbn [bind]. rewrite Nat2Z.id, Hd, setitem_middle. cbn [bind].
    specialize (IH targets (sourcesDone ++ [source])
                   (targetsDone ++ [target ++ [nth count source d]])).
    rewrite !length_app in IH. cbn [List.length] in IH.
    rewrite <- !app_assoc in IH. cbn [app] in IH.
    replace (List.length targetsDone + 1)%nat
      with (S (List.length targetsDone)) in IH by lia.
    rewrite IH; [reflexivity | lia | | exact Hc'].
    cbn [List.length] in Hl. lia.
Qed.

Lemma combine_map_left {A B : Type} (F : A * B -> A) (la : list A) (lb : list B) :
  combine (map F (combine la lb)) lb
  = map (fun ab => (F ab, snd ab)) (combine la lb).
Proof.
  revert lb. induction la as [| a la IH]; intros [| b lb]; cbn; try reflexivity.
  rewrite IH. reflexivity.
Qed.

Lemma map_combine_ext {A B C : Type} (f g : A * B -> C) (P : B -> Prop)
      (la : list A) (lb : list B) :
  Forall P lb ->
  (forall a b, P b -> f (a, b) = g (a, b)) ->
  map f (combine la lb) = map g (combine la lb).
Proof.
  intros H E. revert la. induction H as [| b lb Hb _ IH]; intros [| a la];
    cbn; try reflexivity.
  rewrite (E a b Hb), IH. reflexivity.
Qed.

Lemma picked_hour (bool : obj) (rest data : list obj) (k : nat) (d : obj) :
  (k < List.length data)%nat ->
  picked (bool :: rest) (skipn k data)
  = if obj_eqb bool (PBool true)
    then nth k data d :: picked rest (skipn (S k) data)
    else picked rest (skipn (S k) data).
Proof.
  intros H. rewrite (skipn_cons_nth data k d) by exact H. reflexivity.
Qed.

Lemma selectHours_spec (airTemp relHumid barPress : list obj)
      (annualHourlyDataSplit : list (list obj)) :
  forall (patternList : list obj) (k : nat)
         (newAirTemp newRelHumid newBarPress : list obj)
         (newSplit : list (list obj)),
    (k + List.length patternList)%nat = List.length airTemp ->
    (k + List.length patternList)%nat = List.length relHumid ->
    (k + List.length patternList)%nat = List.length barPress ->
    Forall (fun l => (k + List.length patternList)%nat = List.length l)
           annualHourlyDataSplit ->
    List.length newSplit = List.length annualHourlyDataSplit ->
    selectHours airTemp relHumid barPress annualHourlyDataSplit
                (Z.of_nat k) patternList
                (newAirTemp, newRelHumid, newBarPress, newSplit)
    = Ok (newAirTemp ++ picked patternList (skipn k airTemp),
          newRelHumid ++ picked patternList (skipn k relHumid),
          newBarPress ++ picked patternList (skipn k barPress),
          map (fun '(new, l) => new ++ picked patternList (skipn k l))
              (combine newSplit annualHourlyDataSplit)).
Proof.
  induction patternList as [| bool rest IH];
    intros k newAirTemp newRelHumid newBarPress newSplit Ha Hh Hp Hs Hn.
  - cbn [selectHours picked]. rewrite !app_nil_r. do 2 f_equal.
    clear - Hn. revert annualHourlyDataSplit Hn.
    induction newSplit as [| new newSplit IH]; intros [| l ls] Hn;
      try discriminate; [reflexivity |].
    cbn. rewrite app_nil_r. f_equal. apply IH. cbn in Hn. lia.
  - cbn [List.length] in Ha, Hh, Hp, Hs.
    assert (Hs' : Forall (fun l => (S k + List.length rest)%nat = List.length l)
                         annualHourlyDataSplit).
    { eapply Forall_impl; [| exact Hs]. cbv beta. intros; lia. }
    assert (Hk : Forall (fun l : list obj => (k < List.length l)%nat)
                        annualHourlyDataSplit).
    { eapply Forall_impl; [| exact Hs]. cbv beta. intros; lia. }
    cbn [selectHours].
    rewrite (picked_hour bool rest airTemp k (PInt 0)) by lia.
    rewrite (picked_hour bool rest relHumid k (PInt 0)) by lia.
    rewrite (picked_hour bool rest barPress k (PInt 0)) by lia.
    destruct (obj_eqb bool (PBool true)) eqn:B.
    + rewrite (getitem_at airTemp (Z.of_nat k) (PInt 0)) by (unfold len; lia).
      rewrite (getitem_at relHumid (Z.of_nat k) (PInt 0)) by (unfold len; lia).
      rewrite (getitem_at barPress (Z.of_nat k) (PInt 0)) by (unfold len; lia).
      cbn [bind]. rewrite Nat2Z.id.
      unfold range, len. rewrite Nat2Z.id, <- Hn.
      pose proof (appendEach_spec k (PInt 0) annualHourlyDataSplit newSplit [] []
                                  eq_refl (eq_sym Hn) Hk) as AE.
      cbn [app List.length] in AE. rewrite AE. clear AE.
      cbn [bind app].
      replace (Z.of_nat k + 1) with (Z.of_nat (S k)) by lia.
      rewrite IH; try lia; try exact Hs'.
      * rewrite <- !app_assoc. cbn [app]. do 2 f_equal.
        rewrite combine_map_left, map_map.
        apply (map_combine_ext _ _ (fun l => (k < List.length l)%nat));
          [exact Hk |].
        intros new l Hl. cbn [fst snd].
        rewrite (picked_hour bool rest l k (PInt 0)) by exact Hl.
        rewrite B, <- app_assoc. reflexivity.
      * rewrite length_map, length_combine. lia.
    + cbn [bind].
      replace (Z.of_nat k + 1) with (Z.of_nat (S k)) by lia.
      rewrite IH; try lia; try exact Hs'.
      do 2 f_equal.
      apply (map_combine_ext _ _ (fun l => (k < List.length l)%nat));
        [exact Hk |].
      intros new l Hl.
      rewrite (picked_hour bool rest l k (PInt 0)) by exact Hl.
      rewrite B. reflexivity.
Qed.

(** X12.  Under a conditional statement, when the temperatures, the
    humidities, the pressures and every list of annual data have one entry
    per entry of the pattern, [main] keeps of each list exactly the entries
    at the hours where the pattern equals [True], in order: the lists stay
    aligned hour by hour. *)
Theorem pattern_keeps_the_same_hours_of_every_list :
  forall (patternList airTemp relHumid barPress : list obj)
         (annualHourlyDataSplit : list (list obj)),
    patternList <> [] ->
    len airTemp = len patternList ->
    len relHumid = len patternList ->
    len barPress = len patternList ->
    Forall (fun l => len l = len patternList) annualHourlyDataSplit ->
    selectByPattern patternList airTemp relHumid barPress annualHourlyDataSplit
    = Ok (picked patternList airTemp,
          picked patternList relHumid,
          picked patternList barPress,
          map (picked patternList) annualHourlyDataSplit).
Proof.
  intros patternList airTemp relHumid barPress split Hne Ha Hh Hp Hs.
  unfold selectByPattern.
  assert (N : negb (len patternList =? 0) = true).
  { destruct patternList; [contradiction |]. unfold len. cbn [List.length].
    apply negb_true_iff, Z.eqb_neq. lia. }
  rewrite N. unfold len in Ha, Hh, Hp.
  change 0 with (Z.of_nat 0).
  rewrite selectHours_spec; try (cbn [Nat.add]; lia).
  - cbn [app skipn]. do 2 f_equal.
    clear. induction split as [| l ls IH]; [reflexivity |].
    cbn. rewrite IH. reflexivity.
  - eapply Forall_impl; [| exact Hs]. unfold len. cbv beta. intros; lia.
  - apply length_map.
Qed.

(** X13.  With an analysis period connected to EPW data of 8760 hours, a
    pattern of 8760 entries, which is what an accepted conditional statement
    leaves, takes [main] to line 1506, where the name [getHOYsBasedOnPeriod]
    is read and is bound nowhere: the selection does not return, and when
    the three selections before it succeed the exception is this
    [NameError]. *)
Theorem analysis_period_with_a_pattern_does_not_return :
  forall (selectHourlyData : list obj -> list obj -> result (list obj))
         (_dryBulbTemperature _relativeHumidity analysisPeriod_ : list obj)
         (airTemp relHumid barPress patternList : list obj)
         (annualHourlyDataSplit : list (list obj)),
    analysisPeriod_ <> [] ->
    len patternList = 8760 ->
    (exists e,
        selectPeriod selectHourlyData _dryBulbTemperature _relativeHumidity
                     analysisPeriod_ true (Some 8760)
                     airTemp relHumid barPress patternList annualHourlyDataSplit
        = Raise e)
    /\ forall airTemp' relHumid' barPress' : list obj,
        selected selectHourlyData _dryBulbTemperature analysisPeriod_ = Ok airTemp' ->
        selected selectHourlyData _relativeHumidity analysisPeriod_ = Ok relHumid' ->
        (if len barPress =? 8760
         then selected selectHourlyData barPress analysisPeriod_
         else firstPressureEach barPress (range (len airTemp')) []) = Ok barPress' ->
        selectPeriod selectHourlyData _dryBulbTemperature _relativeHumidity
                     analysisPeriod_ true (Some 8760)
                     airTemp relHumid barPress patternList annualHourlyDataSplit
        = Raise NameError.
Proof.
  intros selectHourlyData dbt rh ap airTemp relHumid barPress patternList split
         Hap Hp.
  unfold selectPeriod.
  assert (N : negb (len ap =? 0) = true).
  { destruct ap; [contradiction |]. unfold len. cbn [List.length].
    apply negb_true_iff, Z.eqb_neq. lia. }
  rewrite N, Hp. cbn [andb]. change (8760 =? 8760) with true. cbv iota.
  split.
  - destruct (selected selectHourlyData dbt ap) as [a | e];
      [| eexists; reflexivity].
    cbn [bind].
    destruct (selected selectHourlyData rh ap) as [h | e];
      [| eexists; reflexivity].
    cbn [bind].
    destruct (if len barPress =? 8760 then _ else _) as [p | e];
      [| eexists; reflexivity].
    cbn [bind]. eexists; reflexivity.
  - intros a h p Ea Eh Ep. rewrite Ea. cbn [bind]. rewrite Eh. cbn [bind].
    rewrite Ep. reflexivity.
Qed.

(** X14.  The seven header entries that [statisticallyAnalyzePolygons] puts
    in front of the comfort values of EPW data are taken off again before
    the points are coloured, provided the data's header opens with the
    Ladybug key: what is coloured is the list of comfort values itself, and
    nothing is coloured for fewer than two entries. *)
Theorem point_colours_come_from_the_comfort_values :
  forall (analysisPeriod_ : list obj) (epwData : bool) (epwStr : list obj)
         (title : result string) (comfBool : list Z) (row : list obj),
    PsychChart.insertHeader analysisPeriod_ epwData epwStr title comfBool = Ok row ->
    (epwData = true -> getitem epwStr 0 = Ok (PStr headerKey)) ->
    colouredValues row
    = Ok (if 1 <? len row then Some (map PInt comfBool) else None).
Proof.
  intros ap epwData epwStr title comfBool row E K.
  unfold PsychChart.insertHeader in E. unfold colouredValues.
  destruct epwData.
  - rewrite (K eq_refl) in E.
    destruct (if negb (len ap =? 0) then _ else _) as [[h5 h6] | e];
      [| discriminate].
    cbn [bind] in E.
    destruct (getitem epwStr 4) as [h4 | e]; [| discriminate]. cbn [bind] in E.
    destruct title as [name | e]; [| discriminate]. cbn [bind] in E.
    destruct (getitem epwStr 1) as [h1 | e]; [| discriminate]. cbn [bind] in E.
    injection E as <-.
    match goal with
    | |- context [1 <? len ?l] =>
        assert (L : (1 <? len l) = true)
          by (apply Z.ltb_lt; unfold len; cbn [List.length]; lia)
    end.
    rewrite L. unfold comfortValues.
    match goal with
    | |- context [getitem (?x :: ?t) 0] =>
        assert (G : getitem (x :: t) 0 = Ok x)
          by (apply (getitem_nth _ 0%nat); reflexivity)
    end.
    rewrite G. cbn [bind CheckTheInputs.strIs]. rewrite String.eqb_refl.
    cbn [bind]. unfold slice. cbn [List.length firstn].
    rewrite firstn_all. reflexivity.
  - injection E as <-.
    destruct (1 <? len (map PInt comfBool)) eqn:L; [| reflexivity].
    unfold comfortValues. destruct comfBool as [| z rest]; [discriminate |].
    cbn [map].
    assert (G : getitem (PInt z :: map PInt rest) 0 = Ok (PInt z))
      by (apply (getitem_nth _ 0%nat); reflexivity).
    rewrite G. reflexivity.
Qed.

End MainFacts.

Lemma whole_annual_lists_are_split_back_witness :
  PsychChartMain.splitAnnualData (List.concat [Examples.yearA; Examples.yearA])
  = ([Examples.yearA; Examples.yearA],
     map (fun l => slice l 0 7) [Examples.yearA; Examples.yearA]).
Proof.
  apply (whole_annual_lists_are_split_back Examples.yearA [Examples.yearA]).
  assert (L : len Examples.yearA = 8767).
  { unfold Examples.yearA, Examples.ladybugList, len.
    rewrite length_app, yearAValues_length. cbn [List.length]. lia. }
  repeat constructor; exact L.
Defined.

Lemma pattern_keeps_the_same_hours_of_every_list_witness :
  PsychChartMain.selectByPattern
    [PBool true; PBool false; PInt 1]
    [PFloat 20; PFloat 21; PFloat 22] [PFloat 50; PFloat 51; PFloat 52]
    [PInt 101325; PInt 101325; PInt 101325] [[PInt 7; PInt 8; PInt 9]]
  = Ok ([PFloat 20; PFloat 22], [PFloat 50; PFloat 52],
        [PInt 101325; PInt 101325], [[PInt 7; PInt 9]]).
Proof.
  apply (pattern_keeps_the_same_hours_of_every_list
           [PBool true; PBool false; PInt 1]
           [PFloat 20; PFloat 21; PFloat 22] [PFloat 50; PFloat 51; PFloat 52]
           [PInt 101325; PInt 101325; PInt 101325] [[PInt 7; PInt 8; PInt 9]]).
  - discriminate.
  - reflexivity.
  - reflexivity.
  - reflexivity.
  - repeat constructor.
Defined.

Lemma analysis_period_with_a_pattern_does_not_return_witness :
  PsychChartMain.selectPeriod (fun data _ => Ok data)
    Examples.epwHeader Examples.epwHeader
    [PTuple [1; 1; 1]; PTuple [1; 31; 24]] true (Some 8760)
    [] [] [PInt 101325] Examples.noHourSelected [[]]
  = Raise NameError.
Proof.
  assert (L : len Examples.noHourSelected = 8760).
  { unfold Examples.noHourSelected, len. rewrite length_map, range_length. lia. }
  destruct (analysis_period_with_a_pattern_does_not_return
              (fun data _ => Ok data) Examples.epwHeader Examples.epwHeader
              [PTuple [1; 1; 1]; PTuple [1; 31; 24]]
              [] [] [PInt 101325] Examples.noHourSelected [[]]) as [_ H].
  - discriminate.
  - exact L.
  - apply (H [] [] []); reflexivity.
Defined.

Lemma point_colours_come_from_the_comfort_values_witness :
  PsychChartMain.colouredValues
    [PStr PsychChartMain.headerKey; PStr "Somewhere";
     PStr "Comfortable Hours in All Polygons"; PStr "Boolean Value";
     PStr "Hourly"; PTuple [1; 1; 1]; PTuple [12; 31; 24]; PInt 1; PInt 0]
  = Ok (Some [PInt 1; PInt 0]).
Proof.
  apply (point_colours_come_from_the_comfort_values
           [] true Examples.epwHeader (Ok "Comfortable Hours in All Polygons")
           [1; 0]).
  - reflexivity.
  - intros _. reflexivity.
Defined.

(** ** The points of the comfort polygons *)

Section ComfortPointFacts.

Import PsychChartStrategies ComfortPolygons.

Variable calcComfRange : Q -> Q -> Q -> Q -> Q -> Q -> Q -> Q -> bool -> Q * Q.

Lemma lowerIntersect_below (previous : option BoundaryPoint) (count : Z)
      (downTemper : Q) :
  Qltb downTemper 50 = true ->
  lowerIntersect previous count downTemper = Some (upIntersect count downTemper).
Proof.
  intros H. unfold lowerIntersect, upIntersect. rewrite H.
  destruct (Qltb (-20) downTemper); reflexivity.
Qed.

(** One polygon whose three lower limits stay below 50. *)
Lemma humidityLoop_regular (r w m c e : Q) (eighty : bool)
      (previous : option BoundaryPoint) :
  (forall humidity, In humidity [0%Q; 50%Q; 100%Q] ->
      Qltb (snd (calcComfRange (r + 2)%Q (r - 2)%Q r w humidity m c e eighty)) 50
      = true) ->
  humidityLoop calcComfRange r w m c e eighty 0 [0%Q; 50%Q; 100%Q]
               ([], [], previous)
  = Ok (map (fun '(count, humidity) =>
               upIntersect count
                 (fst (calcComfRange (r + 2)%Q (r - 2)%Q r w humidity m c e eighty)))
            [(0, 0%Q); (1, 50%Q); (2, 100%Q)],
        map (fun '(count, humidity) =>
               upIntersect count
                 (snd (calcComfRange (r + 2)%Q (r - 2)%Q r w humidity m c e eighty)))
            [(0, 0%Q); (1, 50%Q); (2, 100%Q)],
        Some (upIntersect 2
                (snd (calcComfRange (r + 2)%Q (r - 2)%Q r w 100%Q m c e eighty)))).
Proof.
  intros H.
  pose proof (H 0%Q (or_introl eq_refl)) as H0.
  pose proof (H 50%Q (or_intror (or_introl eq_refl))) as H50.
  pose proof (H 100%Q (or_intror (or_intror (or_introl eq_refl)))) as H100.
  cbn [humidityLoop map].
  destruct (calcComfRange (r + 2)%Q (r - 2)%Q r w 0%Q m c e eighty) as [u0 d0].
  destruct (calcComfRange (r + 2)%Q (r - 2)%Q r w 50%Q m c e eighty) as [u1 d1].
  destruct (calcComfRange (r + 2)%Q (r - 2)%Q r w 100%Q m c e eighty) as [u2 d2].
  cbn [snd fst] in *.
  rewrite (lowerIntersect_below _ _ _ H0). cbn [bind].
  rewrite (lowerIntersect_below _ _ _ H50). cbn [bind].
  rewrite (lowerIntersect_below _ _ _ H100). cbn [bind].
  reflexivity.
Qed.

Lemma indexLoop_regular (radTemp windSpeed metRate cloLevel exWork : list Q)
      (eighty : bool) (n : nat) :
  (n <= List.length radTemp)%nat -> (n <= List.length windSpeed)%nat ->
  (n <= List.length metRate)%nat -> (n <= List.length cloLevel)%nat ->
  (n <= List.length exWork)%nat ->
  (forall index humidity,
      (index < n)%nat -> In humidity [0%Q; 50%Q; 100%Q] ->
      Qltb (snd (limits calcComfRange radTemp windSpeed metRate cloLevel exWork
                        eighty index humidity)) 50 = true) ->
  forall (k first : nat) (done : list (list BoundaryPoint * list BoundaryPoint))
         (previous : option BoundaryPoint),
    (first + k = n)%nat ->
    indexLoop calcComfRange radTemp windSpeed metRate cloLevel exWork eighty
              (map Z.of_nat (seq first k)) (done, previous)
    = Ok (done ++ map (regularPoints calcComfRange radTemp windSpeed metRate cloLevel exWork eighty)
                      (seq first k)).
Proof.
  intros Lr Lw Lm Lc Le H.
  induction k as [| k IH]; intros first done previous Hk.
  - cbn. rewrite app_nil_r. reflexivity.
  - cbn [seq map indexLoop].
    rewrite (getitem_at radTemp (Z.of_nat first) 0%Q) by (unfold len; lia).
    rewrite (getitem_at windSpeed (Z.of_nat first) 0%Q) by (unfold len; lia).
    rewrite (getitem_at metRate (Z.of_nat first) 0%Q) by (unfold len; lia).
    rewrite (getitem_at cloLevel (Z.of_nat first) 0%Q) by (unfold len; lia).
    rewrite (getitem_at exWork (Z.of_nat first) 0%Q) by (unfold len; lia).
    cbn [bind]. rewrite Nat2Z.id.
    rewrite humidityLoop_regular
      by (intros humidity Hh; apply (H first humidity); [lia | exact Hh]).
    cbn [bind]. rewrite IH by lia.
    rewrite <- app_assoc. reflexivity.
Qed.

(** X15.  When every lower limit of comfort stays below 50 and the five
    lists hold a value for every index below [calcLengthComf], the points of
    the comfort polygons are computed without an exception: for each index
    three points of the upper limit and three of the lower limit, on the
    humidity lines 0, 1 and 2 for the relative humidities 0, 50 and 100,
    each at its limit's temperature or clamped to the ends of the line. *)
Theorem comfort_polygons_take_three_points_for_each_limit :
  forall (radTemp windSpeed metRate cloLevel exWork : list Q)
         (calcLengthComf : Z) (eighty : bool),
    calcLengthComf <= len radTemp -> calcLengthComf <= len windSpeed ->
    calcLengthComf <= len metRate -> calcLengthComf <= len cloLevel ->
    calcLengthComf <= len exWork ->
    (forall index humidity,
        (index < Z.to_nat calcLengthComf)%nat ->
        In humidity [0%Q; 50%Q; 100%Q] ->
        Qltb (snd (limits calcComfRange radTemp windSpeed metRate cloLevel exWork
                          eighty index humidity)) 50 = true) ->
    comfPolyLinePts calcComfRange radTemp windSpeed metRate cloLevel exWork
                    calcLengthComf eighty
    = Ok (map (regularPoints calcComfRange radTemp windSpeed metRate cloLevel exWork eighty)
              (seq 0 (Z.to_nat calcLengthComf))).
Proof.
  intros radTemp windSpeed metRate cloLevel exWork n eighty Lr Lw Lm Lc Le H.
  unfold comfPolyLinePts, range, len in *.
  rewrite (indexLoop_regular radTemp windSpeed metRate cloLevel exWork eighty
                             (Z.to_nat n)); try lia; [reflexivity | exact H].
Qed.

(** X16.  A lower limit of comfort of 50 or more is not handled: line 870
    assigns [upIntersect] where [downIntersect] is meant.  When it happens
    at the first humidity of the first index, [downIntersect] is still
    unbound and the function ends in a [NameError]. *)
Theorem first_lower_limit_of_fifty_or_more_raises :
  forall (radTemp windSpeed metRate cloLevel exWork : list Q)
         (calcLengthComf : Z) (eighty : bool),
    0 < calcLengthComf ->
    0 < len radTemp -> 0 < len windSpeed -> 0 < len metRate ->
    0 < len cloLevel -> 0 < len exWork ->
    Qltb (snd (limits calcComfRange radTemp windSpeed metRate cloLevel exWork
                      eighty 0 0%Q)) 50 = false ->
    comfPolyLinePts calcComfRange radTemp windSpeed metRate cloLevel exWork
                    calcLengthComf eighty
    = Raise NameError.
Proof.
  intros radTemp windSpeed metRate cloLevel exWork n eighty Hn Lr Lw Lm Lc Le H.
  unfold comfPolyLinePts, range.
  destruct (Z.to_nat n) as [| k] eqn:E; [lia |].
  cbn [seq map indexLoop]. change (Z.of_nat 0) with 0.
  rewrite (getitem_at radTemp 0 0%Q) by lia.
  rewrite (getitem_at windSpeed 0 0%Q) by lia.
  rewrite (getitem_at metRate 0 0%Q) by lia.
  rewrite (getitem_at cloLevel 0 0%Q) by lia.
  rewrite (getitem_at exWork 0 0%Q) by lia.
  cbn [bind humidityLoop]. unfold limits in H. change (Z.to_nat 0) with 0%nat.
  destruct (calcComfRange _ _ _ _ 0%Q _ _ _ _) as [u0 d0].
  cbn [snd] in H. unfold lowerIntersect. rewrite H. reflexivity.
Qed.

(** X17.  Later in the loop the same slip leaves the point of the turn
    before in [downIntersect]: when the lower limit is below 50 at humidity
    0 and 50 or more at humidity 50, the second lower point of the polygon
    is its first lower point once more, a point of humidity line 0. *)
Theorem later_lower_limit_of_fifty_or_more_repeats_a_point :
  forall (r w m c e : Q) (eighty : bool) (previous : option BoundaryPoint),
    Qltb (snd (calcComfRange (r + 2)%Q (r - 2)%Q r w 0%Q m c e eighty)) 50 = true ->
    Qltb (snd (calcComfRange (r + 2)%Q (r - 2)%Q r w 50%Q m c e eighty)) 50 = false ->
    exists upTemperPts third last,
      humidityLoop calcComfRange r w m c e eighty 0 [0%Q; 50%Q; 100%Q]
                   ([], [], previous)
      = Ok (upTemperPts,
            [upIntersect 0
               (snd (calcComfRange (r + 2)%Q (r - 2)%Q r w 0%Q m c e eighty));
             upIntersect 0
               (snd (calcComfRange (r + 2)%Q (r - 2)%Q r w 0%Q m c e eighty));
             third],
            last).
Proof.
  intros r w m c e eighty previous H0 H50. cbn [humidityLoop].
  destruct (calcComfRange (r + 2)%Q (r - 2)%Q r w 0%Q m c e eighty) as [u0 d0].
  destruct (calcComfRange (r + 2)%Q (r - 2)%Q r w 50%Q m c e eighty) as [u1 d1].
  destruct (calcComfRange (r + 2)%Q (r - 2)%Q r w 100%Q m c e eighty) as [u2 d2].
  cbn [snd] in *.
  rewrite (lowerIntersect_below _ _ _ H0). cbn [bind].
  assert (S1 : lowerIntersect (Some (upIntersect 0 d0)) (0 + 1) d1
               = Some (upIntersect 0 d0))
    by (unfold lowerIntersect; rewrite H50; reflexivity).
  rewrite !S1. cbn [bind].
  destruct (lowerIntersect (Some (upIntersect 0 d0)) (0 + 1 + 1) d2)
    as [p |] eqn:L.
  - cbn [bind app]. do 3 eexists. reflexivity.
  - unfold lowerIntersect in L.
    destruct (Qltb d2 50); [destruct (Qltb (-20) d2) |]; discriminate.
Qed.

End ComfortPointFacts.

Lemma comfort_polygons_take_three_points_for_each_limit_witness :
  ComfortPolygons.comfPolyLinePts Examples.calcComfRange
    [23%Q; 60%Q] [5 # 100; 5 # 100] [1%Q; 1%Q] [1%Q; 1%Q] [0%Q; 0%Q] 1 false
  = Ok (map (ComfortPolygons.regularPoints Examples.calcComfRange
               [23%Q; 60%Q] [5 # 100; 5 # 100] [1%Q; 1%Q] [1%Q; 1%Q] [0%Q; 0%Q]
               false)
            (seq 0 (Z.to_nat 1))).
Proof.
  apply (comfort_polygons_take_three_points_for_each_limit
           Examples.calcComfRange
           [23%Q; 60%Q] [5 # 100; 5 # 100] [1%Q; 1%Q] [1%Q; 1%Q] [0%Q; 0%Q]
           1 false); try (unfold len; cbn [List.length]; lia).
  intros [| index] humidity Hi Hh; [| cbn in Hi; lia]. reflexivity.
Defined.

Lemma first_lower_limit_of_fifty_or_more_raises_witness :
  ComfortPolygons.comfPolyLinePts Examples.calcComfRange
    [60%Q] [5 # 100] [1%Q] [1%Q] [0%Q] 1 false
  = Raise NameError.
Proof.
  apply (first_lower_limit_of_fifty_or_more_raises
           Examples.calcComfRange [60%Q] [5 # 100] [1%Q] [1%Q] [0%Q] 1 false);
    try (unfold len; cbn [List.length]; lia).
  reflexivity.
Defined.

Lemma later_lower_limit_of_fifty_or_more_repeats_a_point_witness :
  exists upTemperPts third last,
    ComfortPolygons.humidityLoop
      (fun up down radTemp windSpeed relHumid metRate cloLevel exWork eighty =>
         ((radTemp + 2)%Q, (radTemp - 2 + relHumid)%Q))
      23 (5 # 100) 1 1 0 false 0 [0%Q; 50%Q; 100%Q] ([], [], None)
    = Ok (upTemperPts,
          [PsychChartStrategies.upIntersect 0 (23 - 2 + 0)%Q;
           PsychChartStrategies.upIntersect 0 (23 - 2 + 0)%Q;
           third],
          last).
Proof.
  apply (later_lower_limit_of_fifty_or_more_repeats_a_point
           (fun up down radTemp windSpeed relHumid metRate cloLevel exWork eighty =>
              ((radTemp + 2)%Q, (radTemp - 2 + relHumid)%Q))
           23 (5 # 100) 1 1 0 false None); reflexivity.
Defined.

(** ** Uniting curves that always unite *)

Section TournamentFacts.

Import PsychChart.

Variable Curve : Type.
Variable CurveBooleanUnion : Curve -> Curve -> result (list Curve).

(** Every pair of curves unites into one curve. *)
Hypothesis unite : forall c0 c1, exists u, CurveBooleanUnion c0 c1 = Ok [u].

Lemma unionPair_alone (a : option (list Curve)) (c0 : Curve) :
  unionPair CurveBooleanUnion a c0 None = [c0].
Proof. reflexivity. Qed.

Lemma unionPair_united (a : option (list Curve)) (c0 c1 : Curve) :
  exists u, unionPair CurveBooleanUnion a c0 (Some c1) = [u].
Proof.
  destruct (unite c0 c1) as (u & E). exists u.
  unfold unionPair. cbn [bind]. rewrite E. reflexivity.
Qed.

Lemma unionLoop_halves (n : nat) :
  forall (curves res : list Curve) (a : option (list Curve)),
    (List.length curves <= n)%nat ->
    List.length (unionLoop CurveBooleanUnion a res curves)
    = (List.length res + (List.length curves + 1) / 2)%nat.
Proof.
  induction n as [| n IH]; intros curves res a Hn.
  - destruct curves; [| cbn in Hn; lia]. cbn. lia.
  - destruct curves as [| c0 [| c1 rest]].
    + cbn. lia.
    + cbn [unionLoop]. rewrite unionPair_alone, length_app. reflexivity.
    + cbn [unionLoop]. destruct (unionPair_united a c0 c1) as (u & ->).
      rewrite IH by (cbn in Hn; lia).
      rewrite length_app. cbn [List.length].
      replace (S (S (List.length rest)) + 1)%nat
        with (1 * 2 + (List.length rest + 1))%nat by lia.
      rewrite Nat.div_add_l by lia. lia.
Qed.

Lemma unionAllCurves_halves (curves : list Curve) :
  List.length (unionAllCurves CurveBooleanUnion curves)
  = ((List.length curves + 1) / 2)%nat.
Proof.
  unfold unionAllCurves.
  rewrite (unionLoop_halves (List.length curves)) by lia. reflexivity.
Qed.

Lemma tournament_to_one (passes : nat) :
  forall curves : list Curve,
    (1 <= List.length curves <= 2 ^ passes)%nat ->
    List.length (tournament CurveBooleanUnion passes curves) = 1%nat.
Proof.
  induction passes as [| passes IH]; intros curves H.
  - cbn in H. cbn. lia.
  - cbn [tournament]. unfold len.
    destruct (Z.ltb_spec 1 (Z.of_nat (List.length curves))) as [L | L]; [| lia].
    apply IH. rewrite unionAllCurves_halves.
    rewrite Nat.pow_succ_r' in H.
    pose proof (Nat.div_mod_eq (List.length curves + 1) 2) as D.
    pose proof (Nat.mod_upper_bound (List.length curves + 1) 2) as U.
    lia.
Qed.

Lemma passLimit_enough (n : nat) :
  (n <= 2 ^ passLimit (Z.of_nat n))%nat.
Proof.
  unfold passLimit.
  assert (E : Z.of_nat n / 2 = Z.of_nat (n / 2))
    by (rewrite Nat2Z.inj_div; reflexivity).
  rewrite E. replace (Z.to_nat (Z.of_nat (n / 2) + 1)) with (S (n / 2)) by lia.
  rewrite Nat.pow_succ_r'.
  pose proof (Nat.pow_gt_lin_r 2 (n / 2) ltac:(lia)) as P.
  pose proof (Nat.div_mod_eq n 2) as D.
  pose proof (Nat.mod_upper_bound n 2) as U. lia.
Qed.

(** X18.  When every pair of curves unites into one curve, the passes that
    the loop allows, half the number of curves and one more, are enough:
    merging the comfort curves, and uniting comfort and strategy curves,
    ends with exactly one curve. *)
Theorem curves_that_unite_end_as_one_curve :
  forall curves : list Curve,
    curves <> [] ->
    (exists c, fst (mergeComfortCurves CurveBooleanUnion true curves) = [c])
    /\ forall comfort strategies : list Curve,
        comfort ++ strategies = curves ->
        exists c,
          unionComfortAndStrategies CurveBooleanUnion comfort strategies = [c].
Proof.
  intros curves Hne.
  assert (One : forall l : list Curve,
             l <> [] ->
             exists c, (if 1 <? len l
                        then tournament CurveBooleanUnion (passLimit (len l)) l
                        else l) = [c]).
  { intros l Hl. unfold len.
    destruct (Z.ltb_spec 1 (Z.of_nat (List.length l))) as [L | L].
    - pose proof (tournament_to_one (passLimit (Z.of_nat (List.length l))) l) as T.
      pose proof (passLimit_enough (List.length l)) as P.
      destruct (tournament CurveBooleanUnion _ l) as [| c [| c' rest]];
        cbn in T; try lia. exists c. reflexivity.
    - destruct l as [| c [| c' rest]]; [contradiction | | cbn in L; lia].
      exists c. reflexivity. }
  split.
  - unfold mergeComfortCurves. rewrite andb_true_r.
    destruct (One curves Hne) as (c & E).
    destruct (1 <? len curves); cbn [fst]; exists c; exact E.
  - intros comfort strategies <-. unfold unionComfortAndStrategies.
    apply One, Hne.
Qed.

End TournamentFacts.

Lemma curves_that_unite_end_as_one_curve_witness :
  (exists c,
      fst (PsychChart.mergeComfortCurves (fun a b : nat => Ok [(a + b)%nat])
                                         true [1; 2; 3]%nat) = [c])
  /\ forall comfort strategies : list nat,
      comfort ++ strategies = [1; 2; 3]%nat ->
      exists c,
        PsychChart.unionComfortAndStrategies (fun a b : nat => Ok [(a + b)%nat])
                                             comfort strategies = [c].
Proof.
  apply (curves_that_unite_end_as_one_curve
           nat (fun a b => Ok [(a + b)%nat])).
  - intros c0 c1. exists (c0 + c1)%nat. reflexivity.
  - discriminate.
Defined.

(** ** Temperatures and humidities of different numbers *)

Section MeshLengthFacts.

Import PsychChart Histogram.

Lemma binHours_app (airTemp : list Q) (l1 l2 : list Q) :
  forall (first : Z) (g : MeshFrequency),
    binHours airTemp first (l1 ++ l2) g
    = (g' <- binHours airTemp first l1 g ;;
       binHours airTemp (first + len l1) l2 g').
Proof.
  induction l1 as [| humid rest IH]; intros first g.
  - cbn [app binHours bind]. unfold len. cbn [List.length].
    rewrite Z.add_0_r. reflexivity.
  - cbn [app binHours].
    destruct (getTempIndex airTemp first) as [tempIndex | e]; [| reflexivity].
    cbn [bind].
    destruct (if negb (tempIndex =? -1) then _ else _) as [g' | e];
      [| reflexivity].
    cbn [bind]. rewrite IH. unfold len. cbn [List.length].
    replace (first + 1 + Z.of_nat (List.length rest))
      with (first + Z.of_nat (S (List.length rest))) by lia.
    reflexivity.
Qed.

Lemma setitem_raises_IndexError {B : Type} (l : list B) (i : Z) (v : B) (e : exn) :
  setitem l i v = Raise e -> e = IndexError.
Proof.
  unfold setitem. destruct (index_of (List.length l) i) as [k | e'] eqn:E;
    [discriminate |].
  intros H. injection H as <-. unfold index_of in E.
  destruct ((_ <? 0) || _); [injection E as <-; reflexivity | discriminate].
Qed.

Lemma appendOne_raises_IndexError (g : MeshFrequency) (row col : Z) (e : exn) :
  appendOne g row col = Raise e -> e = IndexError.
Proof.
  unfold appendOne.
  destruct (getitem g row) as [humidlist | e1] eqn:G1; cbn [bind];
    [| intros H; injection H as <-; eapply getitem_raises_IndexError, G1].
  destruct (getitem humidlist col) as [templist | e2] eqn:G2; cbn [bind];
    [| intros H; injection H as <-; eapply getitem_raises_IndexError, G2].
  destruct (setitem humidlist col (templist ++ [1])) as [humidlist' | e3] eqn:S3;
    cbn [bind];
    [| intros H; injection H as <-; eapply setitem_raises_IndexError, S3].
  apply setitem_raises_IndexError.
Qed.

(** The loop over the hours raises nothing but [IndexError]. *)
Lemma binHours_raises_IndexError (airTemp relHumid : list Q) :
  forall (first : Z) (g : MeshFrequency) (e : exn),
    binHours airTemp first relHumid g = Raise e -> e = IndexError.
Proof.
  induction relHumid as [| humid rest IH]; intros first g e; [discriminate |].
  cbn [binHours]. unfold getTempIndex.
  destruct (getitem airTemp first) as [t | e1] eqn:G; cbn [bind];
    [| intros H; injection H as <-; eapply getitem_raises_IndexError, G].
  destruct (Qltb (-20) t && Qltb t 50); cbn [bind].
  - destruct (negb (_ =? -1)).
    + destruct (appendOne g (humidRow humid) _) as [g1 | e1] eqn:A; cbn [bind];
        [apply IH |].
      intros H. injection H as <-. eapply appendOne_raises_IndexError, A.
    + cbn [bind]. apply IH.
  - cbn [Z.eqb negb bind]. apply IH.
Qed.

(** The loop reads the temperatures of its hours only. *)
Lemma binHours_ext (airTemp airTemp' relHumid : list Q) :
  forall (first : Z) (g : MeshFrequency),
    (forall hour, first <= hour < first + len relHumid ->
                  getitem airTemp hour = getitem airTemp' hour) ->
    binHours airTemp first relHumid g = binHours airTemp' first relHumid g.
Proof.
  induction relHumid as [| humid rest IH]; intros first g H; [reflexivity |].
  assert (L : len (humid :: rest) = 1 + len rest)
    by (unfold len; cbn [List.length]; lia).
  assert (N : 0 <= len rest) by (unfold len; lia).
  cbn [binHours]. unfold getTempIndex. rewrite (H first) by lia.
  destruct (getitem airTemp' first) as [t | e]; [| reflexivity].
  cbn [bind].
  destruct (if Qltb (-20) t && Qltb t 50 then _ else _) as [tempIndex | e];
    [| reflexivity].
  cbn [bind].
  destruct (if negb (tempIndex =? -1) then _ else _) as [g1 | e];
    [| reflexivity].
  cbn [bind]. apply IH. intros hour Hh. apply H. lia.
Qed.

Lemma getitem_firstn (l : list Q) (n : nat) (hour : Z) :
  0 <= hour < Z.of_nat n -> (n <= List.length l)%nat ->
  getitem l hour = getitem (firstn n l) hour.
Proof.
  intros H Hn.
  rewrite (getitem_at l hour 0%Q) by (unfold len; lia).
  rewrite (getitem_at (firstn n l) hour 0%Q)
    by (unfold len; rewrite length_firstn; lia).
  rewrite nth_firstn.
  replace (Nat.ltb (Z.to_nat hour) n) with true
    by (symmetry; apply Nat.ltb_lt; lia).
  reflexivity.
Qed.

(** X19.  The mesh is filled hour by hour of the humidities.  With more
    humidities than temperatures the first hour without a temperature ends
    [colorMesh] in an [IndexError]; with fewer, the temperatures beyond the
    last humidity are never looked at. *)
Theorem mesh_follows_the_humidities :
  forall airTemp relHumid : list Q,
    ((List.length airTemp < List.length relHumid)%nat ->
     finalMeshFrequency airTemp relHumid = Raise IndexError)
    /\ ((List.length relHumid <= List.length airTemp)%nat ->
        finalMeshFrequency airTemp relHumid
        = finalMeshFrequency (firstn (List.length relHumid) airTemp) relHumid).
Proof.
  intros airTemp relHumid. split; intros H; unfold finalMeshFrequency.
  - rewrite <- (firstn_skipn (List.length airTemp) relHumid).
    rewrite binHours_app.
    destruct (binHours airTemp 0 (firstn (List.length airTemp) relHumid)
                       emptyMeshFrequency) as [g | e] eqn:E.
    + cbn [bind].
      destruct (skipn (List.length airTemp) relHumid) as [| humid rest] eqn:S.
      * apply (f_equal (@List.length Q)) in S. rewrite length_skipn in S.
        cbn in S. lia.
      * cbn [binHours]. unfold getTempIndex.
        rewrite getitem_outside; [reflexivity |].
        unfold len. rewrite length_firstn. lia.
    + apply binHours_raises_IndexError in E. subst e. reflexivity.
  - rewrite (binHours_ext airTemp (firstn (List.length relHumid) airTemp));
      [reflexivity |].
    intros hour Hh. apply getitem_firstn; [exact Hh | exact H].
Qed.

End MeshLengthFacts.

(** ** The 3D chart: the hours that meet the statement *)

Section HoursOfYearFacts.

Import Chart3DMain ConditionalReading.

Lemma hoursOfYear_from (patternList : list obj) :
  forall first : nat,
    let hours :=
      flat_map (fun '(hoy, pattern) =>
                  if CheckTheInputs.truthy pattern then [hoy + 1] else [])
               (combine (map Z.of_nat (seq first (List.length patternList)))
                        patternList) in
    StronglySorted Z.lt hours
    /\ forall h, In h hours <->
                 Z.of_nat first < h <= Z.of_nat first + len patternList
                 /\ exists pattern,
                     nth_error patternList (Z.to_nat (h - 1) - first)
                     = Some pattern
                     /\ CheckTheInputs.truthy pattern = true.
Proof.
  induction patternList as [| pattern rest IH]; intros first.
  - cbn. split; [constructor |]. intros h. split; [contradiction |].
    unfold len. cbn [List.length]. lia.
  - cbn [List.length seq map combine flat_map].
    destruct (IH (S first)) as (Sorted_ & In_). cbv zeta in *.
    set (tail := flat_map _ _) in *.
    assert (Above : Forall (Z.lt (Z.of_nat first + 1)) tail).
    { apply Forall_forall. intros h Hh. apply In_ in Hh. lia. }
    assert (Step : forall h,
               In h tail <->
               Z.of_nat first + 1 < h <= Z.of_nat first + len (pattern :: rest)
               /\ exists p,
                   nth_error (pattern :: rest) (Z.to_nat (h - 1) - first)
                   = Some p
                   /\ CheckTheInputs.truthy p = true).
    { intros h. rewrite In_. unfold len. cbn [List.length].
      split; intros (B & p & N & T).
      - split; [lia |]. exists p. split; [| exact T].
        replace (Z.to_nat (h - 1) - first)%nat
          with (S (Z.to_nat (h - 1) - S first)) by lia. exact N.
      - split; [lia |]. exists p. split; [| exact T].
        replace (Z.to_nat (h - 1) - first)%nat
          with (S (Z.to_nat (h - 1) - S first)) in N by lia. exact N. }
    destruct (CheckTheInputs.truthy pattern) eqn:T; cbn [app].
    + split; [constructor; assumption |].
      intros h. cbn [In]. rewrite Step. split.
      * intros [<- | (B & p & N & Tp)].
        -- unfold len. cbn [List.length]. split; [lia |].
           exists pattern. split; [| exact T].
           replace (Z.to_nat (Z.of_nat first + 1 - 1) - first)%nat with 0%nat
             by lia.
           reflexivity.
        -- split; [lia |]. eauto.
      * intros (B & p & N & Tp).
        destruct (Z.eq_dec h (Z.of_nat first + 1)) as [-> | Hne]; [auto |].
        right. split; [lia |]. eauto.
    + split; [exact Sorted_ |].
      intros h. rewrite Step. split.
      * intros (B & p & N & Tp). split; [lia |]. eauto.
      * intros (B & p & N & Tp).
        destruct (Z.eq_dec h (Z.of_nat first + 1)) as [-> | Hne].
        -- replace (Z.to_nat (Z.of_nat first + 1 - 1) - first)%nat with 0%nat
             in N by lia.
           cbn in N. injection N as <-. congruence.
        -- split; [lia |]. eauto.
Qed.

(** X20.  The hours that the 3D chart reports as meeting the statement are
    positions in the pattern counted from 1: they come in increasing order,
    and [h] is among them exactly when the pattern has an entry at position
    [h - 1] and that entry is true. *)
Theorem reported_hours_are_positions_in_the_pattern :
  forall patternList : list obj,
    StronglySorted Z.lt (hoursOfYear patternList)
    /\ forall h,
        In h (hoursOfYear patternList) <->
        1 <= h <= len patternList
        /\ exists pattern,
            nth_error patternList (Z.to_nat (h - 1)) = Some pattern
            /\ CheckTheInputs.truthy pattern = true.
Proof.
  intros patternList.
  destruct (hoursOfYear_from patternList 0) as (S_ & I_). cbv zeta in *.
  unfold hoursOfYear, range, len. rewrite Nat2Z.id.
  split; [exact S_ |].
  intros h. rewrite I_. unfold len. rewrite Nat.sub_0_r.
  change (Z.of_nat 0) with 0. split; intros (B & E); (split; [lia | exact E]).
Qed.

Lemma hoursOfYear_all_true (patternList : list obj) :
  Forall (fun pattern => CheckTheInputs.truthy pattern = true) patternList ->
  forall first : nat,
    flat_map (fun '(hoy, pattern) =>
                if CheckTheInputs.truthy pattern then [hoy + 1] else [])
             (combine (map Z.of_nat (seq first (List.length patternList)))
                      patternList)
    = map (fun hoy => hoy + 1)
          (map Z.of_nat (seq first (List.length patternList))).
Proof.
  intros H. induction H as [| pattern rest T _ IH]; intros first;
    [reflexivity |].
  cbn [List.length seq map combine flat_map]. rewrite T, IH. reflexivity.
Qed.

Variable exec : Exec.

Lemma succeeded_all (finalStatement : string) (selList : list (list obj))
      (hours : list Z) :
  (forall HOY, In HOY hours ->
      exists v, exec finalStatement selList HOY = Ok v
                /\ CheckTheInputs.truthy v = true) ->
  List.length (succeeded exec finalStatement selList hours) = List.length hours
  /\ Forall (fun pattern => CheckTheInputs.truthy pattern = true)
            (succeeded exec finalStatement selList hours).
Proof.
  induction hours as [| h hours IH]; intros H.
  - split; [reflexivity | constructor].
  - destruct (H h (or_introl eq_refl)) as (v & E & T).
    destruct IH as (L & F); [intros; apply H; right; assumption |].
    unfold succeeded in *. cbn [flat_map]. rewrite E. cbn [app List.length].
    split; [f_equal; exact L | constructor; assumption].
Qed.

Lemma range_NoDup (n : Z) : NoDup (range n).
Proof.
  unfold range. generalize (seq_NoDup (Z.to_nat n) 0).
  induction 1 as [| k l Hk _ IH]; cbn [map]; constructor; [| exact IH].
  intros Hin. apply in_map_iff in Hin as (j & E & Hj).
  apply Nat2Z.inj in E. subst j. contradiction.
Qed.

(** X21.  Because an hour whose evaluation raises leaves no entry in the
    pattern of the 3D chart, the reported hours shift: when one hour of the
    year raises and every other hour meets the statement, the chart reports
    the hours 1 to 8759, whichever hour it was that raised. *)
Theorem one_raising_hour_shifts_the_reported_hours :
  forall (finalStatement : string) (selList : list (list obj))
         (raising : Z) (e : exn),
    0 <= raising < 8760 ->
    exec finalStatement selList raising = Raise e ->
    (forall HOY, 0 <= HOY < 8760 -> HOY <> raising ->
        exists v, exec finalStatement selList HOY = Ok v
                  /\ CheckTheInputs.truthy v = true) ->
    hoursOfYear (succeeded exec finalStatement selList (range 8760))
    = map (fun hoy => hoy + 1) (range 8759).
Proof.
  intros finalStatement selList raising e Hr E H.
  assert (Hin : In raising (range 8760)) by (apply range_In; exact Hr).
  destruct (in_split _ _ Hin) as (before & after & Split).
  pose proof (range_NoDup 8760) as ND. rewrite Split in ND.
  apply NoDup_remove_2 in ND.
  assert (L : (List.length before + List.length after)%nat = Z.to_nat 8759).
  { pose proof (range_length 8760) as RL. rewrite Split, length_app in RL.
    cbn [List.length] in RL. lia. }
  assert (All : forall HOY, In HOY (before ++ after) ->
              exists v, exec finalStatement selList HOY = Ok v
                        /\ CheckTheInputs.truthy v = true).
  { intros HOY Hh. apply H.
    - apply (range_In 8760). rewrite Split.
      apply in_app_or in Hh as [Hh | Hh]; apply in_or_app; [left | right; right];
        exact Hh.
    - intros ->. contradiction. }
  assert (P : succeeded exec finalStatement selList (range 8760)
              = succeeded exec finalStatement selList (before ++ after)).
  { rewrite Split. unfold succeeded. rewrite !flat_map_app. cbn [flat_map].
    rewrite E. reflexivity. }
  rewrite P. destruct (succeeded_all finalStatement selList _ All) as (Len & T).
  unfold hoursOfYear, range at 1, len. rewrite Nat2Z.id.
  rewrite (hoursOfYear_all_true _ T 0). rewrite Len, length_app, L.
  reflexivity.
Qed.

End HoursOfYearFacts.

Lemma one_raising_hour_shifts_the_reported_hours_witness :
  Chart3DMain.hoursOfYear
    (ConditionalReading.succeeded
       (fun _ _ HOY => if HOY =? 5 then Raise ZeroDivisionError
                       else Ok (PBool true))
       "pattern = 1/a > 0" [] (range 8760))
  = map (fun hoy => hoy + 1) (range 8759).
Proof.
  apply (one_raising_hour_shifts_the_reported_hours
           (fun _ _ HOY => if HOY =? 5 then Raise ZeroDivisionError
                           else Ok (PBool true))
           "pattern = 1/a > 0" [] 5 ZeroDivisionError).
  - lia.
  - reflexivity.
  - intros HOY _ Hne. exists (PBool true).
    destruct (Z.eqb_spec HOY 5) as [-> | _]; [contradiction |].
    split; reflexivity.
Defined.

(** ** The 3D chart: scales and segments *)

Section ScaleFacts.

Import Chart3DMain.

Variable float_of_text : string -> option pyfloat.

Lemma abs_positive (x : Q) : ~ (x == 0)%Q -> (0 < abs x)%Q.
Proof.
  intros H. unfold abs. destruct (Qle_bool 0 x) eqn:L.
  - apply Qle_bool_iff in L. apply Qle_lteq in L as [L | L]; [exact L |].
    exfalso. apply H. symmetry. exact L.
  - assert (x < 0)%Q.
    { apply Qnot_le_lt. intros C. apply Qle_bool_iff in C. congruence. }
    lra.
Qed.

Lemma fl_not_NaN (x : Q) : fl x <> NaN.
Proof.
  unfold fl. destruct (Qeq_bool x 0); [discriminate |].
  cbv zeta. destruct (Qle_bool _ _); discriminate.
Qed.

(** A number of at least the smallest subnormal does not round to zero. *)
Lemma fl_not_zero (x : Q) :
  (2 ^ (-1074) <= Qabs x)%Q -> isZero (fl x) = false.
Proof.
  intros H.
  pose proof (pow2_pos (-1074)) as P.
  assert (Hx : ~ (x == 0)%Q).
  { intros E. rewrite E in H. change (Qabs 0) with 0%Q in H. lra. }
  unfold fl.
  destruct (Qeq_bool x 0) eqn:Z0; [apply Qeq_bool_iff in Z0; contradiction |].
  cbv zeta. set (e := Z.max (floorLog2 x - 52) (-1074)).
  destruct (Qle_bool _ _); [reflexivity |].
  cbn [isZero].
  destruct (Qeq_bool (inject_Z (roundHalfEven (x / 2 ^ e)) * 2 ^ e) 0) eqn:R0;
    [| reflexivity].
  exfalso. apply Qeq_bool_iff in R0.
  pose proof (pow2_pos e) as Pe.
  assert (M : (inject_Z (roundHalfEven (x / 2 ^ e)) == 0)%Q).
  { apply Qmult_integral in R0. destruct R0 as [R0 | R0]; [exact R0 | lra]. }
  assert (Le : (2 ^ e <= Qabs x)%Q).
  { unfold e. destruct (Z.max_spec (floorLog2 x - 52) (-1074)) as [[_ ->] | [_ ->]];
      [exact H |].
    destruct (floorLog2_spec x Hx) as [S _].
    eapply Qle_trans; [| exact S].
    apply Qpower_le_compat_l; [lia | discriminate]. }
  destruct (Qlt_le_dec x 0) as [N | Pz].
  - rewrite Qabs_neg in Le by lra.
    assert (S : (x / 2 ^ e <= inject_Z (-1))%Q).
    { apply Qle_shift_div_r; [exact Pe |].
      change (inject_Z (-1)) with (-1)%Q. lra. }
    apply roundHalfEven_le in S.
    assert (Z1 : roundHalfEven (x / 2 ^ e) = 0)
      by (apply inject_Z_injective; exact M).
    lia.
  - rewrite Qabs_pos in Le by exact Pz.
    assert (S : (inject_Z 1 <= x / 2 ^ e)%Q).
    { apply Qle_shift_div_l; [exact Pe |].
      change (inject_Z 1) with 1%Q. lra. }
    apply roundHalfEven_ge in S.
    assert (Z1 : roundHalfEven (x / 2 ^ e) = 0)
      by (apply inject_Z_injective; exact M).
    lia.
Qed.

Lemma fmul_NaN_l (a : Q) (v : pyfloat) :
  ~ (a == 0)%Q -> (fmul (Finite a) v = NaN <-> v = NaN).
Proof.
  intros Ha.
  assert (A0 : Qeq_bool a 0 = false).
  { destruct (Qeq_bool a 0) eqn:E; [| reflexivity].
    apply Qeq_bool_iff in E. contradiction. }
  destruct v as [b | n |]; cbn [fmul].
  - split; [intros H; exfalso; exact (fl_not_NaN _ H) | discriminate].
  - rewrite A0. split; discriminate.
  - split; reflexivity.
Qed.

Lemma fmul_NaN_r (a : Q) (v : pyfloat) :
  ~ (a == 0)%Q -> (fmul v (Finite a) = NaN <-> v = NaN).
Proof.
  intros Ha.
  assert (A0 : Qeq_bool a 0 = false).
  { destruct (Qeq_bool a 0) eqn:E; [| reflexivity].
    apply Qeq_bool_iff in E. contradiction. }
  destruct v as [b | n |]; cbn [fmul].
  - split; [intros H; exfalso; exact (fl_not_NaN _ H) | discriminate].
  - rewrite A0. split; discriminate.
  - split; reflexivity.
Qed.

Lemma fdiv_NaN (v : pyfloat) (c : Q) :
  ~ (c == 0)%Q -> exists w, fdiv v c = Ok w /\ (w = NaN <-> v = NaN).
Proof.
  intros Hc. unfold fdiv.
  destruct (Qeq_bool c 0) eqn:E; [apply Qeq_bool_iff in E; contradiction |].
  destruct v as [a | n |]; eexists; (split; [reflexivity |]).
  - split; [intros H; exfalso; exact (fl_not_NaN _ H) | discriminate].
  - split; discriminate.
  - split; reflexivity.
Qed.

(** The default scale is a float other than zero. *)
Lemma default_scale (factor c : Q) :
  ~ (c == 0)%Q -> (Qabs c < 2 ^ 1024)%Q -> (1 <= factor)%Q ->
  exists d, fdiv (Finite (10 * factor)) c = Ok d
            /\ isZero d = false /\ d <> NaN.
Proof.
  intros Hc Bc Hf. unfold fdiv.
  destruct (Qeq_bool c 0) eqn:E; [apply Qeq_bool_iff in E; contradiction |].
  eexists. split; [reflexivity |]. split; [| apply fl_not_NaN].
  apply fl_not_zero.
  pose proof (pow2_pos (-1074)) as P.
  assert (S : (2 ^ (-1074) * 2 ^ 1024 <= 1)%Q).
  { rewrite <- Qpower_plus by discriminate.
    change (-1074 + 1024) with (-50).
    assert (T : (2 ^ (-50) <= 2 ^ 0)%Q)
      by (apply Qpower_le_compat_l; [lia | discriminate]).
    exact T. }
  assert (A : (0 < Qabs c)%Q).
  { apply Qabs_case; intros L.
    - apply Qle_lteq in L as [L | L]; [exact L |]. exfalso. apply Hc.
      symmetry. exact L.
    - apply Qle_lteq in L as [L | L]; [lra |]. exfalso. apply Hc. exact L. }
  assert (Q1 : (Qabs (10 * factor / c) == 10 * factor / Qabs c)%Q).
  { unfold Qdiv. rewrite Qabs_Qmult, Qabs_Qinv.
    rewrite (Qabs_pos (10 * factor)) by lra. reflexivity. }
  rewrite Q1. apply Qle_shift_div_l; [exact A |].
  assert (T : (2 ^ (-1074) * Qabs c <= 2 ^ (-1074) * 2 ^ 1024)%Q).
  { rewrite !(Qmult_comm (2 ^ (-1074))).
    apply Qmult_le_compat_r; [apply Qlt_le_weak, Bc | lra]. }
  lra.
Qed.

Lemma getitem_In {B : Type} (l : list B) (i : Z) (x : B) :
  getitem l i = Ok x -> In x l.
Proof.
  intros G. apply getitem_Ok_inv in G as (k & _ & N).
  eapply nth_error_In, N.
Qed.

Lemma itemRead_In (scale : list connected) (i : Z) (x : pyfloat) :
  itemRead float_of_text scale i = Some x ->
  exists item, In item scale /\ floatOf float_of_text item = Ok x.
Proof.
  unfold itemRead.
  destruct (getitem scale i) as [item |] eqn:G; cbn [bind].
  - destruct (floatOf float_of_text item) as [v |] eqn:F.
    + intros H. injection H as <-. exists item.
      split; [eapply getitem_In, G | exact F].
    + destruct (getitem scale 0) as [item0 |] eqn:G0; cbn [bind]; [| discriminate].
      destruct (floatOf float_of_text item0) as [v |] eqn:F0; [| discriminate].
      intros H. injection H as <-. exists item0.
      split; [eapply getitem_In, G0 | exact F0].
  - destruct (getitem scale 0) as [item0 |] eqn:G0; cbn [bind]; [| discriminate].
    destruct (floatOf float_of_text item0) as [v |] eqn:F0; [| discriminate].
    intros H. injection H as <-. exists item0.
    split; [eapply getitem_In, G0 | exact F0].
Qed.

(** The scale of one axis before [abs]: it is computed, it is not zero, and
    it is no number exactly when the item it is read from is none. *)
Lemma scaleOrDefault_spec (scale : list connected) (i : Z) (factor c : Q) :
  ~ (c == 0)%Q -> (Qabs c < 2 ^ 1024)%Q -> (1 <= factor)%Q ->
  exists w,
    scaleOrDefault float_of_text scale i factor c = Ok w
    /\ isZero w = false
    /\ (w = NaN <-> itemRead float_of_text scale i = Some NaN).
Proof.
  intros Hc Bc Hf.
  destruct (default_scale factor c Hc Bc Hf) as (d & Ed & Zd & Nd).
  assert (V : forall v,
             exists w,
               fdiv (fmul (fmul (Finite 10) v) (Finite factor)) c = Ok w
               /\ (w = NaN <-> v = NaN)).
  { intros v.
    destruct (fdiv_NaN (fmul (fmul (Finite 10) v) (Finite factor)) c Hc)
      as (w & Ew & Nw).
    exists w. split; [exact Ew |].
    rewrite Nw, fmul_NaN_r, fmul_NaN_l; [reflexivity | discriminate |].
    intros E. lra. }
  assert (Final : forall v w,
             fdiv (fmul (fmul (Finite 10) v) (Finite factor)) c = Ok w ->
             (w = NaN <-> v = NaN) ->
             exists w',
               (if isZero w then Ok d else Ok w) = Ok w'
               /\ isZero w' = false /\ (w' = NaN <-> Some v = Some NaN)).
  { intros v w _ Nw. destruct (isZero w) eqn:Zw.
    - exists d. split; [reflexivity |]. split; [exact Zd |].
      split; [intros E; contradiction |].
      intros E. injection E as ->. 
      assert (w = NaN) by (apply Nw; reflexivity). subst w. discriminate. 
    - exists w. split; [reflexivity |]. split; [exact Zw |].
      rewrite Nw. split; [intros ->; reflexivity | intros E; injection E; auto]. }
  unfold scaleOrDefault, scaled, itemRead. rewrite Ed.
  destruct (getitem scale i) as [item |] eqn:G; cbn [bind].
  - destruct (floatOf float_of_text item) as [v |] eqn:F; cbn [bind].
    + destruct (V v) as (w & Ew & Nw). rewrite Ew. cbn [try_except bind].
      apply (Final v w Ew Nw).
    + cbn [try_except].
      destruct (getitem scale 0) as [item0 |] eqn:G0; cbn [bind].
      * destruct (floatOf float_of_text item0) as [v |] eqn:F0; cbn [bind].
        -- destruct (V v) as (w & Ew & Nw). rewrite Ew. cbn [try_except bind].
           apply (Final v w Ew Nw).
        -- cbn [try_except bind]. rewrite Zd. exists d.
           split; [reflexivity |]. split; [exact Zd |].
           split; [intros E; contradiction | discriminate].
      * cbn [try_except bind]. rewrite Zd. exists d.
        split; [reflexivity |]. split; [exact Zd |].
        split; [intros E; contradiction | discriminate].
  - cbn [try_except].
    destruct (getitem scale 0) as [item0 |] eqn:G0; cbn [bind].
    + destruct (floatOf float_of_text item0) as [v |] eqn:F0; cbn [bind].
      * destruct (V v) as (w & Ew & Nw). rewrite Ew. cbn [try_except bind].
        apply (Final v w Ew Nw).
      * cbn [try_except bind]. rewrite Zd. exists d.
        split; [reflexivity |]. split; [exact Zd |].
        split; [intros E; contradiction | discriminate].
    + cbn [try_except bind]. rewrite Zd. exists d.
      split; [reflexivity |]. split; [exact Zd |].
      split; [intros E; contradiction | discriminate].
Qed.

Lemma fabs_above_zero (w : pyfloat) :
  isZero w = false -> (fabs w = NaN <-> w = NaN)
                      /\ (w <> NaN -> aboveZero (fabs w) = true).
Proof.
  intros Zw. destruct w as [a | n |]; cbn [fabs aboveZero isZero] in *.
  - split; [split; discriminate |]. intros _. apply Qltb_lt, abs_positive.
    intros E. apply Qeq_bool_iff in E. congruence.
  - split; [split; discriminate | reflexivity].
  - split; [split; reflexivity | congruence].
Qed.

(** X22.  Whatever is connected to the x and y scales of the 3D chart, a
    wrong item, a zero or nothing at all, the two scales that the chart is
    drawn with are computed, as long as the unit conversion factor is a
    float other than zero and the data's frequency is a text.  A scale is
    above zero unless the item it is read from (the item at [i] when that
    converts, else the first item when that converts) is no number: then
    the scale is no number either, and the test for zero lets it pass.
    With no item connected that converts to such a value, both scales are
    above zero. *)
Theorem chart_scales_are_above_zero :
  forall (frequency : string) (xScale yScale : list connected) (i : Z)
         (conversionFac : Q),
    ~ (conversionFac == 0)%Q -> (Qabs conversionFac < 2 ^ 1024)%Q ->
    exists ySC xSC,
      axisScales float_of_text (PStr frequency) xScale yScale i conversionFac
      = Ok (ySC, xSC)
      /\ (ySC = NaN <-> itemRead float_of_text xScale i = Some NaN)
      /\ (xSC = NaN <-> itemRead float_of_text yScale i = Some NaN)
      /\ (ySC <> NaN -> aboveZero ySC = true)
      /\ (xSC <> NaN -> aboveZero xSC = true)
      /\ ((forall item, In item (xScale ++ yScale) ->
                        floatOf float_of_text item <> Ok NaN) ->
          aboveZero ySC = true /\ aboveZero xSC = true).
Proof.
  intros frequency xScale yScale i c Hc Bc. unfold axisScales.
  cbn [PsychChartInputs.textIn bind].
  set (xExtraFactor := if negb (find frequency "Month" =? -1) then 10%Q else 1%Q).
  destruct (scaleOrDefault_spec xScale i xExtraFactor c Hc Bc) as (x & Ex & Zx & Nx).
  { unfold xExtraFactor. destruct (negb _); lra. }
  destruct (scaleOrDefault_spec yScale i 1 c Hc Bc) as (y & Ey & Zy & Ny).
  { lra. }
  rewrite Ex. cbn [bind]. rewrite Ey. cbn [bind].
  destruct (fabs_above_zero x Zx) as (Ax & Px).
  destruct (fabs_above_zero y Zy) as (Ay & Py).
  exists (fabs x), (fabs y). split; [reflexivity |].
  split; [rewrite Ax; exact Nx |]. split; [rewrite Ay; exact Ny |].
  split; [intros H; apply Px; intros E; apply H, Ax, E |].
  split; [intros H; apply Py; intros E; apply H, Ay, E |].
  intros Hall. split.
  - apply Px. intros E. apply Nx in E.
    apply itemRead_In in E as (item & Hin & F).
    apply (Hall item); [apply in_or_app; left; exact Hin | exact F].
  - apply Py. intros E. apply Ny in E.
    apply itemRead_In in E as (item & Hin & F).
    apply (Hall item); [apply in_or_app; right; exact Hin | exact F].
Qed.

End ScaleFacts.

Lemma chart_scales_are_above_zero_witness :
  exists ySC xSC,
    Chart3DMain.axisScales Chart3DMain.nanOnly (PStr "Hourly")
      [Chart3DMain.Number (Chart3DMain.Finite 0)] [Chart3DMain.Text "nan"] 3 1
    = Ok (ySC, xSC)
    /\ Chart3DMain.aboveZero ySC = true
    /\ xSC = Chart3DMain.NaN.
Proof.
  destruct (chart_scales_are_above_zero
              Chart3DMain.nanOnly "Hourly"
              [Chart3DMain.Number (Chart3DMain.Finite 0)]
              [Chart3DMain.Text "nan"] 3 1)
    as (ySC & xSC & E & Ny & Nx & Py & _).
  - intros H. discriminate H.
  - vm_compute. reflexivity.
  - exists ySC, xSC. split; [exact E |].
    split; [| apply Nx; reflexivity].
    apply Py. intros C. apply Ny in C. discriminate C.
Defined.

(** ** The 3D chart: the mesh *)

Section MeshFacts.

Import Chart3DMain Chart3DMesh.

Variable float_of_string : string -> option Q.
Variable single : Q -> Q.

Lemma truncate_small (q : Q) : (-1 < q)%Q -> (q < 1)%Q -> truncate q = 0.
Proof.
  intros L U. unfold truncate. destruct (Qle_bool 0 q) eqn:S.
  - apply Qle_bool_iff in S. apply Qfloor_unique; [exact S | exact U].
  - assert (N : (q < 0)%Q).
    { apply Qnot_le_lt. intros C. apply Qle_bool_iff in C. congruence. }
    unfold Qceiling. rewrite (Qfloor_unique (- q) 0); [reflexivity | |].
    + change (inject_Z 0) with 0%Q. lra.
    + change (inject_Z (0 + 1)) with 1%Q. lra.
Qed.

Lemma getitem_first_of_nonempty {A : Type} (l : list A) (i : Z) (x : A) :
  getitem l i = Ok x ->
  negb (len l =? 0) = true /\ exists y, getitem l 0 = Ok y.
Proof.
  intros G. destruct l as [| y rest].
  - apply getitem_Ok_inv in G as (k & _ & N). destruct k; discriminate.
  - split; [reflexivity |]. exists y. apply (getitem_nth _ 0%nat). reflexivity.
Qed.

(** X23.  The number of segments of the y axis is tested for zero before it
    is cut down to an integer.  A [yCount] strictly between -1 and 1 other
    than 0 passes the test, becomes 0, and [makeChart] then divides the
    number of values by it: a [ZeroDivisionError]. *)
Theorem small_segment_count_ends_in_a_division_by_zero :
  forall (frequency : obj) (yCount : list obj) (i stHour endHour : Z)
         (item : obj) (q : Q),
    getitem yCount i = Ok item ->
    PsychChartInputs.float float_of_string item = Ok q ->
    ~ (q == 0)%Q -> (-1 < q)%Q -> (q < 1)%Q ->
    segments float_of_string frequency yCount i stHour endHour = Ok 0
    /\ forall (values : list Q) (xScale yScale zScale : Q) (basePoint : Point3d),
        meshFaces single values 0 xScale yScale zScale basePoint yCount
        = Raise ZeroDivisionError.
Proof.
  intros frequency yCount i stHour endHour item q G F N L U. split.
  - unfold segments. rewrite G. cbn [bind]. rewrite F. cbn [try_except bind].
    assert (Z0 : Qeq_bool q 0 = false).
    { destruct (Qeq_bool q 0) eqn:E; [| reflexivity].
      apply Qeq_bool_iff in E. contradiction. }
    rewrite Z0, (truncate_small q L U). reflexivity.
  - intros values xScale yScale zScale basePoint.
    destruct (getitem_first_of_nonempty yCount i item G) as (Ne & y & G0).
    unfold meshFaces, yCountOf. apply negb_true_iff in Ne. rewrite Ne, G0.
    reflexivity.
Qed.

Lemma for_enumerate_total {A B : Type} (body : Z -> A -> result B) :
  (forall i x, exists b, body i x = Ok b) ->
  forall (l : list A) (k : Z), exists bs, for_enumerate body k l = Ok bs.
Proof.
  intros H. induction l as [| x rest IH]; intros k.
  - exists []. reflexivity.
  - cbn [for_enumerate]. destruct (H k x) as (b & ->).
    destruct (IH (k + 1)) as (bs & ->). eexists. reflexivity.
Qed.

Lemma for_enumerate_nth {A B : Type} (body : Z -> A -> result B) :
  forall (l : list A) (k : Z) (bs : list B),
    for_enumerate body k l = Ok bs ->
    List.length bs = List.length l
    /\ forall (j : nat) (b : B),
        nth_error bs j = Some b ->
        exists x, nth_error l j = Some x /\ body (k + Z.of_nat j) x = Ok b.
Proof.
  induction l as [| x rest IH]; intros k bs E.
  - cbn in E. injection E as <-. split; [reflexivity |].
    intros [| j] b; discriminate.
  - cbn [for_enumerate] in E.
    destruct (body k x) as [b0 | e] eqn:Eb; [| discriminate].
    destruct (for_enumerate body (k + 1) rest) as [bs' | e] eqn:Er;
      [| discriminate].
    injection E as <-. destruct (IH (k + 1) bs' Er) as (L & N).
    split; [cbn; f_equal; exact L |].
    intros [| j] b Hb.
    + cbn in Hb. injection Hb as <-. exists x.
      rewrite Z.add_0_r. auto.
    + cbn in Hb. destruct (N j b Hb) as (y & Ny & By). exists y.
      split; [exact Ny |].
      replace (k + Z.of_nat (S j)) with (k + 1 + Z.of_nat j) by lia. exact By.
Qed.

Lemma inject_Z_eq (a b : Z) : (inject_Z a == inject_Z b)%Q -> a = b.
Proof. unfold Qeq. cbn. lia. Qed.

(** X24.  For a number of segments other than zero, [makeChart] returns
    one face per value, and the first corner of the face of value [i] is the
    base point moved by the narrowed moves of column [i % xSize] and row
    [i / xSize]: values of one column share their x, values of one row their
    y.  With the base point at the origin, as [main] passes it, and where
    the narrowing keeps the moves of different columns apart and the moves
    of different rows apart, the first corners of two different values never
    share both their x and their y. *)
Theorem every_value_has_a_face_of_its_own_place :
  forall (basePoint : Point3d) (xScale yScale zScale : Q) (xSize : Z)
         (values : list Q),
    xSize <> 0 ->
    exists faces,
      meshFacePts single basePoint xScale yScale zScale xSize values = Ok faces
      /\ List.length faces = List.length values
      /\ (forall (i : nat) (facei : list Point3d),
             nth_error faces i = Some facei ->
             exists cornei resti,
               facei = cornei :: resti
               /\ px cornei
                  = (px basePoint
                     + single (- xScale * inject_Z (Z.of_nat i mod xSize)))%Q
               /\ py cornei
                  = (py basePoint
                     + single (yScale * inject_Z (Z.of_nat i / xSize)))%Q)
      /\ ((px basePoint == 0)%Q -> (py basePoint == 0)%Q ->
          (forall i j : nat,
              (i < List.length values)%nat -> (j < List.length values)%nat ->
              (single (- xScale * inject_Z (Z.of_nat i mod xSize))
               == single (- xScale * inject_Z (Z.of_nat j mod xSize)))%Q ->
              Z.of_nat i mod xSize = Z.of_nat j mod xSize) ->
          (forall i j : nat,
              (i < List.length values)%nat -> (j < List.length values)%nat ->
              (single (yScale * inject_Z (Z.of_nat i / xSize))
               == single (yScale * inject_Z (Z.of_nat j / xSize)))%Q ->
              Z.of_nat i / xSize = Z.of_nat j / xSize) ->
          forall (i j : nat) (cornei cornej : Point3d) (resti restj : list Point3d),
            nth_error faces i = Some (cornei :: resti) ->
            nth_error faces j = Some (cornej :: restj) ->
            i <> j ->
            ~ ((px cornei == px cornej)%Q /\ (py cornei == py cornej)%Q)).
Proof.
  intros basePoint xScale yScale zScale xSize values Hs.
  assert (S0 : (xSize =? 0) = false) by (apply Z.eqb_neq; exact Hs).
  unfold meshFacePts.
  destruct (for_enumerate_total
              (facePts single basePoint xScale yScale zScale xSize)) with
    (l := values) (k := 0) as (faces & E).
  { intros i x. unfold facePts, modulo, floordiv. rewrite S0. cbn [bind].
    eexists. reflexivity. }
  exists faces. split; [exact E |].
  destruct (for_enumerate_nth _ values 0 faces E) as (L & N).
  split; [exact L |].
  assert (C : forall (i : nat) (facei : list Point3d),
             nth_error faces i = Some facei ->
             exists cornei resti,
               facei = cornei :: resti
               /\ px cornei
                  = (px basePoint
                     + single (- xScale * inject_Z (Z.of_nat i mod xSize)))%Q
               /\ py cornei
                  = (py basePoint
                     + single (yScale * inject_Z (Z.of_nat i / xSize)))%Q).
  { intros i facei Hi. destruct (N i facei Hi) as (vi & _ & Fi).
    unfold facePts, modulo, floordiv in Fi. rewrite S0 in Fi.
    cbn [bind] in Fi. injection Fi as <-.
    do 2 eexists. split; [reflexivity |].
    cbn [px py fst snd]. change (0 + Z.of_nat i) with (Z.of_nat i).
    split; reflexivity. }
  split; [exact C |].
  intros Bx By Hcol Hrow i j cornei cornej resti restj Hi Hj Hne [Ex Ey].
  assert (Li : (i < List.length values)%nat)
    by (rewrite <- L; apply nth_error_Some; congruence).
  assert (Lj : (j < List.length values)%nat)
    by (rewrite <- L; apply nth_error_Some; congruence).
  destruct (C i _ Hi) as (ci & ri & Ei & Xi & Yi). injection Ei as <- <-.
  destruct (C j _ Hj) as (cj & rj & Ej & Xj & Yj). injection Ej as <- <-.
  rewrite Xi, Xj in Ex. rewrite Yi, Yj in Ey.
  apply Qplus_inj_l in Ex. apply Qplus_inj_l in Ey.
  apply (Hcol i j Li Lj) in Ex. apply (Hrow i j Li Lj) in Ey.
  pose proof (Z.div_mod (Z.of_nat i) xSize Hs) as Di.
  pose proof (Z.div_mod (Z.of_nat j) xSize Hs) as Dj.
  apply Hne. apply Nat2Z.inj. rewrite Di, Dj, Ex, Ey. reflexivity.
Qed.

Lemma for_enumerate_nothing {A B : Type} (body : Z -> A -> result (list B)) :
  (forall i x, body i x = Ok []) ->
  forall (l : list A) (k : Z),
    exists bs, for_enumerate body k l = Ok bs /\ List.concat bs = [].
Proof.
  intros H. induction l as [| x rest IH]; intros k.
  - exists []. split; reflexivity.
  - cbn [for_enumerate]. rewrite H. destruct (IH (k + 1)) as (bs & -> & C).
    exists ([] :: bs). split; [reflexivity | exact C].
Qed.

(** X25.  With an integer [yCount] other than zero, and so with no
    [yCount] connected, the test of line 185 compares an integer quotient
    with itself: no face of the second webbing is ever built, and the mesh
    consists of the faces of the values and of the first webbing. *)
Theorem integer_segment_count_builds_no_second_webbing :
  forall (values : list Q) (xSize : Z) (xScale yScale zScale : Q)
         (basePoint : Point3d) (yCount : list obj) (segmentsOfY : Z),
    yCountOf yCount values xSize = Ok (PInt segmentsOfY) ->
    segmentsOfY <> 0 ->
    (forall meshFacePts : list (list Point3d),
        secondWebbing meshFacePts (PInt segmentsOfY) = Ok [])
    /\ meshFaces single values xSize xScale yScale zScale basePoint yCount
       = (ySize <- floordiv (len values) xSize ;;
          primary <- meshFacePts single basePoint xScale yScale zScale xSize values ;;
          first <- firstWebbing primary (PInt segmentsOfY) ;;
          Ok (primary ++ first)).
Proof.
  intros values xSize xScale yScale zScale basePoint yCount yc Y Hy.
  assert (Y0 : (yc =? 0) = false) by (apply Z.eqb_neq; exact Hy).
  assert (S2 : forall meshFacePts : list (list Point3d),
             secondWebbing meshFacePts (PInt yc) = Ok []).
  { intros faces. unfold secondWebbing.
    destruct (for_enumerate_nothing
                (fun listCount (list : list Point3d) =>
                   n <- CheckTheInputs.number (PInt yc) ;;
                   quotient <- Fragment.divide (inl listCount) n ;;
                   if negb (Qeq_bool (Fragment.toQ quotient)
                                     (inject_Z (int quotient)))
                   then
                     p2 <- getitem list 2 ;;
                     p1 <- getitem list 1 ;;
                     before <- getitem faces (listCount - 1) ;;
                     b0 <- getitem before 0 ;;
                     b3 <- getitem before 3 ;;
                     Ok [[p2; p1; b0; b3]]
                   else Ok [])) with (l := faces) (k := 0) as (bs & -> & C).
    - intros i x. cbn [CheckTheInputs.number bind Fragment.divide].
      rewrite Y0. cbn [bind Fragment.toQ int].
      rewrite Qeq_bool_refl. reflexivity.
    - cbn [bind]. rewrite C. reflexivity. }
  split; [exact S2 |].
  unfold meshFaces. rewrite Y. cbn [bind].
  destruct (floordiv (len values) xSize) as [ySize | e]; [| reflexivity].
  cbn [bind].
  destruct (meshFacePts single basePoint xScale yScale zScale xSize values)
    as [primary | e]; [| reflexivity].
  cbn [bind].
  destruct (firstWebbing primary (PInt yc)) as [first | e]; [| reflexivity].
  cbn [bind]. rewrite S2. cbn [bind]. rewrite app_nil_r. reflexivity.
Qed.

End MeshFacts.

Lemma small_segment_count_ends_in_a_division_by_zero_witness :
  Chart3DMain.segments Examples.float_of_string (PStr "Hourly")
                       [PFloat (1 # 2)] 0 1 24 = Ok 0
  /\ forall (values : list Q) (xScale yScale zScale : Q)
            (basePoint : Chart3DMesh.Point3d),
      Chart3DMesh.meshFaces Chart3DMesh.single24 values 0 xScale yScale zScale
                            basePoint [PFloat (1 # 2)]
      = Raise ZeroDivisionError.
Proof.
  apply (small_segment_count_ends_in_a_division_by_zero
           Examples.float_of_string Chart3DMesh.single24 (PStr "Hourly")
           [PFloat (1 # 2)] 0 1 24 (PFloat (1 # 2)) (1 # 2)); try reflexivity.
  intros H. discriminate H.
Defined.

Lemma every_value_has_a_face_of_its_own_place_witness :
  exists faces,
    Chart3DMesh.meshFacePts Chart3DMesh.single24 (0, 0, 0)%Q (1 # 10) (1 # 10) 1 2
                            [5; 6; 7]%Q = Ok faces
    /\ List.length faces = 3%nat
    /\ forall (i j : nat) (cornei cornej : Chart3DMesh.Point3d)
              (resti restj : list Chart3DMesh.Point3d),
        nth_error faces i = Some (cornei :: resti) ->
        nth_error faces j = Some (cornej :: restj) ->
        i <> j ->
        ~ ((Chart3DMesh.px cornei == Chart3DMesh.px cornej)%Q
           /\ (Chart3DMesh.py cornei == Chart3DMesh.py cornej)%Q).
Proof.
  destruct (every_value_has_a_face_of_its_own_place
              Chart3DMesh.single24 (0, 0, 0)%Q (1 # 10) (1 # 10) 1 2 [5; 6; 7]%Q)
    as (faces & E & L & _ & D); [discriminate |].
  exists faces. split; [exact E |]. split; [exact L |].
  apply D.
  - reflexivity.
  - reflexivity.
  - intros i j Hi Hj.
    destruct i as [| [| [| i]]]; [| | | simpl in Hi; lia];
      destruct j as [| [| [| j]]]; try (simpl in Hj; lia);
        vm_compute; intros H; try reflexivity; discriminate H.
  - intros i j Hi Hj.
    destruct i as [| [| [| i]]]; [| | | simpl in Hi; lia];
      destruct j as [| [| [| j]]]; try (simpl in Hj; lia);
        vm_compute; intros H; try reflexivity; discriminate H.
Defined.

Lemma integer_segment_count_builds_no_second_webbing_witness :
  (forall meshFacePts : list (list Chart3DMesh.Point3d),
      Chart3DMesh.secondWebbing meshFacePts (PInt 2) = Ok [])
  /\ Chart3DMesh.meshFaces Chart3DMesh.single24 [5; 6; 7]%Q 2 10 10 1 (0, 0, 0)%Q []
     = (ySize <- Chart3DMesh.floordiv (len [5; 6; 7]%Q) 2 ;;
        primary <- Chart3DMesh.meshFacePts Chart3DMesh.single24 (0, 0, 0)%Q 10 10 1 2
                     [5; 6; 7]%Q ;;
        first <- Chart3DMesh.firstWebbing primary (PInt 2) ;;
        Ok (primary ++ first)).
Proof.
  apply (integer_segment_count_builds_no_second_webbing
           Chart3DMesh.single24 [5; 6; 7]%Q 2 10 10 1 (0, 0, 0)%Q [] 2).
  - reflexivity.
  - discriminate.
Defined.

(** ** The 3D chart: the curves of the months *)

Section CurveFacts.

Import Chart3DCurves.
Import CurveReading.

(** X26.  The height that [createChartCrvs] calls [zMax] is taken from the
    first entry of the values sorted in ascending order: the chart curves
    are laid at the height of the lowest value of the data, not of the
    highest. *)
Theorem chart_curves_lie_at_the_lowest_value :
  forall (values : list Q) (xSize : Z) (zScale tolerance : Q),
    xSize <> 0 -> values <> [] ->
    exists lowest,
      In lowest values
      /\ zMax values xSize zScale tolerance
         = Ok (lowest * zScale + tolerance * 5)%Q
      /\ forall v, In v values -> (lowest <= v)%Q.
Proof.
  intros values xSize zScale tolerance Hs Hv. unfold zMax, Chart3DMesh.floordiv.
  assert (S0 : (xSize =? 0) = false) by (apply Z.eqb_neq; exact Hs).
  rewrite S0. cbn [bind].
  pose proof (sort_sorted (fun _ _ _ _ _ _ _ _ _ => (0%Q, 0%Q)) values)
    as Sorted_.
  pose proof (fun y => sort_In (fun _ _ _ _ _ _ _ _ _ => (0%Q, 0%Q)) y values)
    as In_.
  destruct (PsychChartStrategies.sort values) as [| lowest rest] eqn:E.
  - destruct values as [| v values']; [contradiction |].
    exfalso. apply (proj2 (In_ v)). left. reflexivity.
  - exists lowest. split; [apply In_; left; reflexivity |].
    assert (G : getitem (lowest :: rest) 0 = Ok lowest)
      by (apply (getitem_nth _ 0%nat); reflexivity).
    rewrite G. cbn [bind]. split; [reflexivity |].
    intros v Hin. apply In_ in Hin. inversion Sorted_ as [| ? ? _ F]; subst.
    destruct Hin as [<- | Hin]; [apply Qle_refl |].
    rewrite Forall_forall in F. apply F, Hin.
Qed.

Lemma for_enumerate_seq {A B : Type} (body : Z -> A -> result B)
      (f : nat -> A) (g : nat -> B) (n k0 : nat) :
  (forall j, (k0 <= j < k0 + n)%nat -> body (Z.of_nat j) (f j) = Ok (g j)) ->
  for_enumerate body (Z.of_nat k0) (map f (seq k0 n)) = Ok (map g (seq k0 n)).
Proof.
  revert k0. induction n as [| n IH]; intros k0 H; [reflexivity |].
  cbn [seq map for_enumerate]. rewrite (H k0) by lia.
  replace (Z.of_nat k0 + 1) with (Z.of_nat (S k0)) by lia.
  rewrite IH by (intros j Hj; apply H; lia). reflexivity.
Qed.

Lemma monthEntry_days (startMonth startDay endMonth endDay months count month : Z) :
  1 <= month <= 12 ->
  monthEntry startMonth startDay endMonth endDay months count month
  = Ok (nth (Z.to_nat (month - 1)) monthNames "",
        daysGiven startMonth startDay endMonth endDay months count month).
Proof.
  intros H. unfold monthEntry, daysGiven.
  rewrite (getitem_at monthNames (month - 1) "") by (cbv [len monthNames List.length]; lia).
  rewrite (getitem_at daysPerMonth (month - 1) 0) by (cbv [len daysPerMonth List.length]; lia).
  cbn [bind].
  destruct ((count =? 0) && (startMonth =? endMonth)); [reflexivity |].
  destruct (count =? 0); [reflexivity |].
  destruct (count =? months - 1); [| reflexivity].
  cbn [andb].
  destruct (Z.eqb_spec endDay (nth (Z.to_nat (month - 1)) daysPerMonth 0)) as [-> | _];
    reflexivity.
Qed.

(** X27.  For an analysis period that starts and ends in the same year,
    the months from the first to the last each get their name and a number
    of days, and the days given to them add up to the days of the period:
    the first month counts from the start day, the last month up to the end
    day. *)
Theorem month_curves_cover_the_days_of_the_period :
  forall startMonth startDay startHour endMonth endDay endHour : Z,
    1 <= startMonth -> startMonth <= endMonth -> endMonth <= 12 ->
    exists textStrings daysList,
      monthsOfPeriod [startMonth; startDay; startHour]
                     [endMonth; endDay; endHour]
      = Ok (textStrings, daysList)
      /\ len daysList = endMonth - startMonth + 1
      /\ textStrings
         = firstn (Z.to_nat (endMonth - startMonth + 1))
                  (skipn (Z.to_nat (startMonth - 1)) monthNames)
      /\ Py.sum daysList
         = dayOfYear endMonth endDay - dayOfYear startMonth startDay + 1.
Proof.
  intros sm sd sh em ed eh H1 H2 H3.
  unfold monthsOfPeriod.
  change (getitem [sm; sd; sh] 0) with (Ok sm).
  change (getitem [sm; sd; sh] 1) with (Ok sd).
  change (getitem [sm; sd; sh] 2) with (Ok sh).
  change (getitem [em; ed; eh] 0) with (Ok em).
  change (getitem [em; ed; eh] 1) with (Ok ed).
  change (getitem [em; ed; eh] 2) with (Ok eh).
  cbn [bind]. unfold PsychChartMain.range3.
  replace ((em + 1 - sm + 1 - 1) / 1) with (em - sm + 1)
    by (rewrite Z.div_1_r; lia).
  set (n := Z.to_nat (em - sm + 1)).
  set (months := len (map (fun k : nat => sm + Z.of_nat k * 1) (seq 0 n))).
  assert (Hm : months = em - sm + 1)
    by (unfold months, len; rewrite length_map, length_seq; unfold n; lia).
  change 0 with (Z.of_nat 0) at 1.
  rewrite (for_enumerate_seq _ _
             (fun j => (nth (Z.to_nat (sm + Z.of_nat j * 1 - 1)) monthNames "",
                        daysGiven sm sd em ed months (Z.of_nat j)
                                  (sm + Z.of_nat j * 1))))
    by (intros j Hj; apply monthEntry_days; unfold n in Hj; lia).
  cbn [bind]. do 2 eexists. split; [reflexivity |].
  rewrite !map_map. cbn [fst snd].
  split; [unfold len; rewrite length_map, length_seq; unfold n; lia |].
  rewrite Hm. clear Hm months. subst n. unfold dayOfYear.
  assert (Cs : sm = 1 \/ sm = 2 \/ sm = 3 \/ sm = 4 \/ sm = 5 \/ sm = 6 \/ sm = 7
               \/ sm = 8 \/ sm = 9 \/ sm = 10 \/ sm = 11 \/ sm = 12) by lia.
  assert (Ce : em = 1 \/ em = 2 \/ em = 3 \/ em = 4 \/ em = 5 \/ em = 6 \/ em = 7
               \/ em = 8 \/ em = 9 \/ em = 10 \/ em = 11 \/ em = 12) by lia.
  clear H1 H3.
  repeat (destruct Cs as [-> | Cs]); try subst sm;
    repeat (destruct Ce as [-> | Ce]); try subst em;
    try (exfalso; lia); clear H2;
    (split; [vm_compute; reflexivity |]);
    repeat match goal with
           | |- context [Py.sum (firstn ?k daysPerMonth)] =>
               let r := eval vm_compute in (Py.sum (firstn k daysPerMonth)) in
               change (Py.sum (firstn k daysPerMonth)) with r
           | |- context [seq 0 ?k] =>
               let r := eval vm_compute in (seq 0 k) in
               change (seq 0 k) with r
           end;
    cbn [map]; unfold daysGiven;
    repeat match goal with
           | |- context [Z.eqb ?a ?b] =>
               let r := eval vm_compute in (Z.eqb a b) in
               change (Z.eqb a b) with r
           | |- context [nth ?k daysPerMonth 0] =>
               let r := eval vm_compute in (nth k daysPerMonth 0) in
               change (nth k daysPerMonth 0) with r
           end;
    cbn [andb]; rewrite ?sum_cons; change (Py.sum []) with 0; lia.
Qed.

End CurveFacts.

Lemma chart_curves_lie_at_the_lowest_value_witness :
  exists lowest,
    In lowest [3; 1; 2]%Q
    /\ Chart3DCurves.zMax [3; 1; 2]%Q 24 10 (1 # 100)
       = Ok (lowest * 10 + (1 # 100) * 5)%Q
    /\ forall v, In v [3; 1; 2]%Q -> (lowest <= v)%Q.
Proof.
  apply (chart_curves_lie_at_the_lowest_value [3; 1; 2]%Q 24 10 (1 # 100));
    discriminate.
Defined.

Lemma month_curves_cover_the_days_of_the_period_witness :
  exists textStrings daysList,
    Chart3DCurves.monthsOfPeriod [3; 15; 1] [5; 10; 24]
    = Ok (textStrings, daysList)
    /\ len daysList = 5 - 3 + 1
    /\ textStrings
       = firstn (Z.to_nat (5 - 3 + 1))
                (skipn (Z.to_nat (3 - 1)) Chart3DCurves.monthNames)
    /\ Py.sum daysList
       = Chart3DCurves.dayOfYear 5 10 - Chart3DCurves.dayOfYear 3 15 + 1.
Proof.
  apply (month_curves_cover_the_days_of_the_period 3 15 1 5 10 24); lia.
Defined.
